(** * otgen [run]: the traffic life-cycle control loop of [cmd/run.go]

    A shallow embedding of the target calculator
    ([calculateTrafficTargets]), of the two completion checks
    ([isTrafficRunning], [isTrafficRunningWithETA]) and of the
    orchestrator ([runCmd], [initOTG], [runTraffic], [checkResponse]),
    followed by the properties of the specification that are stated
    about them and by further properties of the same code.

    Machine integers are [Z] with the wrap-around written out; the
    [float32] and [float64] values of the Go code are the [spec_float]
    values of the IEEE 754 specification of the Standard Library, at
    precisions 24 and 53; the clock, the log and the remote server are
    explicit: a world that is threaded through the effectful code. *)

From Stdlib Require Import ZArith List String Bool Lia Floats.SpecFloat Permutation.
Import ListNotations.

Local Open Scope Z_scope.

(** ** Machine integers *)

Module Int64.

Definition modulus : Z := 2 ^ 64.
Definition min_signed : Z := - 2 ^ 63.
Definition max_signed : Z := 2 ^ 63 - 1.

(** The value of an [int64] computation whose exact result is [z]. *)
Definition wrap (z : Z) : Z := (z - min_signed) mod modulus + min_signed.

Definition in_range (z : Z) : Prop := min_signed <= z <= max_signed.

Definition add (a b : Z) : Z := wrap (a + b).
Definition mul (a b : Z) : Z := wrap (a * b).

(** Go's [/] on integers truncates towards zero; the only overflow,
    [min_signed / -1], wraps. *)
Definition div (a b : Z) : Z := wrap (Z.quot a b).

End Int64.

Module Int32.

Definition min_signed : Z := - 2 ^ 31.
Definition max_signed : Z := 2 ^ 31 - 1.
Definition in_range (z : Z) : Prop := min_signed <= z <= max_signed.

End Int32.

(** ** Floating point: IEEE 754 binary32 and binary64 *)

Module Float.

Section Format.
Variables prec emax : Z.

(** Conversion of an integer, rounding to nearest, ties to even. *)
Definition of_Z (z : Z) : spec_float := binary_normalize prec emax z 0 false.

Definition mul : spec_float -> spec_float -> spec_float := SFmul prec emax.
End Format.

Definition ltb : spec_float -> spec_float -> bool := SFltb.

(** Conversion of a float to [int64]: the fraction is discarded; what
    does not fit (and NaN) is implementation-specific in Go, and is
    the "integer indefinite" value [min_signed] on amd64. *)
Definition trunc_magnitude (m : positive) (e : Z) : Z :=
  match e with
  | Z0 => Zpos m
  | Zpos p => Zpos m * 2 ^ Zpos p
  | Zneg p => Zpos m / 2 ^ Zpos p
  end.

Definition to_int64 (f : spec_float) : Z :=
  match f with
  | S754_zero _ => 0
  | S754_finite s m e =>
      let z := cond_Zopp s (trunc_magnitude m e) in
      if (Int64.min_signed <=? z) && (z <=? Int64.max_signed) then z
      else Int64.min_signed
  | S754_infinity _ | S754_nan => Int64.min_signed
  end.

End Float.

Definition float32 := spec_float.
Definition float64 := spec_float.

Definition float32_of_int64 : Z -> float32 := Float.of_Z 24 128.
Definition float64_of_int64 : Z -> float64 := Float.of_Z 53 1024.
Definition float32_mul : float32 -> float32 -> float32 := Float.mul 24 128.
Definition float32_zero : float32 := S754_zero false.

(** ** [time.Duration]: an [int64] count of nanoseconds *)

Module Duration.
Definition Second : Z := 1000000000.
End Duration.

(** ** The configuration, as [calculateTrafficTargets] reads it

    [gosnappi] is outside the repository.  The code converts
    [f.Duration().FixedPackets().Packets()] with [int64(...)] and divides
    it by [f.Rate().Pps()], which therefore is an [int64]; in the
    gosnappi releases where [Pps()] is an [int64], [Packets()] is an
    [int32]. *)

Record Flow := mkFlow {
  flow_name : string;
  Packets : Z;     (* f.Duration().FixedPackets().Packets() : int32 *)
  Pps : Z          (* f.Rate().Pps() : int64 *)
}.

Record Config := mkConfig { Flows : list Flow }.

(** ** Target calculator *)

(** The three variables the loop of [calculateTrafficTargets] updates. *)
Record Targets := mkTargets {
  pktCountTotal : Z;
  flowETA : Z;
  trafficETA : Z
}.

(** One iteration of [for _, f := range config.Flows().Items()]. *)
Definition targets_step (t : Targets) (f : Flow) : Targets :=
  let pktCountFlow := Packets f in
  let pktCountTotal' := Int64.add (pktCountTotal t) pktCountFlow in
  let ratePPSFlow := Pps f in
  let flowETA' :=
    if 0 <? ratePPSFlow
    then Int64.mul
           (Float.to_int64 (float64_of_int64 (Int64.div pktCountFlow ratePPSFlow)))
           Duration.Second
    else flowETA t in
  let trafficETA' :=
    if trafficETA t <? flowETA' then flowETA' else trafficETA t in
  mkTargets pktCountTotal' flowETA' trafficETA'.

Definition calculateTrafficTargets (config : Config) : Z * Z :=
  let t := fold_left targets_step (Flows config) (mkTargets 0 0 0) in
  (pktCountTotal t, trafficETA t).

(** ** Metrics snapshots *)

(** [gosnappi.FlowMetricTransmit]. *)
Inductive FlowMetricTransmit := UNSPECIFIED | STARTED | STOPPED | PAUSED.

Definition transmit_eqb (a b : FlowMetricTransmit) : bool :=
  match a, b with
  | UNSPECIFIED, UNSPECIFIED | STARTED, STARTED
  | STOPPED, STOPPED | PAUSED, PAUSED => true
  | _, _ => false
  end.

Record PortMetric := mkPortMetric {
  port_name : string;
  FramesTx : Z        (* pm.FramesTx() : int64, added to an int64 *)
}.

Record FlowMetric := mkFlowMetric {
  Name : string;
  Transmit : FlowMetricTransmit
}.

Record MetricsResponse := mkMetricsResponse {
  PortMetrics : list PortMetric;
  FlowMetrics : list FlowMetric
}.

(** ** The world the effectful code runs in *)

Inductive TransmitStateState := START | STOP.

Inductive MetricsChoice := PORT | FLOW.

(** What the program does that can be observed from outside, in order. *)
Inductive Event :=
| EvInfo (msg : string)                      (* log.Info / log.Infof *)
| EvTargets (targetTx eta : Z)               (* "Total packets to transmit: %d, ETA is: %s" *)
| EvWarning (w : string)                     (* log.Info("WARNING:", w) *)
| EvForcedStop (flow : option string) (elapsed : Z) (xeta : float32)
                                             (* log.Warnf("Traffic ... Forcing to stop") *)
| EvFatal (msg : string)                     (* log.Fatal / log.Fatalf, which exits *)
| EvReadFile (path : string)
| EvReadStdin
| EvSetConfig (config : Config)
| EvSetTransmitState (s : TransmitStateState)
| EvGetMetrics (choice : MetricsChoice)
| EvPrintln (json : string)
| EvNow                                      (* start := time.Now() *)
| EvSleep (d : Z).

(** A call that returns [(value, err)]. *)
Inductive Reply (A : Type) := Success (a : A) | Failure (err : string).
Arguments Success {A} a.
Arguments Failure {A} err.

(** The answers of everything outside the program.  [since_start n] is
    what the [n]-th evaluation of [time.Since(start)] returns and
    [GetMetrics n] what the [n]-th fetch returns. *)
Record Env := mkEnv {
  since_start : nat -> Z;
  ParseDuration : string -> Reply Z;
  ReadFile : string -> Reply string;
  ReadStdin : Reply string;
  FromJson : string -> Reply Config;
  FromYaml : string -> Reply Config;
  SetConfig : Config -> Reply (list string);
  SetTransmitState : TransmitStateState -> Reply (list string);
  GetMetrics : nat -> MetricsChoice -> Reply MetricsResponse;
  otgMetricsResponseToJson : MetricsResponse -> Reply string
}.

Record World := mkWorld {
  clock_reads : nat;       (* evaluations of time.Since(start) so far *)
  fetches : nat;           (* calls of api.GetMetrics so far *)
  trace : list Event       (* oldest first *)
}.

Definition initial_world : World := mkWorld 0 0 [].

Inductive Outcome (A : Type) :=
| Returned (a : A)
| Exited            (* os.Exit(1), through log.Fatal *)
| StillPolling.     (* the poll loop outlived the observation *)
Arguments Returned {A} a.
Arguments Exited {A}.
Arguments StillPolling {A}.

Definition M (A : Type) : Type := World -> Outcome A * World.

Definition ret {A} (a : A) : M A := fun w => (Returned a, w).

Definition bind {A B} (m : M A) (k : A -> M B) : M B :=
  fun w =>
    match m w with
    | (Returned a, w') => k a w'
    | (Exited, w') => (Exited, w')
    | (StillPolling, w') => (StillPolling, w')
    end.

Notation "x <- m ;; k" := (bind m (fun x => k))
  (at level 61, m at next level, right associativity).
Notation "m ;;; k" := (bind m (fun _ => k))
  (at level 61, right associativity).

Definition emit (e : Event) : M unit :=
  fun w => (Returned tt, mkWorld (clock_reads w) (fetches w) (trace w ++ [e])).

Definition log_Fatal {A} (msg : string) : M A :=
  fun w => (Exited, mkWorld (clock_reads w) (fetches w) (trace w ++ [EvFatal msg])).

Definition time_Since (env : Env) : M Z :=
  fun w => (Returned (since_start env (clock_reads w)),
            mkWorld (S (clock_reads w)) (fetches w) (trace w)).

Definition api_GetMetrics (env : Env) (req : MetricsChoice) : M (Reply MetricsResponse) :=
  fun w => (Returned (GetMetrics env (fetches w) req),
            mkWorld (clock_reads w) (S (fetches w)) (trace w ++ [EvGetMetrics req])).

(** ** The flags of the command (package-level variables) *)

Record Flags := mkFlags {
  otgURL : string;
  otgIgnoreX509 : bool;
  otgYaml : bool;
  otgJson : bool;
  otgFile : string;
  otgMetrics : string;
  otgPullIntervalStr : string;
  otgPullInterval : Z;
  xeta : float32
}.

Definition set_otgPullInterval (g : Flags) (d : Z) : Flags :=
  mkFlags (otgURL g) (otgIgnoreX509 g) (otgYaml g) (otgJson g) (otgFile g)
          (otgMetrics g) (otgPullIntervalStr g) d (xeta g).

(** ** Completion policy *)

(** [total_tx += pm.FramesTx()] over the port records. *)
Definition total_tx (pms : list PortMetric) : Z :=
  fold_left (fun acc pm => Int64.add acc (FramesTx pm)) pms 0.

(** The body of the flow scan of [isTrafficRunning]. *)
Definition flow_running_step (trafficRunning : bool) (fm : FlowMetric) : bool :=
  if negb trafficRunning && negb (transmit_eqb (Transmit fm) STOPPED)
  then true else trafficRunning.

Definition isTrafficRunning (g : Flags) (mr : MetricsResponse) (targetTx : Z) : bool :=
  let trafficRunning := false in
  if String.eqb (otgMetrics g) "port" then
    if total_tx (PortMetrics mr) <? targetTx then true else trafficRunning
  else if String.eqb (otgMetrics g) "flow" then
    fold_left flow_running_step (FlowMetrics mr) trafficRunning
  else false.

(** [float32(trafficETA)*xeta < float32(time.Since(start))] *)
Definition eta_exceeded (xeta : float32) (trafficETA elapsed : Z) : bool :=
  Float.ltb (float32_mul (float32_of_int64 trafficETA) xeta)
            (float32_of_int64 elapsed).

(** The flow scan of [isTrafficRunningWithETA]; the [break] ends it. *)
Fixpoint flow_scan_with_eta (env : Env) (g : Flags) (trafficETA : Z)
    (fms : list FlowMetric) (trafficRunning : bool) : M bool :=
  match fms with
  | [] => ret trafficRunning
  | fm :: rest =>
      let trafficRunning := flow_running_step trafficRunning fm in
      elapsed <- time_Since env ;;
      if eta_exceeded (xeta g) trafficETA elapsed then
        shown <- time_Since env ;;
        emit (EvForcedStop (Some (Name fm)) shown (xeta g)) ;;;
        ret false
      else flow_scan_with_eta env g trafficETA rest trafficRunning
  end.

Definition isTrafficRunningWithETA (env : Env) (g : Flags)
    (mr : MetricsResponse) (targetTx trafficETA : Z) : M bool :=
  let trafficRunning := false in
  if String.eqb (otgMetrics g) "port" then
    let trafficRunning :=
      if total_tx (PortMetrics mr) <? targetTx then true else trafficRunning in
    elapsed <- time_Since env ;;
    if eta_exceeded (xeta g) trafficETA elapsed then
      shown <- time_Since env ;;
      emit (EvForcedStop None shown (xeta g)) ;;;
      ret false
    else ret trafficRunning
  else if String.eqb (otgMetrics g) "flow" then
    flow_scan_with_eta env g trafficETA (FlowMetrics mr) trafficRunning
  else ret false.

(** ** Run orchestrator *)

(** What the type switch of [checkResponse] tells apart. *)
Inductive Response :=
| IsMetricsResponse (mr : MetricsResponse)
| IsResponseWarning (warnings : list string)
| IsOther.

Definition reply_map {A B} (f : A -> B) (r : Reply A) : Reply B :=
  match r with
  | Success a => Success (f a)
  | Failure err => Failure err
  end.

Definition printMetricsResponseRawJson (env : Env) (mr : MetricsResponse) : M unit :=
  match otgMetricsResponseToJson env mr with
  | Success j => emit (EvPrintln j)
  | Failure err => log_Fatal err
  end.

Fixpoint log_warnings (ws : list string) : M unit :=
  match ws with
  | [] => ret tt
  | w :: rest => emit (EvWarning w) ;;; log_warnings rest
  end.

Definition checkResponse (env : Env) (res : Reply Response) : M unit :=
  match res with
  | Failure err => log_Fatal err
  | Success (IsMetricsResponse v) => printMetricsResponseRawJson env v
  | Success (IsResponseWarning v) => log_warnings v
  | Success IsOther => log_Fatal "Unknown response type:"
  end.

Definition api_SetConfig (env : Env) (config : Config) : M (Reply (list string)) :=
  fun w => (Returned (SetConfig env config),
            mkWorld (clock_reads w) (fetches w) (trace w ++ [EvSetConfig config])).

Definition api_SetTransmitState (env : Env) (s : TransmitStateState)
  : M (Reply (list string)) :=
  fun w => (Returned (SetTransmitState env s),
            mkWorld (clock_reads w) (fetches w) (trace w ++ [EvSetTransmitState s])).

(** [req.Port()] or [req.Flow()], by [otgMetrics]. *)
Definition metrics_request (g : Flags) : MetricsChoice :=
  if String.eqb (otgMetrics g) "port" then PORT
  else if String.eqb (otgMetrics g) "flow" then FLOW
  else PORT.

(** The closure [trafficRunning] of [runTraffic], chosen by [xeta > 0]. *)
Definition trafficRunning (env : Env) (g : Flags)
    (metrics : MetricsResponse) (targetTx trafficETA : Z) : M bool :=
  if Float.ltb float32_zero (xeta g)
  then isTrafficRunningWithETA env g metrics targetTx trafficETA
  else ret (isTrafficRunning g metrics targetTx).

(** [for trafficRunning() { time.Sleep(...); metrics, err = api.GetMetrics(req);
    checkResponse(metrics, err) }], observed for at most [fuel] polls.
    On a failed fetch [checkResponse] has exited already: the last
    branch is never reached. *)
Fixpoint poll (fuel : nat) (env : Env) (g : Flags) (req : MetricsChoice)
    (targetTx trafficETA : Z) (metrics : MetricsResponse) : M unit :=
  running <- trafficRunning env g metrics targetTx trafficETA ;;
  if running then
    match fuel with
    | O => fun w => (StillPolling, w)
    | S fuel' =>
        emit (EvSleep (otgPullInterval g)) ;;;
        r <- api_GetMetrics env req ;;
        checkResponse env (reply_map IsMetricsResponse r) ;;;
        match r with
        | Success metrics' => poll fuel' env g req targetTx trafficETA metrics'
        | Failure err => log_Fatal err
        end
    end
  else ret tt.

Definition runTraffic (fuel : nat) (env : Env) (g : Flags) (config : Config) : M unit :=
  emit (EvInfo "Applying OTG config...") ;;;
  res <- api_SetConfig env config ;;
  checkResponse env (reply_map IsResponseWarning res) ;;;
  emit (EvInfo "ready.") ;;;
  emit (EvInfo "Starting traffic...") ;;;
  res <- api_SetTransmitState env START ;;
  checkResponse env (reply_map IsResponseWarning res) ;;;
  emit (EvInfo "started...") ;;;
  let (targetTx, trafficETA) := calculateTrafficTargets config in
  emit (EvTargets targetTx trafficETA) ;;;
  let req := metrics_request g in
  r <- api_GetMetrics env req ;;
  match r with
  | Failure err => log_Fatal err
  | Success metrics =>
      checkResponse env (Success (IsMetricsResponse metrics)) ;;;
      emit EvNow ;;;
      poll fuel env g req targetTx trafficETA metrics ;;;
      emit (EvInfo "Stopping traffic...") ;;;
      res <- api_SetTransmitState env STOP ;;
      checkResponse env (reply_map IsResponseWarning res) ;;;
      emit (EvInfo "stopped.")
  end.

(** [initOTG]: the API handle it also returns is created and pointed at
    [otgURL] without any call to the server. *)
Definition initOTG (env : Env) (g : Flags) : M Config :=
  otg <- (if negb (String.eqb (otgFile g) "")
          then emit (EvReadFile (otgFile g)) ;;;
               match ReadFile env (otgFile g) with
               | Success s => ret s
               | Failure err => log_Fatal err
               end
          else emit EvReadStdin ;;;
               match ReadStdin env with
               | Success s => ret s
               | Failure err => log_Fatal err
               end) ;;
  match (if otgJson g then FromJson env otg else FromYaml env otg) with
  | Success config => ret config
  | Failure err => log_Fatal err
  end.

(** The [Run] function of [runCmd]. *)
Definition runCmd (fuel : nat) (env : Env) (g : Flags) : M unit :=
  (if String.eqb (otgMetrics g) "port" then ret tt
   else if String.eqb (otgMetrics g) "flow" then ret tt
   else log_Fatal ("Unsupported metrics type requested: " ++ otgMetrics g)) ;;;
  match ParseDuration env (otgPullIntervalStr g) with
  | Failure err => log_Fatal err
  | Success d =>
      let g := set_otgPullInterval g d in
      config <- initOTG env g ;;
      runTraffic fuel env g config
  end.

(** ** What the properties are stated with *)

(** The exact sums the specification speaks of. *)
Definition sum_packets (fs : list Flow) : Z :=
  fold_right Z.add 0 (map Packets fs).

Definition sum_frames_tx (pms : list PortMetric) : Z :=
  fold_right Z.add 0 (map FramesTx pms).

(** [floor(packet_count / rate)] seconds. *)
Definition flow_eta (f : Flow) : Z := (Packets f / Pps f) * Duration.Second.

(** A flow whose packet count is a non-negative [int32]. *)
Definition counted_flow (f : Flow) : Prop := 0 <= Packets f <= Int32.max_signed.

Definition is_forced_stop (e : Event) : bool :=
  match e with EvForcedStop _ _ _ => true | _ => false end.

Definition is_targets (e : Event) : bool :=
  match e with EvTargets _ _ => true | _ => false end.

Definition is_start (e : Event) : bool :=
  match e with EvSetTransmitState START => true | _ => false end.

Definition count (p : Event -> bool) (tr : list Event) : nat :=
  List.length (filter p tr).

(** Position of the first event of a kind. *)
Fixpoint first_index (p : Event -> bool) (tr : list Event) : option nat :=
  match tr with
  | [] => None
  | e :: rest =>
      if p e then Some O
      else match first_index p rest with
           | Some n => Some (S n)
           | None => None
           end
  end.

(** The targets are logged, and START has not been sent before that. *)
Definition targets_before_start (tr : list Event) : bool :=
  match first_index is_targets tr, first_index is_start tr with
  | Some i, Some j => Nat.ltb i j
  | Some _, None => true
  | None, _ => false
  end.

(** Events of the run once the targets are known. *)
Definition after_targets (e : Event) : Prop :=
  is_targets e = false /\ is_start e = false.

(** Running a check twice in a row. *)
Definition twice {A} (m : M A) : M (A * A) :=
  a <- m ;; b <- m ;; ret (a, b).

(** The clock of [env] shows the same elapsed time at every reading. *)
Definition clock_stands_at (env : Env) (elapsed : Z) : Prop :=
  forall n, since_start env n = elapsed.

(** ** Traces

    How the properties speak of what a computation adds to the trace. *)

(** The events a computation appends to the trace, with its outcome,
    satisfy [R]. *)
Definition emits {A} (m : M A) (R : Outcome A -> list Event -> Prop) : Prop :=
  forall w, exists tr,
    trace (snd (m w)) = trace w ++ tr /\ R (fst (m w)) tr.

(** The events of a computation are all of one kind. *)
Definition only (P : Event -> Prop) {A} (m : M A) : Prop :=
  emits m (fun _ tr => Forall P tr).

(** At most [n] forced-stop warnings are signaled. *)
Definition forces (n : nat) {A} (m : M A) : Prop :=
  emits m (fun _ tr => (count is_forced_stop tr <= n)%nat).

(** What a completion check may signal: nothing when it answers
    "running", at most one forced stop otherwise. *)
Definition check_signal (o : Outcome bool) (tr : list Event) : Prop :=
  (o = Returned true -> tr = []) /\ (count is_forced_stop tr <= 1)%nat.

Definition is_fetch (e : Event) : bool :=
  match e with EvGetMetrics _ => true | _ => false end.

(** ** Examples of flags and environments *)

(** The flags as [init] declares them, but for the metrics mode and the
    multiplier. *)
Definition default_flags (metrics : string) (x : float32) : Flags :=
  mkFlags "https://localhost" false false false "" metrics "0.5s" 0 x.

(** An environment in which every call succeeds, the clock follows
    [elapsed] and the [n]-th fetch returns [snapshots n]. *)
Definition scripted_env (elapsed : nat -> Z) (snapshots : nat -> MetricsResponse) : Env :=
  mkEnv elapsed (fun _ => Success 500000000) (fun _ => Success "flows: []"%string)
        (Success "flows: []"%string)
        (fun _ => Success (mkConfig [])) (fun _ => Success (mkConfig []))
        (fun _ => Success []) (fun _ => Success [])
        (fun n _ => Success (snapshots n)) (fun _ => Success "{}"%string).

(** ** Rounding, spelled out

    What [binary_normalize] computes on an integer, in terms of
    division: used to reason about [float32(...)] and [float64(...)]. *)

(** The state of a right shift of [m0] by [k] bits. *)
Definition shr_spec (m0 : Z) (k : Z) : shr_record :=
  {| shr_m := m0 / 2 ^ k;
     shr_r := Z.testbit m0 (k - 1);
     shr_s := negb (m0 mod 2 ^ (k - 1) =? 0) |}.

(** Round to nearest, ties to even, from the round and sticky bits. *)
Definition rne (q : Z) (r s : bool) : Z :=
  if r && (s || Z.odd q) then q + 1 else q.

Definition rounded (p n : Z) : Z :=
  rne (p / 2 ^ n) (Z.testbit p (n - 1)) (negb (p mod 2 ^ (n - 1) =? 0)).

Definition le_lex (a b : Z * Z) : Prop :=
  snd a < snd b \/ snd a = snd b /\ fst a <= fst b.

Section RoundingSpec.
Variables prec emax : Z.

(** The second normalisation of [binary_round_aux], after rounding. *)
Definition renormalise (s : bool) (m e : Z) : spec_float :=
  if m <? 2 ^ prec
  then if e <=? emax - prec then S754_finite s (Z.to_pos m) e else S754_infinity s
  else if e + 1 <=? emax - prec
       then S754_finite s (Z.to_pos (2 ^ (prec - 1))) (e + 1) else S754_infinity s.

(** Mantissa (of [prec] digits) and exponent of the float nearest to [p]. *)
Definition round_pos (p : positive) : Z * Z :=
  let d := Zpos (digits2_pos p) in
  if d <=? prec then (Zpos p * 2 ^ (prec - d), d - prec)
  else
    let n := d - prec in
    let m := rne (Zpos p / 2 ^ n) (Z.testbit (Zpos p) (n - 1))
                 (negb (Zpos p mod 2 ^ (n - 1) =? 0)) in
    if m <? 2 ^ prec then (m, n) else (2 ^ (prec - 1), n + 1).

Definition pack (s : bool) (me : Z * Z) : spec_float :=
  if snd me <=? emax - prec then S754_finite s (Z.to_pos (fst me)) (snd me)
  else S754_infinity s.

End RoundingSpec.

Ltac compare_cases :=
  repeat match goal with
  | |- context [Z.compare ?a ?b] => destruct (Z.compare_spec a b)
  | H : context [Z.compare ?a ?b] |- _ => destruct (Z.compare_spec a b)
  | |- context [Pos.compare_cont Eq ?a ?b] =>
      change (Pos.compare_cont Eq a b) with (Pos.compare a b);
      destruct (Pos.compare_spec a b)
  | H : context [Pos.compare_cont Eq ?a ?b] |- _ =>
      change (Pos.compare_cont Eq a b) with (Pos.compare a b) in H;
      destruct (Pos.compare_spec a b)
  end.


(** ** Further notions the properties are stated with *)

(** The ETA the source computes for one flow whose rate is > 0. *)
Definition flowETA_of (f : Flow) : Z :=
  Int64.mul
    (Float.to_int64 (float64_of_int64 (Int64.div (Packets f) (Pps f))))
    Duration.Second.

(** What the loop of [calculateTrafficTargets] does to [trafficETA]. *)
Definition longest_step (acc : Z) (f : Flow) : Z :=
  if 0 <? Pps f then Z.max acc (flowETA_of f) else acc.

(** Floats that are not below zero (NaN, which compares with nothing,
    included) and floats that are not above zero. *)
Definition not_negative (x : spec_float) : Prop :=
  match x with
  | S754_finite true _ _ | S754_infinity true => False
  | _ => True
  end.

Definition not_positive (x : spec_float) : Prop :=
  match x with
  | S754_finite false _ _ | S754_infinity false | S754_nan => False
  | _ => True
  end.

(** The world after one more event. *)
Definition push (w : World) (e : Event) : World :=
  mkWorld (clock_reads w) (fetches w) (trace w ++ [e]).

(** The world after a sleep and a fetch. *)
Definition polled (g : Flags) (req : MetricsChoice) (w : World) : World :=
  mkWorld (clock_reads w) (S (fetches w))
          ((trace w ++ [EvSleep (otgPullInterval g)]) ++ [EvGetMetrics req]).

(** The loop of a run with the target and the ETA fixed:
    [polls env g req targetTx trafficETA fuel metrics w o w'] when the
    loop, entered in the world [w] with the snapshot [metrics], ends in
    the world [w'] with the outcome [o] after at most [fuel] polls, each
    of its completion checks made against [targetTx] and [trafficETA]. *)
Inductive polls (env : Env) (g : Flags) (req : MetricsChoice) (targetTx trafficETA : Z)
  : nat -> MetricsResponse -> World -> Outcome unit -> World -> Prop :=
| polls_done fuel metrics w w1 :
    trafficRunning env g metrics targetTx trafficETA w = (Returned false, w1) ->
    polls env g req targetTx trafficETA fuel metrics w (Returned tt) w1
| polls_observed metrics w w1 :
    trafficRunning env g metrics targetTx trafficETA w = (Returned true, w1) ->
    polls env g req targetTx trafficETA O metrics w StillPolling w1
| polls_fetch_failed fuel metrics w w1 err :
    trafficRunning env g metrics targetTx trafficETA w = (Returned true, w1) ->
    GetMetrics env (fetches w1) req = Failure err ->
    polls env g req targetTx trafficETA (S fuel) metrics w Exited
          (push (polled g req w1) (EvFatal err))
| polls_print_failed fuel metrics w w1 metrics' err :
    trafficRunning env g metrics targetTx trafficETA w = (Returned true, w1) ->
    GetMetrics env (fetches w1) req = Success metrics' ->
    otgMetricsResponseToJson env metrics' = Failure err ->
    polls env g req targetTx trafficETA (S fuel) metrics w Exited
          (push (polled g req w1) (EvFatal err))
| polls_next fuel metrics w w1 metrics' j o w' :
    trafficRunning env g metrics targetTx trafficETA w = (Returned true, w1) ->
    GetMetrics env (fetches w1) req = Success metrics' ->
    otgMetricsResponseToJson env metrics' = Success j ->
    polls env g req targetTx trafficETA fuel metrics'
          (push (polled g req w1) (EvPrintln j)) o w' ->
    polls env g req targetTx trafficETA (S fuel) metrics w o w'.

Definition is_fatal (e : Event) : bool :=
  match e with EvFatal _ => true | _ => false end.

Definition is_stop (e : Event) : bool :=
  match e with EvSetTransmitState STOP => true | _ => false end.

Definition is_sleep (e : Event) : bool :=
  match e with EvSleep _ => true | _ => false end.

Definition is_remote_call (e : Event) : bool :=
  match e with
  | EvSetConfig _ | EvSetTransmitState _ | EvGetMetrics _ => true
  | _ => false
  end.

(** A computation that exits has logged the fatal error last, and only
    then; one that does not exit has logged none. *)
Definition ends_fatally {A} (o : Outcome A) (tr : list Event) : Prop :=
  match o with
  | Exited => exists pre msg, tr = pre ++ [EvFatal msg] /\ count is_fatal pre = 0%nat
  | _ => count is_fatal tr = 0%nat
  end.

(** The world after more events, and after a fetch with its events. *)
Definition logged (w : World) (tr : list Event) : World :=
  mkWorld (clock_reads w) (fetches w) (trace w ++ tr).

Definition fetched (w : World) (tr : list Event) : World :=
  mkWorld (clock_reads w) (S (fetches w)) (trace w ++ tr).

(** What a run logs and calls up to its first fetch. *)
Definition startup_events (g : Flags) (config : Config) (ws1 ws2 : list string)
  : list Event :=
  [EvInfo "Applying OTG config..."; EvSetConfig config] ++ map EvWarning ws1
  ++ [EvInfo "ready."; EvInfo "Starting traffic..."; EvSetTransmitState START]
  ++ map EvWarning ws2
  ++ [EvInfo "started...";
      EvTargets (fst (calculateTrafficTargets config))
                (snd (calculateTrafficTargets config));
      EvGetMetrics (metrics_request g)].

(** What a run logs and calls once the poll loop has ended. *)
Definition stop_events (ws : list string) : list Event :=
  [EvInfo "Stopping traffic..."; EvSetTransmitState STOP] ++ map EvWarning ws
  ++ [EvInfo "stopped."].

(** Every sleep in the trace lasts [d]. *)
Definition sleeps_for (d : Z) (e : Event) : Prop :=
  match e with EvSleep d' => d' = d | _ => True end.

(** Where [initOTG] reads the configuration from, and how it parses it. *)
Definition read_event (g : Flags) : Event :=
  if negb (String.eqb (otgFile g) "") then EvReadFile (otgFile g) else EvReadStdin.

Definition read_input (env : Env) (g : Flags) : Reply string :=
  if negb (String.eqb (otgFile g) "") then ReadFile env (otgFile g) else ReadStdin env.

Definition parse_config (env : Env) (g : Flags) (otg : string) : Reply Config :=
  if otgJson g then FromJson env otg else FromYaml env otg.

Definition is_println (e : Event) : bool :=
  match e with EvPrintln _ => true | _ => false end.

Definition is_sleep_or_fetch (e : Event) : bool := is_sleep e || is_fetch e.

(** [k] polls as the loop paces them: a sleep, then a fetch. *)
Fixpoint sleep_fetch (d : Z) (req : MetricsChoice) (k : nat) : list Event :=
  match k with
  | O => []
  | S k' => EvSleep d :: EvGetMetrics req :: sleep_fetch d req k'
  end.

(** The error of a remote call that failed, [n] fetches having been
    made before it. *)
Definition call_error (env : Env) (n : nat) (e : Event) : option string :=
  match e with
  | EvSetConfig config =>
      match SetConfig env config with Failure err => Some err | Success _ => None end
  | EvSetTransmitState s =>
      match SetTransmitState env s with Failure err => Some err | Success _ => None end
  | EvGetMetrics req =>
      match GetMetrics env n req with Failure err => Some err | Success _ => None end
  | _ => None
  end.

(** The error of the serialisation of a snapshot that was fetched. *)
Definition print_error (env : Env) (n : nat) (e : Event) : option string :=
  match e with
  | EvGetMetrics req =>
      match GetMetrics env n req with
      | Success mr =>
          match otgMetricsResponseToJson env mr with
          | Failure err => Some err
          | Success _ => None
          end
      | Failure _ => None
      end
  | _ => None
  end.

(** What comes after a fetch, [n] fetches having been made before it:
    the JSON of the snapshot it returned, printed, or else the fatal
    error of the fetch or of the serialisation, and nothing more. *)
Definition fetch_answered (env : Env) (n : nat) (req : MetricsChoice)
    (post : list Event) : Prop :=
  match GetMetrics env n req with
  | Failure err => post = [EvFatal err]
  | Success mr =>
      match otgMetricsResponseToJson env mr with
      | Success j => exists post', post = EvPrintln j :: post'
      | Failure err => post = [EvFatal err]
      end
  end.

(** The events of polls that succeed, given the JSON text each one
    prints. *)
Definition rounds (d : Z) (req : MetricsChoice) (js : list string) : list Event :=
  flat_map (fun j => [EvSleep d; EvGetMetrics req; EvPrintln j]) js.

(** [js] are the JSON texts of the snapshots that the fetches from the
    [n]-th on return. *)
Fixpoint json_of_fetches (env : Env) (req : MetricsChoice) (n : nat)
    (js : list string) : Prop :=
  match js with
  | [] => True
  | j :: js' =>
      (exists mr, GetMetrics env n req = Success mr
                  /\ otgMetricsResponseToJson env mr = Success j)
      /\ json_of_fetches env req (S n) js'
  end.

(** [Q n e post] at every event [e] of a trace, [n] being the number of
    fetches before it, counted from [n0], and [post] the events after
    it. *)
Definition at_each (Q : nat -> Event -> list Event -> Prop) (n0 : nat)
    (tr : list Event) : Prop :=
  forall pre e post, tr = pre ++ e :: post -> Q (n0 + count is_fetch pre)%nat e post.

(** Nothing is printed but right after a fetch; [after_fetch] tells
    whether the event before the trace was one. *)
Fixpoint printed_after_fetch (after_fetch : bool) (tr : list Event) : bool :=
  match tr with
  | [] => true
  | e :: rest =>
      (if is_println e then after_fetch else true)
      && printed_after_fetch (is_fetch e) rest
  end.

Definition ends_with_fetch (after_fetch : bool) (tr : list Event) : bool :=
  fold_left (fun _ e => is_fetch e) tr after_fetch.

(** A stretch of a trace that prints right after its own fetches only
    and does not end with a fetch. *)
Definition self_contained (tr : list Event) : Prop :=
  printed_after_fetch false tr = true /\ ends_with_fetch false tr = false.


(** * Properties *)

(** ** Rounding an integer to a float

    [binary_normalize] on an integer, step by step: the count of binary
    digits, the right shift with its round and sticky bits, the rounding
    and the second normalisation.  The outcome is [pack s (round_pos p)],
    from which exactness on short integers and monotonicity follow. *)

Lemma digits2_pos_iter_xO (k : positive) (p : positive) :
  digits2_pos (Pos.iter xO p k) = (digits2_pos p + k)%positive.
Proof.
  revert p. induction k using Pos.peano_ind; intros p.
  - simpl. lia.
  - rewrite Pos.iter_succ. simpl. rewrite IHk. lia.
Qed.

Lemma Zpos_iter_xO (k p : positive) :
  Zpos (Pos.iter xO p k) = Zpos p * 2 ^ Zpos k.
Proof.
  revert p. induction k using Pos.peano_ind; intros p.
  - simpl. lia.
  - rewrite Pos.iter_succ. rewrite Pos2Z.inj_xO, IHk.
    rewrite Pos2Z.inj_succ, Z.pow_succ_r by lia. lia.
Qed.

Section Exact.
Variables prec emax : Z.
Hypothesis prec_pos : 0 < prec.
Hypothesis emax_big : prec < emax.

(** A mantissa of exactly [prec] digits at an exponent within bounds is left alone. *)
Lemma binary_round_aux_canonical (s : bool) (m : positive) (e : Z) :
  Zpos (digits2_pos m) = prec ->
  3 - emax - prec <= e <= emax - prec ->
  binary_round_aux prec emax s (Zpos m) e loc_Exact = S754_finite s m e.
Proof.
  intros Hd He.
  unfold binary_round_aux, shr_fexp, fexp, emin. cbn [Zdigits2 shr_record_of_loc].
  rewrite Hd.
  replace (Z.max (prec + e - prec) (3 - emax - prec) - e) with 0 by lia.
  cbn [shr shr_m loc_of_shr_record round_nearest_even Zdigits2].
  rewrite Hd.
  replace (Z.max (prec + e - prec) (3 - emax - prec) - e) with 0 by lia.
  cbn [shr shr_m].
  destruct (Z.leb_spec e (emax - prec)); [reflexivity | lia].
Qed.
End Exact.

Lemma digits2_pos_size (p : positive) : digits2_pos p = Pos.size p.
Proof. induction p; simpl; congruence. Qed.

Lemma Zdigits2_log2 (p : positive) :
  Zpos (digits2_pos p) = Z.succ (Z.log2 (Zpos p)).
Proof.
  rewrite digits2_pos_size. destruct p; simpl; lia.
Qed.

(** A positive number of [d] binary digits lies in [[2^(d-1), 2^d)]. *)
Lemma Zdigits2_bounds (p : positive) :
  2 ^ (Zpos (digits2_pos p) - 1) <= Zpos p < 2 ^ Zpos (digits2_pos p).
Proof.
  rewrite Zdigits2_log2.
  replace (Z.succ (Z.log2 (Zpos p)) - 1) with (Z.log2 (Zpos p)) by lia.
  apply Z.log2_spec. lia.
Qed.

Lemma Zdigits2_unique (p : positive) (d : Z) :
  2 ^ (d - 1) <= Zpos p < 2 ^ d -> Zpos (digits2_pos p) = d.
Proof.
  intros H. rewrite Zdigits2_log2.
  assert (0 < d) as Hd.
  { destruct (Z.ltb_spec 0 d) as [|Hd]; [assumption|].
    destruct (Z.eq_dec d 0) as [->|]; [simpl in H; lia|].
    rewrite (Z.pow_neg_r 2 d) in H by lia. lia. }
  replace d with (Z.succ (d - 1)) in * by lia.
  f_equal. apply Z.log2_unique; [lia|].
  replace (Z.succ (d - 1) - 1) with (d - 1) in H by lia. exact H.
Qed.



Lemma shr_1_nonneg (m : Z) (r s : bool) :
  0 <= m ->
  shr_1 {| shr_m := m; shr_r := r; shr_s := s |}
  = {| shr_m := m / 2; shr_r := Z.odd m; shr_s := r || s |}.
Proof.
  intros Hm. destruct m as [|p|p]; [reflexivity| |lia].
  destruct p as [p|p|]; cbn [shr_1].
  - f_equal. rewrite Pos2Z.inj_xI. apply (Z.div_unique _ 2 _ 1); lia.
  - f_equal. rewrite Pos2Z.inj_xO. apply (Z.div_unique _ 2 _ 0); lia.
  - reflexivity.
Qed.

Lemma shr_spec_step (m0 k : Z) (r s : bool) :
  0 <= m0 -> 0 <= k ->
  shr_1 {| shr_m := m0 / 2 ^ k; shr_r := r; shr_s := s |}
  = {| shr_m := m0 / 2 ^ (k + 1); shr_r := Z.testbit m0 k; shr_s := r || s |}.
Proof.
  intros Hm Hk. rewrite shr_1_nonneg by (apply Z.div_pos; lia).
  f_equal.
  - rewrite Z.pow_add_r, Z.pow_1_r by lia. rewrite Z.div_div by lia. reflexivity.
  - rewrite Z.testbit_odd, Z.shiftr_div_pow2 by lia. reflexivity.
Qed.

Lemma iter_pos_nat {A} (f : A -> A) (p : positive) (x : A) :
  iter_pos f p x = Nat.iter (Pos.to_nat p) f x.
Proof.
  revert x. induction p as [p IH|p IH|]; intros x; cbn [iter_pos].
  - rewrite !IH, Pos2Nat.inj_xI.
    replace (S (2 * Pos.to_nat p))%nat with (Pos.to_nat p + (Pos.to_nat p + 1))%nat by lia.
    rewrite !Nat.iter_add. reflexivity.
  - rewrite !IH, Pos2Nat.inj_xO.
    replace (2 * Pos.to_nat p)%nat with (Pos.to_nat p + Pos.to_nat p)%nat by lia.
    rewrite Nat.iter_add. reflexivity.
  - reflexivity.
Qed.

Lemma mod_pow2_succ (m k : Z) :
  0 <= k ->
  m mod 2 ^ (k + 1) = m mod 2 ^ k + 2 ^ k * Z.b2z (Z.testbit m k).
Proof.
  intros Hk. rewrite Z.pow_add_r, Z.pow_1_r by lia.
  rewrite Z.rem_mul_r by lia.
  rewrite Z.testbit_spec' by lia. reflexivity.
Qed.

Lemma sticky_step (m k : Z) :
  0 <= k ->
  Z.testbit m k || negb (m mod 2 ^ k =? 0) = negb (m mod 2 ^ (k + 1) =? 0).
Proof.
  intros Hk. rewrite mod_pow2_succ by lia.
  pose proof (Z.mod_pos_bound m (2 ^ k) ltac:(lia)) as Hb.
  assert (0 < 2 ^ k) by lia.
  destruct (Z.testbit m k); cbn [Z.b2z orb].
  - symmetry. apply negb_true_iff, Z.eqb_neq. lia.
  - f_equal. f_equal. lia.
Qed.

Lemma iter_shr_1 (m0 : Z) (n : nat) :
  0 <= m0 ->
  Nat.iter (S n) shr_1 {| shr_m := m0; shr_r := false; shr_s := false |}
  = shr_spec m0 (Z.of_nat (S n)).
Proof.
  intros Hm. induction n as [|n IH].
  - cbn [Nat.iter nat_rect]. rewrite shr_1_nonneg by assumption.
    unfold shr_spec. change (Z.of_nat 1) with 1. change (1 - 1) with 0.
    rewrite Z.pow_1_r, Z.bit0_odd, Z.pow_0_r, Z.mod_1_r. reflexivity.
  - change (Nat.iter (S (S n)) shr_1 ?x) with (shr_1 (Nat.iter (S n) shr_1 x)).
    rewrite IH. unfold shr_spec.
    rewrite shr_spec_step by lia.
    f_equal.
    + f_equal. f_equal. lia.
    + f_equal. lia.
    + replace (Z.of_nat (S (S n)) - 1) with ((Z.of_nat (S n) - 1) + 1) by lia.
      rewrite <- sticky_step by lia. reflexivity.
Qed.

(** [n] right shifts: the quotient, the last bit shifted out and whether
    a bit was lost before it. *)
Lemma iter_pos_shr_1 (m0 : Z) (n : positive) :
  0 <= m0 ->
  iter_pos shr_1 n {| shr_m := m0; shr_r := false; shr_s := false |}
  = shr_spec m0 (Zpos n).
Proof.
  intros Hm. rewrite iter_pos_nat.
  destruct (Pos2Nat.is_succ n) as [k Hk]. rewrite Hk.
  rewrite iter_shr_1 by assumption. rewrite <- Hk, positive_nat_Z. reflexivity.
Qed.


Lemma round_nearest_even_rne (q : Z) (r s : bool) :
  round_nearest_even q (loc_of_shr_record {| shr_m := q; shr_r := r; shr_s := s |})
  = rne q r s.
Proof.
  unfold rne. rewrite <- Z.negb_even.
  destruct r, s; cbn; try reflexivity. destruct (Z.even q); reflexivity.
Qed.

Section Rounding.
Variables prec emax : Z.
Hypothesis prec_gt_1 : 1 < prec.
Hypothesis emax_big : prec < emax.


(** A mantissa of more than [prec] digits is shifted, rounded to the
    nearest even and normalised again. *)
Lemma binary_round_aux_shifted (s : bool) (p : positive) (e : Z) :
  prec < Zpos (digits2_pos p) ->
  3 - emax - prec <= e ->
  binary_round_aux prec emax s (Zpos p) e loc_Exact
  = let n := Zpos (digits2_pos p) - prec in
    renormalise prec emax s
      (rne (Zpos p / 2 ^ n) (Z.testbit (Zpos p) (n - 1))
           (negb (Zpos p mod 2 ^ (n - 1) =? 0)))
      (e + n).
Proof.
  intros Hd He. cbv zeta.
  pose proof (Zdigits2_bounds p) as Hp.
  set (d := Zpos (digits2_pos p)) in *.
  unfold binary_round_aux, shr_fexp, fexp, emin. cbn [Zdigits2 shr_record_of_loc].
  fold d.
  replace (Z.max (d + e - prec) (3 - emax - prec) - e) with (d - prec) by lia.
  destruct (d - prec) as [|n|n] eqn:Hn; try lia.
  cbn [shr]. rewrite iter_pos_shr_1 by lia.
  unfold shr_spec. cbn [shr_m].
  rewrite round_nearest_even_rne.
  set (q := Zpos p / 2 ^ Zpos n).
  assert (2 ^ (prec - 1) <= q < 2 ^ prec) as Hq.
  { unfold q. split.
    - apply Z.div_le_lower_bound; [lia|].
      rewrite <- Z.pow_add_r by lia. replace (Zpos n + (prec - 1)) with (d - 1) by lia. lia.
    - apply Z.div_lt_upper_bound; [lia|].
      rewrite <- Z.pow_add_r by lia. replace (Zpos n + prec) with d by lia. lia. }
  set (m := rne q _ _).
  assert (q <= m <= q + 1) as Hm.
  { unfold m, rne. destruct (_ && _); lia. }
  assert (0 < 2 ^ (prec - 1)) as Hpow by lia.
  destruct m as [|m'|m'] eqn:Em; try lia.
  unfold renormalise.
  destruct (Z.ltb_spec (Zpos m') (2 ^ prec)) as [Hlt|Hge].
  - assert (Zpos (digits2_pos m') = prec) as Hdm by (apply Zdigits2_unique; lia).
    cbn [Zdigits2]. rewrite Hdm.
    replace (Z.max (prec + (e + Zpos n) - prec) (3 - emax - prec) - (e + Zpos n)) with 0 by lia.
    cbn [shr shr_m]. rewrite Pos2Z.id. reflexivity.
  - assert (Zpos m' = 2 ^ prec) as Hm' by lia.
    assert (Zpos (digits2_pos m') = prec + 1) as Hdm.
    { apply Zdigits2_unique. replace (prec + 1 - 1) with prec by lia.
      rewrite Hm'. split; [lia|]. apply Z.pow_lt_mono_r; lia. }
    cbn [Zdigits2]. rewrite Hdm.
    replace (Z.max (prec + 1 + (e + Zpos n) - prec) (3 - emax - prec) - (e + Zpos n)) with 1 by lia.
    cbn [shr iter_pos]. rewrite Hm'.
    rewrite shr_1_nonneg by lia. cbn [shr_m].
    replace (2 ^ prec / 2) with (2 ^ (prec - 1)).
    2:{ replace prec with ((prec - 1) + 1) at 2 by lia.
        rewrite Z.pow_add_r, Z.pow_1_r by lia. rewrite Z.div_mul by lia. reflexivity. }
    destruct (2 ^ (prec - 1)) as [|h|h] eqn:Eh; try lia.
    rewrite Pos2Z.id. reflexivity.
Qed.

End Rounding.

Section OfZ.
Variables prec emax : Z.
Hypothesis prec_gt_1 : 1 < prec.
Hypothesis emax_big : prec < emax.



(** The float of an integer is the packed [round_pos] of its magnitude. *)
Lemma binary_round_round_pos (s : bool) (p : positive) :
  binary_round prec emax s p 0 = pack prec emax s (round_pos prec p).
Proof.
  unfold binary_round, round_pos, pack, shl_align, fexp, emin.
  pose proof (Zdigits2_bounds p) as Hp.
  set (d := Zpos (digits2_pos p)) in *.
  assert (0 < d) as Hd0 by (unfold d; lia).
  replace (d + 0) with d by lia.
  replace (Z.max (d - prec) (3 - emax - prec)) with (d - prec) by lia.
  replace (d - prec - 0) with (d - prec) by lia.
  destruct (Z.leb_spec d prec) as [Hle|Hgt].
  - cbn [fst snd].
    destruct (d - prec) as [|k|k] eqn:Hk; try lia.
    + replace (prec - d) with 0 by lia. rewrite Z.pow_0_r, Z.mul_1_r.
      rewrite (binary_round_aux_canonical prec emax) by (try fold d; lia).
      destruct (Z.leb_spec 0 (emax - prec)); [|lia]. reflexivity.
    + rewrite (binary_round_aux_canonical prec emax); try lia.
      2:{ rewrite digits2_pos_iter_xO. fold d in Hk |- *. lia. }
      destruct (Z.leb_spec (Zneg k) (emax - prec)); [|lia].
      f_equal. replace (prec - d) with (Zpos k) by lia.
      rewrite <- Zpos_iter_xO. reflexivity.
  - destruct (d - prec) as [|k|k] eqn:Hk; try lia.
    rewrite (binary_round_aux_shifted prec emax) by (try fold d; lia).
    cbv zeta. fold d. rewrite Hk. unfold renormalise.
    replace (0 + Zpos k) with (Zpos k) by lia.
    destruct (_ <? 2 ^ prec); cbn [fst snd]; reflexivity.
Qed.

Lemma of_Z_pos (p : positive) :
  Float.of_Z prec emax (Zpos p) = pack prec emax false (round_pos prec p).
Proof. apply binary_round_round_pos. Qed.

Lemma of_Z_neg (p : positive) :
  Float.of_Z prec emax (Zneg p) = pack prec emax true (round_pos prec p).
Proof. apply binary_round_round_pos. Qed.

End OfZ.

Lemma round_pos_small (prec : Z) (p : positive) :
  Zpos (digits2_pos p) <= prec ->
  round_pos prec p
  = (Zpos p * 2 ^ (prec - Zpos (digits2_pos p)), Zpos (digits2_pos p) - prec).
Proof.
  intros H. unfold round_pos. destruct (Z.leb_spec (Zpos (digits2_pos p)) prec); [reflexivity|lia].
Qed.

Lemma trunc_magnitude_exact (p : positive) (k : Z) :
  0 <= k ->
  Float.trunc_magnitude (Z.to_pos (Zpos p * 2 ^ k)) (- k) = Zpos p.
Proof.
  intros Hk. unfold Float.trunc_magnitude.
  assert (0 < 2 ^ k) by lia.
  rewrite Z2Pos.id by lia.
  destruct k as [|k|k]; try lia.
  - cbn [Z.opp]. rewrite Z.pow_0_r. lia.
  - cbn [Z.opp]. rewrite Z.div_mul by lia. reflexivity.
Qed.

Lemma float64_round_trip_pos (s : bool) (p : positive) :
  Zpos p < 2 ^ 53 ->
  Float.to_int64 (pack 53 1024 s (round_pos 53 p)) = cond_Zopp s (Zpos p).
Proof.
  intros Hp.
  assert (Zpos (digits2_pos p) <= 53) as Hd.
  { pose proof (Zdigits2_bounds p) as Hb.
    destruct (Z.leb_spec (Zpos (digits2_pos p)) 53) as [|Hgt]; [assumption|].
    assert (2 ^ 53 <= 2 ^ (Zpos (digits2_pos p) - 1)) by (apply Z.pow_le_mono_r; lia).
    lia. }
  rewrite round_pos_small by assumption.
  unfold pack. cbn [fst snd].
  destruct (Z.leb_spec (Zpos (digits2_pos p) - 53) (1024 - 53)); [|lia].
  unfold Float.to_int64.
  replace (Zpos (digits2_pos p) - 53) with (- (53 - Zpos (digits2_pos p))) by lia.
  rewrite trunc_magnitude_exact by lia.
  assert (2 ^ 53 < 2 ^ 63) by (apply Z.pow_lt_mono_r; lia).
  unfold Int64.min_signed, Int64.max_signed.
  destruct s; cbn [cond_Zopp].
  - destruct (Z.leb_spec (- 2 ^ 63) (- Zpos p)); [|lia].
    destruct (Z.leb_spec (- Zpos p) (2 ^ 63 - 1)); [|lia]. reflexivity.
  - destruct (Z.leb_spec (- 2 ^ 63) (Zpos p)); [|lia].
    destruct (Z.leb_spec (Zpos p) (2 ^ 63 - 1)); [|lia]. reflexivity.
Qed.

(** [int64(float64(z))] is [z] for an integer of at most 53 bits. *)
Lemma float64_round_trip (z : Z) :
  - 2 ^ 53 < z < 2 ^ 53 ->
  Float.to_int64 (float64_of_int64 z) = z.
Proof.
  intros Hz. unfold float64_of_int64. destruct z as [|p|p].
  - reflexivity.
  - rewrite of_Z_pos by lia. apply (float64_round_trip_pos false). lia.
  - rewrite of_Z_neg by lia. apply (float64_round_trip_pos true). lia.
Qed.

Section RoundPos.
Variable prec : Z.
Hypothesis prec_gt_1 : 1 < prec.

Lemma shifted_quotient_bounds (p : positive) :
  let d := Zpos (digits2_pos p) in
  prec < d ->
  2 ^ (prec - 1) <= Zpos p / 2 ^ (d - prec) < 2 ^ prec.
Proof.
  intros d Hd. pose proof (Zdigits2_bounds p) as Hp. fold d in Hp.
  assert (0 < 2 ^ (d - prec)) by lia.
  split.
  - apply Z.div_le_lower_bound; [lia|].
    rewrite <- Z.pow_add_r by lia. replace (d - prec + (prec - 1)) with (d - 1) by lia. lia.
  - apply Z.div_lt_upper_bound; [lia|].
    rewrite <- Z.pow_add_r by lia. replace (d - prec + prec) with d by lia. lia.
Qed.

Lemma rne_bounds (q : Z) (r s : bool) : q <= rne q r s <= q + 1.
Proof. unfold rne. destruct (_ && _); lia. Qed.

Lemma round_pos_shape (p : positive) :
  let d := Zpos (digits2_pos p) in
  2 ^ (prec - 1) <= fst (round_pos prec p) < 2 ^ prec /\
  (snd (round_pos prec p) = d - prec \/
   snd (round_pos prec p) = d - prec + 1 /\ fst (round_pos prec p) = 2 ^ (prec - 1)).
Proof.
  intros d. unfold round_pos. fold d.
  pose proof (Zdigits2_bounds p) as Hp. fold d in Hp.
  assert (0 < d) as Hd0 by (unfold d; lia).
  destruct (Z.leb_spec d prec) as [Hle|Hgt]; cbn [fst snd].
  - split; [|left; reflexivity].
    assert (0 < 2 ^ (prec - d)) by lia.
    split.
    + replace (prec - 1) with ((d - 1) + (prec - d)) by lia.
      rewrite Z.pow_add_r by lia. apply Z.mul_le_mono_nonneg_r; lia.
    + replace prec with (d + (prec - d)) at 2 by lia.
      rewrite Z.pow_add_r by lia. apply Z.mul_lt_mono_pos_r; lia.
  - pose proof (shifted_quotient_bounds p Hgt) as Hq. fold d in Hq.
    match goal with |- context [rne ?q ?r ?s] =>
      pose proof (rne_bounds q r s) as Hm; set (m := rne q r s) in * end.
    assert (2 ^ (prec - 1) < 2 ^ prec) by (apply Z.pow_lt_mono_r; lia).
    destruct (Z.ltb_spec m (2 ^ prec)); cbn [fst snd].
    + split; [lia | left; reflexivity].
    + split; [lia | right; split; reflexivity].
Qed.

End RoundPos.


Lemma rounded_mono (p1 p2 n : Z) :
  0 < n -> 0 <= p1 <= p2 -> rounded p1 n <= rounded p2 n.
Proof.
  intros Hn Hp. unfold rounded.
  assert (0 < 2 ^ (n - 1)) as Hpow by lia.
  assert (2 ^ n = 2 * 2 ^ (n - 1)) as Hpow2.
  { replace n with ((n - 1) + 1) at 1 by lia. rewrite Z.pow_add_r, Z.pow_1_r by lia. lia. }
  assert (p1 / 2 ^ n <= p2 / 2 ^ n) as Hq by (apply Z.div_le_mono; lia).
  pose proof (rne_bounds (p1 / 2 ^ n) (Z.testbit p1 (n - 1)) (negb (p1 mod 2 ^ (n - 1) =? 0))) as B1.
  pose proof (rne_bounds (p2 / 2 ^ n) (Z.testbit p2 (n - 1)) (negb (p2 mod 2 ^ (n - 1) =? 0))) as B2.
  destruct (Z.eq_dec (p1 / 2 ^ n) (p2 / 2 ^ n)) as [Heq|Hne]; [|lia].
  clear B1 B2 Hq.
  pose proof (Z.div_mod p1 (2 ^ n) ltac:(lia)) as D1.
  pose proof (Z.div_mod p2 (2 ^ n) ltac:(lia)) as D2.
  pose proof (mod_pow2_succ p1 (n - 1) ltac:(lia)) as M1.
  pose proof (mod_pow2_succ p2 (n - 1) ltac:(lia)) as M2.
  replace (n - 1 + 1) with n in M1, M2 by lia.
  pose proof (Z.mod_pos_bound p1 (2 ^ (n - 1)) Hpow) as L1.
  pose proof (Z.mod_pos_bound p2 (2 ^ (n - 1)) Hpow) as L2.
  rewrite <- Heq in *.
  set (q := p1 / 2 ^ n) in *.
  set (lo1 := p1 mod 2 ^ (n - 1)) in *. set (lo2 := p2 mod 2 ^ (n - 1)) in *.
  assert (p1 mod 2 ^ n <= p2 mod 2 ^ n) as Hrem by lia.
  rewrite M1, M2 in Hrem. clear D1 D2 M1 M2.
  unfold rne.
  destruct (Z.testbit p1 (n - 1)), (Z.testbit p2 (n - 1)); cbn [Z.b2z andb] in *;
    destruct (Z.eqb_spec lo1 0), (Z.eqb_spec lo2 0); cbn [negb orb];
    destruct (Z.odd q); lia.
Qed.


Section RoundPosMono.
Variable prec : Z.
Hypothesis prec_gt_1 : 1 < prec.

Lemma digits2_mono (p1 p2 : positive) :
  Zpos p1 <= Zpos p2 -> Zpos (digits2_pos p1) <= Zpos (digits2_pos p2).
Proof.
  intros H. rewrite !Zdigits2_log2.
  pose proof (Z.log2_le_mono _ _ H). lia.
Qed.

(** Rounding is monotone: exponent first, then mantissa. *)
Lemma round_pos_mono (p1 p2 : positive) :
  Zpos p1 <= Zpos p2 -> le_lex (round_pos prec p1) (round_pos prec p2).
Proof.
  intros Hp. pose proof (digits2_mono p1 p2 Hp) as Hd.
  destruct (Z.eq_dec (Zpos (digits2_pos p1)) (Zpos (digits2_pos p2))) as [Heq|Hne].
  - unfold round_pos. rewrite <- Heq.
    set (d := Zpos (digits2_pos p1)) in *.
    destruct (Z.leb_spec d prec) as [Hle|Hgt].
    + right. cbn [fst snd]. split; [reflexivity|].
      apply Z.mul_le_mono_nonneg_r; lia.
    + fold (rounded (Zpos p1) (d - prec)). fold (rounded (Zpos p2) (d - prec)).
      pose proof (rounded_mono (Zpos p1) (Zpos p2) (d - prec) ltac:(lia) ltac:(lia)) as Hm.
      destruct (Z.ltb_spec (rounded (Zpos p1) (d - prec)) (2 ^ prec)),
               (Z.ltb_spec (rounded (Zpos p2) (d - prec)) (2 ^ prec));
        unfold le_lex; cbn [fst snd]; lia.
  - pose proof (round_pos_shape prec prec_gt_1 p1) as [B1 S1].
    pose proof (round_pos_shape prec prec_gt_1 p2) as [B2 S2].
    unfold le_lex. lia.
Qed.

End RoundPosMono.

(** The comparison of floats is an order. *)
Lemma SFltb_leb_trans (a b c : spec_float) :
  SFltb a b = true -> SFleb b c = true -> SFltb a c = true.
Proof.
  unfold SFltb, SFleb.
  destruct a as [sa|sa| |sa ma ea], b as [sb|sb| |sb mb eb], c as [sc|sc| |sc mc ec];
    cbn [SFcompare]; try discriminate; try reflexivity;
    try (destruct sa; discriminate || reflexivity);
    try (destruct sa, sb; discriminate || reflexivity);
    try (destruct sb, sc; discriminate || reflexivity);
    try (destruct sa, sc; discriminate || reflexivity);
    try (destruct sa, sb, sc; discriminate || reflexivity).
  all: destruct sa, sb, sc; try discriminate; try reflexivity.
  all: compare_cases; cbn [CompOpp]; intros; try discriminate; try reflexivity; try lia.
Qed.

Lemma SFltb_not_leb (a b : spec_float) :
  SFltb a b = true -> SFleb b a = false.
Proof.
  unfold SFltb, SFleb.
  destruct a as [sa|sa| |sa ma ea], b as [sb|sb| |sb mb eb];
    cbn [SFcompare]; try discriminate; try reflexivity;
    try (destruct sa; discriminate || reflexivity);
    try (destruct sb; discriminate || reflexivity);
    try (destruct sa, sb; discriminate || reflexivity).
  destruct sa, sb; try discriminate; try reflexivity;
    compare_cases; cbn [CompOpp]; intros; try discriminate; try reflexivity; try lia.
Qed.

Section Monotone.
Variables prec emax : Z.
Hypothesis prec_gt_1 : 1 < prec.
Hypothesis emax_big : prec < emax.

Lemma pack_leb (s : bool) (a b : Z * Z) :
  0 < fst a -> 0 < fst b -> le_lex a b ->
  if s then SFleb (pack prec emax true b) (pack prec emax true a) = true
  else SFleb (pack prec emax false a) (pack prec emax false b) = true.
Proof.
  intros Ha Hb Hle. destruct a as [ma ea], b as [mb eb].
  unfold le_lex in Hle. cbn [fst snd] in *. unfold pack. cbn [fst snd].
  assert ((Z.to_pos ma <= Z.to_pos mb)%positive \/ ea < eb) as Hm.
  { destruct Hle as [|[_ Hle]]; [right; assumption|left].
    lia. }
  unfold SFleb.
  destruct s;
    destruct (Z.leb_spec ea (emax - prec)), (Z.leb_spec eb (emax - prec));
    cbn [SFcompare]; try reflexivity; try lia;
    compare_cases; cbn [CompOpp]; try reflexivity; lia.
Qed.

Lemma round_pos_fst_pos (p : positive) : 0 < fst (round_pos prec p).
Proof.
  pose proof (round_pos_shape prec prec_gt_1 p) as [B _].
  assert (0 < 2 ^ (prec - 1)) by lia. lia.
Qed.

(** The conversion of integers to floats is monotone. *)
Lemma of_Z_mono (z1 z2 : Z) :
  z1 <= z2 -> SFleb (Float.of_Z prec emax z1) (Float.of_Z prec emax z2) = true.
Proof.
  intros Hz.
  destruct z1 as [|p1|p1], z2 as [|p2|p2]; try lia;
    rewrite ?(of_Z_pos prec emax), ?(of_Z_neg prec emax) by assumption;
    try reflexivity.
  - unfold pack; destruct (_ <=? _); reflexivity.
  - apply (pack_leb false); auto using round_pos_fst_pos.
    apply round_pos_mono; assumption.
  - unfold pack; destruct (_ <=? _); reflexivity.
  - unfold pack; destruct (_ <=? _), (_ <=? _); reflexivity.
  - apply (pack_leb true); auto using round_pos_fst_pos.
    apply round_pos_mono; [assumption|lia].
Qed.

End Monotone.


(** ** Machine integers *)

Lemma wrap_in_range (z : Z) : Int64.in_range z -> Int64.wrap z = z.
Proof.
  unfold Int64.in_range, Int64.wrap, Int64.min_signed, Int64.max_signed, Int64.modulus.
  intros H. rewrite Z.mod_small; lia.
Qed.

Lemma wrap_add_l (a b : Z) : Int64.wrap (Int64.wrap a + b) = Int64.wrap (a + b).
Proof.
  unfold Int64.wrap. f_equal.
  replace ((a - Int64.min_signed) mod Int64.modulus + Int64.min_signed + b - Int64.min_signed)
    with ((a - Int64.min_signed) mod Int64.modulus + b) by lia.
  rewrite Zplus_mod_idemp_l. f_equal. lia.
Qed.

(** An [int64] accumulation is the exact sum, wrapped once. *)
Lemma fold_add_wrap {A} (f : A -> Z) (l : list A) (a : Z) :
  fold_left (fun acc x => Int64.add acc (f x)) l (Int64.wrap a)
  = Int64.wrap (a + fold_right Z.add 0 (map f l)).
Proof.
  revert a. induction l as [|x l IH]; intros a; cbn [fold_left map fold_right].
  - f_equal. lia.
  - unfold Int64.add at 2. rewrite wrap_add_l, IH. f_equal. lia.
Qed.

Lemma total_tx_sum (pms : list PortMetric) :
  total_tx pms = Int64.wrap (sum_frames_tx pms).
Proof.
  unfold total_tx, sum_frames_tx.
  change 0 with (Int64.wrap 0) at 1. rewrite fold_add_wrap. reflexivity.
Qed.

(** ** Target calculator *)

Lemma quotient_bounds (p r : Z) : 0 <= p -> 0 < r -> 0 <= p / r <= p.
Proof.
  intros Hp Hr. split; [apply Z.div_pos; lia|].
  apply Z.div_le_upper_bound; nia.
Qed.

(** The expression of the source for one flow's ETA, on a counted flow. *)
Lemma flow_eta_computed (f : Flow) :
  counted_flow f -> 0 < Pps f ->
  Int64.mul (Float.to_int64 (float64_of_int64 (Int64.div (Packets f) (Pps f))))
            Duration.Second
  = flow_eta f.
Proof.
  unfold counted_flow, Int32.max_signed. intros Hp Hr.
  pose proof (quotient_bounds (Packets f) (Pps f) ltac:(lia) Hr) as Hq.
  unfold Int64.div. rewrite Z.quot_div_nonneg by lia.
  rewrite wrap_in_range
    by (unfold Int64.in_range, Int64.min_signed, Int64.max_signed; lia).
  rewrite float64_round_trip by lia.
  unfold Int64.mul, flow_eta. apply wrap_in_range.
  unfold Int64.in_range, Int64.min_signed, Int64.max_signed, Duration.Second. lia.
Qed.

Lemma flow_eta_nonneg (f : Flow) : counted_flow f -> 0 < Pps f -> 0 <= flow_eta f.
Proof.
  unfold counted_flow. intros Hp Hr.
  pose proof (quotient_bounds (Packets f) (Pps f) ltac:(lia) Hr).
  unfold flow_eta, Duration.Second. lia.
Qed.

Lemma targets_step_counted (t : Targets) (f : Flow) :
  counted_flow f ->
  targets_step t f
  = let eta := if 0 <? Pps f then flow_eta f else flowETA t in
    mkTargets (Int64.add (pktCountTotal t) (Packets f)) eta
              (if trafficETA t <? eta then eta else trafficETA t).
Proof.
  intros Hf. unfold targets_step. cbv zeta.
  destruct (Z.ltb_spec 0 (Pps f)) as [Hr|Hr]; [|reflexivity].
  rewrite flow_eta_computed by assumption. reflexivity.
Qed.

Lemma fold_targets_total (fs : list Flow) (t : Targets) :
  pktCountTotal (fold_left targets_step fs t)
  = fold_left (fun acc f => Int64.add acc (Packets f)) fs (pktCountTotal t).
Proof.
  revert t. induction fs as [|f fs IH]; intros t; [reflexivity|].
  cbn [fold_left]. rewrite IH. reflexivity.
Qed.

(** The loop keeps the longest ETA seen; a stale [flowETA] never
    exceeds it. *)
Lemma fold_targets_eta (fs : list Flow) (t0 : Targets) :
  Forall counted_flow fs ->
  flowETA t0 <= trafficETA t0 ->
  let t := fold_left targets_step fs t0 in
  flowETA t <= trafficETA t /\
  trafficETA t0 <= trafficETA t /\
  (forall f, In f fs -> 0 < Pps f -> flow_eta f <= trafficETA t) /\
  (trafficETA t = trafficETA t0 \/
   exists f, In f fs /\ 0 < Pps f /\ trafficETA t = flow_eta f).
Proof.
  intros Hfs. revert t0. induction Hfs as [|f fs Hf Hfs IH]; intros t0 H0.
  - cbn. repeat split; try lia.
  - cbn [fold_left]. cbv zeta.
    pose proof (targets_step_counted t0 f Hf) as Hstep. cbv zeta in Hstep.
    set (t1 := targets_step t0 f) in *.
    assert (flowETA t1 <= trafficETA t1 /\ trafficETA t0 <= trafficETA t1 /\
            (0 < Pps f -> flow_eta f <= trafficETA t1) /\
            (trafficETA t1 = trafficETA t0 \/ 0 < Pps f /\ trafficETA t1 = flow_eta f))
      as (A1 & A2 & A3 & A4).
    { rewrite Hstep. cbn [flowETA trafficETA].
      destruct (Z.ltb_spec 0 (Pps f)) as [Hr|Hr].
      - destruct (Z.ltb_spec (trafficETA t0) (flow_eta f)); repeat split; lia || auto.
      - destruct (Z.ltb_spec (trafficETA t0) (flowETA t0)); repeat split; lia || auto. }
    destruct (IH t1 A1) as (B1 & B2 & B3 & B4). cbv zeta in *.
    repeat split; try lia.
    + intros f' [<-|Hin] Hr; [specialize (A3 Hr); lia | auto].
    + destruct B4 as [B4|(f' & Hin & Hr & B4)].
      * destruct A4 as [A4|[Hr A4]]; [left; lia|].
        right. exists f. repeat split; [left; reflexivity | assumption | lia].
      * right. exists f'. repeat split; [right; assumption | assumption | assumption].
Qed.


(** ** Completion policy: the target-only check *)

Lemma isTrafficRunning_port (g : Flags) (mr : MetricsResponse) (targetTx : Z) :
  otgMetrics g = "port"%string ->
  isTrafficRunning g mr targetTx = (total_tx (PortMetrics mr) <? targetTx).
Proof.
  intros Hm. unfold isTrafficRunning. rewrite Hm. cbn [String.eqb Ascii.eqb Bool.eqb].
  destruct (_ <? _); reflexivity.
Qed.

Lemma fold_flow_running (fms : list FlowMetric) (b : bool) :
  fold_left flow_running_step fms b
  = b || existsb (fun fm => negb (transmit_eqb (Transmit fm) STOPPED)) fms.
Proof.
  revert b. induction fms as [|fm fms IH]; intros b; cbn [fold_left existsb].
  - now rewrite orb_false_r.
  - rewrite IH. unfold flow_running_step.
    destruct b, (transmit_eqb (Transmit fm) STOPPED); reflexivity.
Qed.

Lemma isTrafficRunning_flow (g : Flags) (mr : MetricsResponse) (targetTx : Z) :
  otgMetrics g = "flow"%string ->
  isTrafficRunning g mr targetTx
  = existsb (fun fm => negb (transmit_eqb (Transmit fm) STOPPED)) (FlowMetrics mr).
Proof.
  intros Hm. unfold isTrafficRunning. rewrite Hm. cbn [String.eqb Ascii.eqb Bool.eqb].
  apply fold_flow_running.
Qed.

Lemma transmit_eqb_eq (a b : FlowMetricTransmit) : transmit_eqb a b = true <-> a = b.
Proof. destruct a, b; cbn; split; congruence. Qed.

(** ** Completion policy: the check with a forced stop *)

Lemma withETA_port (env : Env) (g : Flags) (mr : MetricsResponse)
    (targetTx eta : Z) (w : World) :
  otgMetrics g = "port"%string ->
  isTrafficRunningWithETA env g mr targetTx eta w
  = if eta_exceeded (xeta g) eta (since_start env (clock_reads w))
    then (Returned false,
          mkWorld (S (S (clock_reads w))) (fetches w)
                  (trace w ++ [EvForcedStop None (since_start env (S (clock_reads w))) (xeta g)]))
    else (Returned (total_tx (PortMetrics mr) <? targetTx),
          mkWorld (S (clock_reads w)) (fetches w) (trace w)).
Proof.
  intros Hm. unfold isTrafficRunningWithETA. rewrite Hm.
  cbn [String.eqb Ascii.eqb Bool.eqb].
  unfold bind, time_Since at 1. cbn [clock_reads fetches trace].
  destruct (eta_exceeded _ _ _); [reflexivity|].
  unfold ret. destruct (_ <? _); reflexivity.
Qed.

Lemma withETA_flow (env : Env) (g : Flags) (mr : MetricsResponse)
    (targetTx eta : Z) :
  otgMetrics g = "flow"%string ->
  isTrafficRunningWithETA env g mr targetTx eta
  = flow_scan_with_eta env g eta (FlowMetrics mr) false.
Proof.
  intros Hm. unfold isTrafficRunningWithETA. rewrite Hm. reflexivity.
Qed.

Lemma withETA_other (env : Env) (g : Flags) (mr : MetricsResponse)
    (targetTx eta : Z) :
  otgMetrics g <> "port"%string -> otgMetrics g <> "flow"%string ->
  isTrafficRunningWithETA env g mr targetTx eta = ret false.
Proof.
  intros Hp Hf. unfold isTrafficRunningWithETA.
  apply String.eqb_neq in Hp, Hf. rewrite Hp, Hf. reflexivity.
Qed.

(** The first record of the scan meets an exceeded bound: one warning,
    naming that record, and the scan ends. *)
Lemma flow_scan_exceeded (env : Env) (g : Flags) (eta : Z)
    (fm : FlowMetric) (rest : list FlowMetric) (b : bool) (w : World) :
  eta_exceeded (xeta g) eta (since_start env (clock_reads w)) = true ->
  flow_scan_with_eta env g eta (fm :: rest) b w
  = (Returned false,
     mkWorld (S (S (clock_reads w))) (fetches w)
             (trace w ++ [EvForcedStop (Some (Name fm))
                                       (since_start env (S (clock_reads w))) (xeta g)])).
Proof.
  intros He. cbn [flow_scan_with_eta]. unfold bind, time_Since at 1.
  cbn [clock_reads fetches trace]. rewrite He. reflexivity.
Qed.

Lemma flow_scan_not_exceeded (env : Env) (g : Flags) (eta : Z)
    (fm : FlowMetric) (rest : list FlowMetric) (b : bool) (w : World) :
  eta_exceeded (xeta g) eta (since_start env (clock_reads w)) = false ->
  flow_scan_with_eta env g eta (fm :: rest) b w
  = flow_scan_with_eta env g eta rest (flow_running_step b fm)
      (mkWorld (S (clock_reads w)) (fetches w) (trace w)).
Proof.
  intros He. cbn [flow_scan_with_eta]. unfold bind, time_Since at 1.
  cbn [clock_reads fetches trace]. rewrite He. reflexivity.
Qed.

(** While the bound is never exceeded the scan is the one of
    [isTrafficRunning], with one clock reading per record. *)
Lemma flow_scan_never_exceeded (env : Env) (g : Flags) (eta : Z)
    (fms : list FlowMetric) (b : bool) (w : World) :
  (forall n, eta_exceeded (xeta g) eta (since_start env n) = false) ->
  flow_scan_with_eta env g eta fms b w
  = (Returned (fold_left flow_running_step fms b),
     mkWorld (List.length fms + clock_reads w) (fetches w) (trace w)).
Proof.
  intros He. revert b w. induction fms as [|fm fms IH]; intros b w.
  - destruct w; reflexivity.
  - rewrite flow_scan_not_exceeded by apply He. rewrite IH.
    cbn [clock_reads fetches trace fold_left List.length]. f_equal. f_equal. lia.
Qed.

(** ** The bound [float32(trafficETA) * xeta] *)

(** Once exceeded, the bound stays exceeded as time goes on. *)
Lemma eta_exceeded_mono (x : float32) (eta e1 e2 : Z) :
  e1 <= e2 -> eta_exceeded x eta e1 = true -> eta_exceeded x eta e2 = true.
Proof.
  unfold eta_exceeded, Float.ltb, float32_of_int64. intros Hle H1.
  eapply SFltb_leb_trans; [exact H1|].
  apply of_Z_mono; lia.
Qed.

(** With an ETA of 0 and a finite positive multiplier the bound is 0. *)
Lemma eta_exceeded_zero (m : positive) (e : Z) (elapsed : Z) :
  eta_exceeded (S754_finite false m e) 0 elapsed = (0 <? elapsed).
Proof.
  unfold eta_exceeded, Float.ltb, float32_of_int64, float32_mul, Float.mul.
  change (Float.of_Z 24 128 0) with (S754_zero false). cbn [SFmul xorb].
  destruct elapsed as [|p|p].
  - reflexivity.
  - rewrite of_Z_pos by lia. unfold pack. destruct (_ <=? _); reflexivity.
  - rewrite of_Z_neg by lia. unfold pack. destruct (_ <=? _); reflexivity.
Qed.

Lemma float32_positive_finite (x : float32) :
  Float.ltb float32_zero x = true ->
  x <> S754_infinity false ->
  exists m e, x = S754_finite false m e.
Proof.
  unfold Float.ltb, SFltb, float32_zero.
  destruct x as [s|s| |s m e]; cbn [SFcompare]; try discriminate.
  - destruct s; [discriminate|congruence].
  - destruct s; [discriminate|]. intros _ _. eauto.
Qed.

(** [xeta = 2], [ETA = 10s]: the bound is exceeded from 20s + 1024ns on. *)
Lemma eta_exceeded_example (elapsed : Z) :
  eta_exceeded (float32_of_int64 2) (10 * Duration.Second) elapsed = true
  <-> 20 * Duration.Second + 1024 <= elapsed.
Proof.
  split.
  - intros H.
    destruct (Z.le_gt_cases (20 * Duration.Second + 1024) elapsed) as [|Hlt]; [assumption|].
    exfalso.
    assert (SFleb (float32_of_int64 elapsed)
                  (float32_of_int64 (20 * Duration.Second + 1023)) = true) as Hle
      by (apply of_Z_mono; lia).
    unfold eta_exceeded, Float.ltb in H.
    apply SFltb_not_leb in H.
    replace (float32_mul (float32_of_int64 (10 * Duration.Second)) (float32_of_int64 2))
      with (float32_of_int64 (20 * Duration.Second + 1023)) in H by (vm_compute; reflexivity).
    congruence.
  - intros H. apply (eta_exceeded_mono _ _ (20 * Duration.Second + 1024)); [assumption|].
    vm_compute. reflexivity.
Qed.


(** ** Traces of the effectful code *)

Lemma emits_weaken {A} (m : M A) (R R' : Outcome A -> list Event -> Prop) :
  emits m R -> (forall o tr, R o tr -> R' o tr) -> emits m R'.
Proof.
  intros Hm HR w. destruct (Hm w) as (tr & Ht & Hr). eauto.
Qed.

Lemma emits_ret {A} (a : A) (R : Outcome A -> list Event -> Prop) :
  R (Returned a) [] -> emits (ret a) R.
Proof.
  intros HR w. exists []. cbn. rewrite app_nil_r. auto.
Qed.

Lemma emits_emit (e : Event) (R : Outcome unit -> list Event -> Prop) :
  R (Returned tt) [e] -> emits (emit e) R.
Proof. intros HR w. exists [e]. cbn. auto. Qed.

Lemma emits_log_Fatal {A} (msg : string) (R : Outcome A -> list Event -> Prop) :
  R Exited [EvFatal msg] -> emits (log_Fatal msg) R.
Proof. intros HR w. exists [EvFatal msg]. cbn. auto. Qed.

Lemma emits_bind {A B} (m : M A) (k : A -> M B)
    (R1 : Outcome A -> list Event -> Prop) (R2 : A -> Outcome B -> list Event -> Prop)
    (R : Outcome B -> list Event -> Prop) :
  emits m R1 ->
  (forall a, emits (k a) (R2 a)) ->
  (forall a tr1 o tr2, R1 (Returned a) tr1 -> R2 a o tr2 -> R o (tr1 ++ tr2)) ->
  (forall tr, R1 Exited tr -> R Exited tr) ->
  (forall tr, R1 StillPolling tr -> R StillPolling tr) ->
  emits (bind m k) R.
Proof.
  intros Hm Hk Hret Hexit Hpoll w. unfold bind.
  destruct (Hm w) as (tr1 & Ht1 & Hr1).
  destruct (m w) as [[a| |] w1]; cbn [fst snd] in *.
  - destruct (Hk a w1) as (tr2 & Ht2 & Hr2).
    exists (tr1 ++ tr2). split.
    + rewrite Ht2, Ht1, app_assoc. reflexivity.
    + eauto.
  - exists tr1. auto.
  - exists tr1. auto.
Qed.

Lemma only_bind (P : Event -> Prop) {A B} (m : M A) (k : A -> M B) :
  only P m -> (forall a, only P (k a)) -> only P (bind m k).
Proof.
  intros Hm Hk. unfold only in *.
  eapply emits_bind; [exact Hm | exact Hk | | auto | auto].
  cbn. intros. apply Forall_app. auto.
Qed.

Lemma only_ret (P : Event -> Prop) {A} (a : A) : only P (ret a).
Proof. apply emits_ret. constructor. Qed.

Lemma only_emit (P : Event -> Prop) (e : Event) : P e -> only P (emit e).
Proof. intros. apply emits_emit. auto. Qed.

Lemma only_log_Fatal (P : Event -> Prop) {A} (msg : string) :
  P (EvFatal msg) -> only P (@log_Fatal A msg).
Proof. intros. apply emits_log_Fatal. auto. Qed.

Lemma only_time_Since (P : Event -> Prop) (env : Env) : only P (time_Since env).
Proof. intros w. exists []. cbn. rewrite app_nil_r. auto. Qed.

Lemma only_api_GetMetrics (P : Event -> Prop) (env : Env) (req : MetricsChoice) :
  P (EvGetMetrics req) -> only P (api_GetMetrics env req).
Proof. intros H w. exists [EvGetMetrics req]. cbn. auto. Qed.

Lemma only_api_SetTransmitState (P : Event -> Prop) (env : Env) (s : TransmitStateState) :
  P (EvSetTransmitState s) -> only P (api_SetTransmitState env s).
Proof. intros H w. exists [EvSetTransmitState s]. cbn. auto. Qed.

Lemma only_still_polling (P : Event -> Prop) {A} :
  only P (fun w => (@StillPolling A, w)).
Proof. intros w. exists []. cbn. rewrite app_nil_r. auto. Qed.

Section Only.
Variable P : Event -> Prop.
Hypothesis P_fatal : forall msg, P (EvFatal msg).
Hypothesis P_println : forall j, P (EvPrintln j).
Hypothesis P_warning : forall w, P (EvWarning w).
Hypothesis P_forced : forall n e x, P (EvForcedStop n e x).
Hypothesis P_sleep : forall d, P (EvSleep d).
Hypothesis P_fetch : forall c, P (EvGetMetrics c).

Lemma only_log_warnings (ws : list string) : only P (log_warnings ws).
Proof.
  induction ws as [|x ws IH]; cbn [log_warnings].
  - apply only_ret.
  - apply only_bind; [apply only_emit; auto | intros _; exact IH].
Qed.

Lemma only_printMetricsResponseRawJson (env : Env) (mr : MetricsResponse) :
  only P (printMetricsResponseRawJson env mr).
Proof.
  unfold printMetricsResponseRawJson.
  destruct (otgMetricsResponseToJson env mr).
  - apply only_emit; auto.
  - apply only_log_Fatal; auto.
Qed.

Lemma only_checkResponse (env : Env) (res : Reply Response) :
  only P (checkResponse env res).
Proof.
  unfold checkResponse. destruct res as [[mr|ws|]|err].
  - apply only_printMetricsResponseRawJson.
  - apply only_log_warnings.
  - apply only_log_Fatal; auto.
  - apply only_log_Fatal; auto.
Qed.

Lemma only_flow_scan (env : Env) (g : Flags) (eta : Z)
    (fms : list FlowMetric) (b : bool) :
  only P (flow_scan_with_eta env g eta fms b).
Proof.
  revert b. induction fms as [|fm fms IH]; intros b; cbn [flow_scan_with_eta].
  - apply only_ret.
  - apply only_bind; [apply only_time_Since|]. intros e.
    destruct (eta_exceeded _ _ _); [|apply IH].
    apply only_bind; [apply only_time_Since|]. intros e'.
    apply only_bind; [apply only_emit; auto | intros _; apply only_ret].
Qed.

Lemma only_isTrafficRunningWithETA (env : Env) (g : Flags)
    (mr : MetricsResponse) (targetTx eta : Z) :
  only P (isTrafficRunningWithETA env g mr targetTx eta).
Proof.
  unfold isTrafficRunningWithETA.
  destruct (String.eqb _ "port").
  - apply only_bind; [apply only_time_Since|]. intros e.
    destruct (eta_exceeded _ _ _); [|apply only_ret].
    apply only_bind; [apply only_time_Since|]. intros e'.
    apply only_bind; [apply only_emit; auto | intros _; apply only_ret].
  - destruct (String.eqb _ "flow"); [apply only_flow_scan | apply only_ret].
Qed.

Lemma only_trafficRunning (env : Env) (g : Flags)
    (mr : MetricsResponse) (targetTx eta : Z) :
  only P (trafficRunning env g mr targetTx eta).
Proof.
  unfold trafficRunning. destruct (Float.ltb _ _).
  - apply only_isTrafficRunningWithETA.
  - apply only_ret.
Qed.

Lemma only_poll (fuel : nat) (env : Env) (g : Flags) (req : MetricsChoice)
    (targetTx eta : Z) (mr : MetricsResponse) :
  only P (poll fuel env g req targetTx eta mr).
Proof.
  revert mr. induction fuel as [|fuel IH]; intros mr; cbn [poll].
  - apply only_bind; [apply only_trafficRunning|]. intros [|].
    + apply only_still_polling.
    + apply only_ret.
  - apply only_bind; [apply only_trafficRunning|]. intros [|]; [|apply only_ret].
    apply only_bind; [apply only_emit; auto|]. intros _.
    apply only_bind; [apply only_api_GetMetrics; auto|]. intros r.
    apply only_bind; [apply only_checkResponse|]. intros _.
    destruct r; [apply IH | apply only_log_Fatal; auto].
Qed.

End Only.


(** ** Counting forced stops *)

Lemma count_app (p : Event -> bool) (a b : list Event) :
  count p (a ++ b) = (count p a + count p b)%nat.
Proof. unfold count. rewrite filter_app, length_app. reflexivity. Qed.

Lemma count_quiet (p : Event -> bool) (tr : list Event) :
  Forall (fun e => p e = false) tr -> count p tr = 0%nat.
Proof.
  unfold count. induction 1 as [|e tr He _ IH]; [reflexivity|].
  cbn [filter]. rewrite He. exact IH.
Qed.

Lemma forces_only {A} (m : M A) (n : nat) :
  only (fun e => is_forced_stop e = false) m -> forces n m.
Proof.
  intros H. eapply emits_weaken; [exact H|].
  cbn. intros _ tr Htr. rewrite count_quiet by assumption. lia.
Qed.

Lemma forces_bind_l {A B} (n : nat) (m : M A) (k : A -> M B) :
  forces 0 m -> (forall a, forces n (k a)) -> forces n (bind m k).
Proof.
  intros Hm Hk. unfold forces in *.
  eapply emits_bind; [exact Hm | exact Hk | | |]; cbn.
  - intros a tr1 o tr2 H1 H2. rewrite count_app. lia.
  - intros; lia.
  - intros; lia.
Qed.

Lemma forces_bind_r {A B} (n : nat) (m : M A) (k : A -> M B) :
  forces n m -> (forall a, forces 0 (k a)) -> forces n (bind m k).
Proof.
  intros Hm Hk. unfold forces in *.
  eapply emits_bind; [exact Hm | exact Hk | | |]; cbn.
  - intros a tr1 o tr2 H1 H2. rewrite count_app. lia.
  - intros; lia.
  - intros; lia.
Qed.

Lemma check_signal_flow_scan (env : Env) (g : Flags) (eta : Z)
    (fms : list FlowMetric) (b : bool) :
  emits (flow_scan_with_eta env g eta fms b) check_signal.
Proof.
  revert b. induction fms as [|fm fms IH]; intros b w.
  - exists []. cbn. rewrite app_nil_r. split; [reflexivity|].
    split; [reflexivity | cbn; lia].
  - destruct (eta_exceeded (xeta g) eta (since_start env (clock_reads w))) eqn:He.
    + rewrite flow_scan_exceeded by assumption.
      eexists. cbn [fst snd trace]. split; [reflexivity|].
      split; [discriminate | cbn; lia].
    + rewrite flow_scan_not_exceeded by assumption.
      destruct (IH (flow_running_step b fm)
                   (mkWorld (S (clock_reads w)) (fetches w) (trace w))) as (tr & Ht & Hr).
      exists tr. split; assumption.
Qed.

Lemma check_signal_withETA (env : Env) (g : Flags)
    (mr : MetricsResponse) (targetTx eta : Z) :
  emits (isTrafficRunningWithETA env g mr targetTx eta) check_signal.
Proof.
  destruct (String.eqb_spec (otgMetrics g) "port") as [Hp|Hp].
  - intros w. rewrite withETA_port by assumption.
    destruct (eta_exceeded _ _ _).
    + eexists. cbn [fst snd trace]. split; [reflexivity|].
      split; [discriminate | cbn; lia].
    + exists []. cbn [fst snd trace]. rewrite app_nil_r. split; [reflexivity|].
      split; [reflexivity | cbn; lia].
  - destruct (String.eqb_spec (otgMetrics g) "flow") as [Hf|Hf].
    + rewrite withETA_flow by assumption. apply check_signal_flow_scan.
    + rewrite withETA_other by assumption.
      apply emits_ret. split; [reflexivity | cbn; lia].
Qed.

Lemma check_signal_trafficRunning (env : Env) (g : Flags)
    (mr : MetricsResponse) (targetTx eta : Z) :
  emits (trafficRunning env g mr targetTx eta) check_signal.
Proof.
  unfold trafficRunning. destruct (Float.ltb _ _).
  - apply check_signal_withETA.
  - apply emits_ret. split; [reflexivity | cbn; lia].
Qed.

Lemma not_forced_checkResponse (env : Env) (res : Reply Response) :
  only (fun e => is_forced_stop e = false) (checkResponse env res).
Proof. apply only_checkResponse; reflexivity. Qed.

(** The poll loop ends on the first check that answers "not running":
    it signals at most one forced stop. *)
Lemma forces_poll (fuel : nat) (env : Env) (g : Flags) (req : MetricsChoice)
    (targetTx eta : Z) (mr : MetricsResponse) :
  forces 1 (poll fuel env g req targetTx eta mr).
Proof.
  revert mr. induction fuel as [|fuel IH]; intros mr; cbn [poll]; unfold forces.
  - eapply emits_bind with
      (R2 := fun (a : bool) (_ : Outcome unit) tr => tr = []).
    + apply check_signal_trafficRunning.
    + intros [|]; intros w; exists []; cbn; rewrite app_nil_r; auto.
    + cbn. intros a tr1 o tr2 [_ H1] ->. rewrite app_nil_r. exact H1.
    + cbn. intros tr [_ H]; exact H.
    + cbn. intros tr [_ H]; exact H.
  - eapply emits_bind with
      (R2 := fun (a : bool) (_ : Outcome unit) tr =>
               if a then (count is_forced_stop tr <= 1)%nat else tr = []).
    + apply check_signal_trafficRunning.
    + intros [|]; [|intros w; exists []; cbn; rewrite app_nil_r; auto].
      apply forces_bind_l; [apply forces_only, only_emit; reflexivity|]. intros _.
      apply forces_bind_l; [apply forces_only, only_api_GetMetrics; reflexivity|].
      intros r.
      apply forces_bind_l; [apply forces_only, not_forced_checkResponse|]. intros _.
      destruct r; [apply IH | apply forces_only, only_log_Fatal; reflexivity].
    + cbn. intros [|] tr1 o tr2 [H0 H1] H2.
      * rewrite (H0 eq_refl). exact H2.
      * subst tr2. rewrite app_nil_r. exact H1.
    + cbn. intros tr [_ H]; exact H.
    + cbn. intros tr [_ H]; exact H.
Qed.


(** ** The run *)

Lemma only_api_SetConfig (P : Event -> Prop) (env : Env) (config : Config) :
  P (EvSetConfig config) -> only P (api_SetConfig env config).
Proof. intros H w. exists [EvSetConfig config]. cbn. auto. Qed.

Lemma run_log_warnings (ws : list string) (w : World) :
  log_warnings ws w
  = (Returned tt,
     mkWorld (clock_reads w) (fetches w) (trace w ++ map EvWarning ws)).
Proof.
  revert w. induction ws as [|x ws IH]; intros w; cbn [log_warnings map].
  - rewrite app_nil_r. destruct w; reflexivity.
  - unfold bind, emit. rewrite IH. cbn [clock_reads fetches trace].
    rewrite <- app_assoc. reflexivity.
Qed.

(** [checkResponse] on the answer of [SetConfig] or [SetTransmitState]. *)
Lemma run_checkResponse_warning (env : Env) (res : Reply (list string)) (w : World) :
  checkResponse env (reply_map IsResponseWarning res) w
  = match res with
    | Success ws =>
        (Returned tt,
         mkWorld (clock_reads w) (fetches w) (trace w ++ map EvWarning ws))
    | Failure err =>
        (Exited, mkWorld (clock_reads w) (fetches w) (trace w ++ [EvFatal err]))
    end.
Proof.
  destruct res as [ws|err]; cbn [reply_map checkResponse].
  - apply run_log_warnings.
  - reflexivity.
Qed.

(** What follows the computation of the targets logs no targets and
    sends no START. *)
Lemma only_after_targets (fuel : nat) (env : Env) (g : Flags) (targetTx eta : Z) :
  only after_targets
    (r <- api_GetMetrics env (metrics_request g) ;;
     match r with
     | Failure err => log_Fatal err
     | Success metrics =>
         checkResponse env (Success (IsMetricsResponse metrics)) ;;;
         emit EvNow ;;;
         poll fuel env g (metrics_request g) targetTx eta metrics ;;;
         emit (EvInfo "Stopping traffic...") ;;;
         res <- api_SetTransmitState env STOP ;;
         checkResponse env (reply_map IsResponseWarning res) ;;;
         emit (EvInfo "stopped.")
     end).
Proof.
  assert (forall e, is_targets e = false -> is_start e = false -> after_targets e)
    as Hafter by (intros; split; assumption).
  apply only_bind; [apply only_api_GetMetrics; apply Hafter; reflexivity|].
  intros [metrics|err]; [|apply only_log_Fatal; apply Hafter; reflexivity].
  apply only_bind; [apply only_checkResponse; intros; apply Hafter; reflexivity|].
  intros _. apply only_bind; [apply only_emit; apply Hafter; reflexivity|].
  intros _. apply only_bind; [apply only_poll; intros; apply Hafter; reflexivity|].
  intros _. apply only_bind; [apply only_emit; apply Hafter; reflexivity|].
  intros _. apply only_bind; [apply only_api_SetTransmitState; apply Hafter; reflexivity|].
  intros res. apply only_bind; [apply only_checkResponse; intros; apply Hafter; reflexivity|].
  intros _. apply only_emit; apply Hafter; reflexivity.
Qed.

Lemma Forall_map_warning (P : Event -> Prop) (ws : list string) :
  (forall x, P (EvWarning x)) -> Forall P (map EvWarning ws).
Proof. intros H. induction ws; cbn; constructor; auto. Qed.

Lemma count_map_warning (p : Event -> bool) (ws : list string) :
  (forall x, p (EvWarning x) = false) -> count p (map EvWarning ws) = 0%nat.
Proof. intros H. apply count_quiet, Forall_map_warning. exact H. Qed.



Ltac quiet_step :=
  apply forces_only;
  first [ apply only_emit; reflexivity
        | apply only_api_SetConfig; reflexivity
        | apply only_api_SetTransmitState; reflexivity
        | apply only_api_GetMetrics; reflexivity
        | apply not_forced_checkResponse
        | apply only_log_Fatal; reflexivity ].

(** A run signals at most one forced stop. *)
Lemma forces_runTraffic (fuel : nat) (env : Env) (g : Flags) (config : Config) :
  forces 1 (runTraffic fuel env g config).
Proof.
  unfold runTraffic. destruct (calculateTrafficTargets config) as [targetTx eta].
  do 9 (apply forces_bind_l; [quiet_step|]; intros ?).
  apply forces_bind_l; [quiet_step|]. intros [metrics|err]; [|quiet_step].
  do 2 (apply forces_bind_l; [quiet_step|]; intros ?).
  apply forces_bind_r; [apply forces_poll|]. intros _.
  do 3 (apply forces_bind_l; [quiet_step|]; intros ?).
  quiet_step.
Qed.

Lemma withETA_returns (env : Env) (g : Flags) (mr : MetricsResponse)
    (targetTx eta : Z) (w : World) :
  exists b w', isTrafficRunningWithETA env g mr targetTx eta w = (Returned b, w').
Proof.
  destruct (String.eqb_spec (otgMetrics g) "port") as [Hp|Hp].
  - rewrite withETA_port by assumption. destruct (eta_exceeded _ _ _); eauto.
  - destruct (String.eqb_spec (otgMetrics g) "flow") as [Hf|Hf].
    + rewrite withETA_flow by assumption.
      generalize false. revert w.
      induction (FlowMetrics mr) as [|fm fms IH]; intros w b.
      * cbn. unfold ret. eauto.
      * destruct (eta_exceeded (xeta g) eta (since_start env (clock_reads w))) eqn:He.
        -- rewrite flow_scan_exceeded by assumption. eauto.
        -- rewrite flow_scan_not_exceeded by assumption. apply IH.
    + rewrite withETA_other by assumption. unfold ret. eauto.
Qed.

(** With the clock at a standstill the answer of the check depends on
    nothing but its arguments and the elapsed time. *)
Lemma withETA_standstill (env1 env2 : Env) (g : Flags) (mr : MetricsResponse)
    (targetTx eta elapsed : Z) (w1 w2 : World) :
  clock_stands_at env1 elapsed -> clock_stands_at env2 elapsed ->
  fst (isTrafficRunningWithETA env1 g mr targetTx eta w1)
  = fst (isTrafficRunningWithETA env2 g mr targetTx eta w2).
Proof.
  intros H1 H2.
  destruct (String.eqb_spec (otgMetrics g) "port") as [Hp|Hp].
  - rewrite !withETA_port by assumption. rewrite H1, H2.
    destruct (eta_exceeded _ _ _); reflexivity.
  - destruct (String.eqb_spec (otgMetrics g) "flow") as [Hf|Hf].
    + rewrite !withETA_flow by assumption.
      generalize false. revert w1 w2.
      induction (FlowMetrics mr) as [|fm fms IH]; intros w1 w2 b; [reflexivity|].
      destruct (eta_exceeded (xeta g) eta elapsed) eqn:He.
      * rewrite !flow_scan_exceeded by (rewrite ?H1, ?H2; assumption). reflexivity.
      * rewrite !flow_scan_not_exceeded by (rewrite ?H1, ?H2; assumption). apply IH.
    + rewrite !withETA_other by assumption. reflexivity.
Qed.


(** ** The poll loop and the run, unfolded *)

Lemma poll_unfold (fuel : nat) (env : Env) (g : Flags) (req : MetricsChoice)
    (targetTx eta : Z) (metrics : MetricsResponse) (w : World) :
  poll fuel env g req targetTx eta metrics w
  = match trafficRunning env g metrics targetTx eta w with
    | (Returned true, w1) =>
        match fuel with
        | O => (StillPolling, w1)
        | S fuel' =>
            match GetMetrics env (fetches w1) req with
            | Failure err => (Exited, push (polled g req w1) (EvFatal err))
            | Success metrics' =>
                match otgMetricsResponseToJson env metrics' with
                | Success j =>
                    poll fuel' env g req targetTx eta metrics'
                         (push (polled g req w1) (EvPrintln j))
                | Failure err => (Exited, push (polled g req w1) (EvFatal err))
                end
            end
        end
    | (Returned false, w1) => (Returned tt, w1)
    | (Exited, w1) => (Exited, w1)
    | (StillPolling, w1) => (StillPolling, w1)
    end.
Proof.
  destruct fuel as [|fuel]; cbn [poll]; unfold bind at 1;
    destruct (trafficRunning env g metrics targetTx eta w) as [[[|]| |] w1];
    try reflexivity.
  unfold bind, emit, api_GetMetrics. cbn [clock_reads fetches trace].
  destruct (GetMetrics env (fetches w1) req) as [metrics'|err];
    cbn [reply_map checkResponse]; [|reflexivity].
  unfold printMetricsResponseRawJson.
  destruct (otgMetricsResponseToJson env metrics'); reflexivity.
Qed.

Lemma runTraffic_cases (fuel : nat) (env : Env) (g : Flags) (config : Config)
    (w : World) :
  runTraffic fuel env g config w
  = match SetConfig env config with
    | Failure err =>
        (Exited, logged w [EvInfo "Applying OTG config..."; EvSetConfig config;
                           EvFatal err])
    | Success ws1 =>
        match SetTransmitState env START with
        | Failure err =>
            (Exited,
             logged w ([EvInfo "Applying OTG config..."; EvSetConfig config]
                       ++ map EvWarning ws1
                       ++ [EvInfo "ready."; EvInfo "Starting traffic...";
                           EvSetTransmitState START; EvFatal err]))
        | Success ws2 =>
            let w1 := fetched w (startup_events g config ws1 ws2) in
            match GetMetrics env (fetches w) (metrics_request g) with
            | Failure err => (Exited, logged w1 [EvFatal err])
            | Success metrics =>
                match otgMetricsResponseToJson env metrics with
                | Failure err => (Exited, logged w1 [EvFatal err])
                | Success j =>
                    match poll fuel env g (metrics_request g)
                               (fst (calculateTrafficTargets config))
                               (snd (calculateTrafficTargets config)) metrics
                               (logged w1 [EvPrintln j; EvNow]) with
                    | (Returned _, w2) =>
                        match SetTransmitState env STOP with
                        | Success ws3 => (Returned tt, logged w2 (stop_events ws3))
                        | Failure err =>
                            (Exited,
                             logged w2 [EvInfo "Stopping traffic...";
                                        EvSetTransmitState STOP; EvFatal err])
                        end
                    | (Exited, w2) => (Exited, w2)
                    | (StillPolling, w2) => (StillPolling, w2)
                    end
                end
            end
        end
    end.
Proof.
  unfold runTraffic, startup_events, stop_events, logged, fetched.
  destruct (calculateTrafficTargets config) as [targetTx eta]. cbn [fst snd].
  unfold bind at 1 2 3 4 5 6 7 8 9 10.
  unfold emit at 1 2 3 4 5 6, api_SetConfig, api_SetTransmitState at 1,
    api_GetMetrics at 1.
  cbn [clock_reads fetches trace].
  rewrite run_checkResponse_warning.
  destruct (SetConfig env config) as [ws1|err1]; cbn [clock_reads fetches trace].
  2:{ rewrite <- !app_assoc. reflexivity. }
  rewrite run_checkResponse_warning.
  destruct (SetTransmitState env START) as [ws2|err2]; cbn [clock_reads fetches trace].
  2:{ rewrite <- !app_assoc. reflexivity. }
  cbv zeta.
  destruct (GetMetrics env (fetches w) (metrics_request g)) as [metrics|err].
  2:{ unfold log_Fatal. cbn [clock_reads fetches trace].
      rewrite <- !app_assoc. reflexivity. }
  unfold bind at 1. cbn [checkResponse]. unfold printMetricsResponseRawJson.
  destruct (otgMetricsResponseToJson env metrics) as [j|err].
  2:{ unfold log_Fatal. cbn [clock_reads fetches trace].
      rewrite <- !app_assoc. reflexivity. }
  unfold emit at 1. cbn [clock_reads fetches trace].
  unfold bind at 1, emit at 1. cbn [clock_reads fetches trace].
  unfold bind at 1.
  rewrite <- !app_assoc. cbn [app].
  match goal with |- context [poll fuel env g ?r ?t ?e metrics ?w0] =>
    destruct (poll fuel env g r t e metrics w0) as [[[]| |] w2]
  end; try reflexivity.
  unfold bind, emit, api_SetTransmitState. cbn [clock_reads fetches trace].
  rewrite run_checkResponse_warning.
  destruct (SetTransmitState env STOP); cbn [clock_reads fetches trace];
    rewrite <- !app_assoc; reflexivity.
Qed.

Lemma trafficRunning_returns (env : Env) (g : Flags) (mr : MetricsResponse)
    (targetTx eta : Z) (w : World) :
  exists b w', trafficRunning env g mr targetTx eta w = (Returned b, w').
Proof.
  unfold trafficRunning. destruct (Float.ltb _ _).
  - apply withETA_returns.
  - unfold ret. eauto.
Qed.

(** The poll loop makes every one of its checks against the target and
    the ETA it was entered with. *)
Lemma poll_polls (fuel : nat) (env : Env) (g : Flags) (req : MetricsChoice)
    (targetTx eta : Z) (metrics : MetricsResponse) (w : World) :
  polls env g req targetTx eta fuel metrics w
        (fst (poll fuel env g req targetTx eta metrics w))
        (snd (poll fuel env g req targetTx eta metrics w)).
Proof.
  revert metrics w. induction fuel as [|fuel IH]; intros metrics w;
    rewrite poll_unfold;
    destruct (trafficRunning_returns env g metrics targetTx eta w) as ([|] & w1 & H);
    rewrite H; cbn [fst snd]; try (apply polls_done; exact H).
  - apply polls_observed. exact H.
  - destruct (GetMetrics env (fetches w1) req) as [metrics'|err] eqn:Hget.
    + destruct (otgMetricsResponseToJson env metrics') as [j|err] eqn:Hjson.
      * eapply polls_next; eauto.
      * cbn [fst snd]. eapply polls_print_failed; eauto.
    + cbn [fst snd]. apply polls_fetch_failed; assumption.
Qed.


(** * The claims of the specification *)

(** ** Target calculator *)

(** C2.  On a configuration whose packet counts are non-negative
    [int32] values and whose total fits an [int64],
    [calculateTrafficTargets] returns the sum of the packet counts and
    the longest [floor(packet_count / rate)] seconds over the flows with
    a rate > 0: an upper bound of those, which one of them attains, and 0
    when no flow has a rate > 0.  The flows (1000, 100) and (500, 50)
    give 1500 and 10s; when every rate is 0 the ETA is 0 and the target
    still the sum. *)
Theorem C2_calculateTrafficTargets_spec (config : Config) :
  Forall counted_flow (Flows config) ->
  Int64.in_range (sum_packets (Flows config)) ->
  let target := fst (calculateTrafficTargets config) in
  let eta := snd (calculateTrafficTargets config) in
  target = sum_packets (Flows config)
  /\ (forall f, In f (Flows config) -> 0 < Pps f -> flow_eta f <= eta)
  /\ ((exists f, In f (Flows config) /\ 0 < Pps f /\ eta = flow_eta f)
      \/ (forall f, In f (Flows config) -> Pps f <= 0) /\ eta = 0)
  /\ ((forall f, In f (Flows config) -> Pps f = 0) -> eta = 0)
  /\ calculateTrafficTargets
       (mkConfig [mkFlow "f1" 1000 100; mkFlow "f2" 500 50])
     = (1500, 10 * Duration.Second).
Proof.
  intros Hc Hsum. cbv zeta. unfold calculateTrafficTargets. cbn [fst snd].
  pose proof (fold_targets_eta (Flows config) (mkTargets 0 0 0) Hc ltac:(cbn; lia))
    as (_ & H0 & Hub & Hatt).
  cbv zeta in *. cbn [trafficETA] in H0, Hatt.
  set (t := fold_left targets_step (Flows config) (mkTargets 0 0 0)) in *.
  assert ((exists f, In f (Flows config) /\ 0 < Pps f /\ trafficETA t = flow_eta f)
          \/ (forall f, In f (Flows config) -> Pps f <= 0) /\ trafficETA t = 0) as Hmax.
  { destruct Hatt as [Hz|Hex]; [|left; exact Hex].
    destruct (Exists_dec (fun f => 0 < Pps f) (Flows config)
                (fun f => Z_lt_dec 0 (Pps f))) as [Hsome|Hnone].
    - left. apply Exists_exists in Hsome. destruct Hsome as (f & Hin & Hr).
      exists f. repeat split; try assumption.
      pose proof (Hub f Hin Hr).
      rewrite Forall_forall in Hc.
      pose proof (flow_eta_nonneg f (Hc f Hin) Hr). lia.
    - right. split; [|assumption]. intros f Hin.
      destruct (Z_lt_dec 0 (Pps f)) as [Hr|]; [|lia].
      exfalso. apply Hnone. apply Exists_exists. eauto. }
  split; [|split; [|split; [|split]]].
  - unfold t. rewrite fold_targets_total. cbn [pktCountTotal].
    change 0 with (Int64.wrap 0) at 1. rewrite fold_add_wrap.
    apply wrap_in_range. exact Hsum.
  - exact Hub.
  - exact Hmax.
  - intros Hzero. destruct Hmax as [(f & Hin & Hr & _)|[_ Hz]]; [|exact Hz].
    specialize (Hzero f Hin). lia.
  - vm_compute. reflexivity.
Qed.

Lemma C2_calculateTrafficTargets_witness :
  let config := mkConfig [mkFlow "f1" 1000 0; mkFlow "f2" 500 0] in
  Forall counted_flow (Flows config) /\
  Int64.in_range (sum_packets (Flows config)) /\
  fst (calculateTrafficTargets config) = 1500 /\
  snd (calculateTrafficTargets config) = 0.
Proof.
  cbv zeta.
  assert (Forall counted_flow
            (Flows (mkConfig [mkFlow "f1" 1000 0; mkFlow "f2" 500 0]))) as Hc
    by (repeat constructor; cbv; discriminate).
  assert (Int64.in_range
            (sum_packets (Flows (mkConfig [mkFlow "f1" 1000 0; mkFlow "f2" 500 0])))) as Hs
    by (split; cbv; discriminate).
  destruct (C2_calculateTrafficTargets_spec _ Hc Hs) as (Ht & _ & _ & Hz & _).
  split; [exact Hc|]. split; [exact Hs|]. split; [exact Ht|].
  apply Hz. intros f [<-|[<-|[]]]; reflexivity.
Defined.

(** ** Completion policy: the target-only check *)

(** C6.  In port mode [isTrafficRunning] answers true exactly when the
    sum of the ports' [FramesTx] is below the target (the sum being one
    an [int64] holds). *)
Theorem C6_port_mode_running (g : Flags) (mr : MetricsResponse) (targetTx : Z) :
  otgMetrics g = "port"%string ->
  Int64.in_range (sum_frames_tx (PortMetrics mr)) ->
  (isTrafficRunning g mr targetTx = true
   <-> sum_frames_tx (PortMetrics mr) < targetTx)
  /\ (targetTx <= sum_frames_tx (PortMetrics mr)
      -> isTrafficRunning g mr targetTx = false).
Proof.
  intros Hm Hs. rewrite isTrafficRunning_port by assumption.
  rewrite total_tx_sum, wrap_in_range by assumption.
  split; [apply Z.ltb_lt | apply Z.ltb_ge].
Qed.

Lemma C6_port_mode_running_witness :
  let g := default_flags "port" float32_zero in
  let mr := mkMetricsResponse [mkPortMetric "p1" 700; mkPortMetric "p2" 799] [] in
  isTrafficRunning g mr 1500 = true /\ isTrafficRunning g mr 1499 = false.
Proof.
  cbv zeta.
  assert (Int64.in_range
            (sum_frames_tx [mkPortMetric "p1" 700; mkPortMetric "p2" 799])) as Hs
    by (split; cbv; discriminate).
  split.
  - apply (C6_port_mode_running (default_flags "port" float32_zero)
             (mkMetricsResponse [mkPortMetric "p1" 700; mkPortMetric "p2" 799] [])
             1500 eq_refl Hs).
    reflexivity.
  - apply (C6_port_mode_running (default_flags "port" float32_zero)
             (mkMetricsResponse [mkPortMetric "p1" 700; mkPortMetric "p2" 799] [])
             1499 eq_refl Hs).
    cbv. discriminate.
Defined.

(** C7.  In flow mode [isTrafficRunning] answers true exactly when some
    flow record's transmit state is not STOPPED; when all are STOPPED, in
    particular when there is no record, it answers false. *)
Theorem C7_flow_mode_running (g : Flags) (mr : MetricsResponse) (targetTx : Z) :
  otgMetrics g = "flow"%string ->
  (isTrafficRunning g mr targetTx = true
   <-> exists fm, In fm (FlowMetrics mr) /\ Transmit fm <> STOPPED)
  /\ ((forall fm, In fm (FlowMetrics mr) -> Transmit fm = STOPPED)
      -> isTrafficRunning g mr targetTx = false).
Proof.
  intros Hm. rewrite isTrafficRunning_flow by assumption.
  assert (existsb (fun fm => negb (transmit_eqb (Transmit fm) STOPPED)) (FlowMetrics mr) = true
          <-> exists fm, In fm (FlowMetrics mr) /\ Transmit fm <> STOPPED) as Hiff.
  { rewrite existsb_exists. split; intros (fm & Hin & H); exists fm; split; try assumption.
    - intros Heq. apply transmit_eqb_eq in Heq. rewrite Heq in H. discriminate.
    - apply negb_true_iff. destruct (transmit_eqb (Transmit fm) STOPPED) eqn:E; [|reflexivity].
      apply transmit_eqb_eq in E. contradiction. }
  split; [exact Hiff|].
  intros Hall. apply not_true_is_false. intros Ht.
  apply Hiff in Ht. destruct Ht as (fm & Hin & Hne). auto.
Qed.

Lemma C7_flow_mode_running_witness :
  let g := default_flags "flow" float32_zero in
  isTrafficRunning g
    (mkMetricsResponse [] [mkFlowMetric "f1" STOPPED; mkFlowMetric "f2" STARTED]) 0 = true
  /\ isTrafficRunning g
       (mkMetricsResponse [] [mkFlowMetric "f1" STOPPED; mkFlowMetric "f2" STOPPED]) 0 = false
  /\ isTrafficRunning g (mkMetricsResponse [] []) 0 = false.
Proof.
  cbv zeta. split; [|split].
  - apply (C7_flow_mode_running (default_flags "flow" float32_zero) _ 0 eq_refl).
    exists (mkFlowMetric "f2" STARTED). split; [cbn; auto | discriminate].
  - apply (C7_flow_mode_running (default_flags "flow" float32_zero) _ 0 eq_refl).
    intros fm [<-|[<-|[]]]; reflexivity.
  - apply (C7_flow_mode_running (default_flags "flow" float32_zero) _ 0 eq_refl).
    intros fm [].
Defined.


(** ** Completion policy: the forced stop *)

(** C1, as stated, fails: with an ETA of 0 (the only flow has rate 0)
    and [xeta = 2] the bound is 0, and one nanosecond after the start the
    check forces the stop although the target is not reached. *)
Lemma C1_zero_eta_forces_stop :
  let config := mkConfig [mkFlow "f1" 1500 0] in
  let g := default_flags "port" (float32_of_int64 2) in
  let mr := mkMetricsResponse [mkPortMetric "p1" 0] [] in
  let env := scripted_env (fun _ => 1) (fun _ => mr) in
  calculateTrafficTargets config = (1500, 0)
  /\ Float.ltb float32_zero (xeta g) = true
  /\ isTrafficRunning g mr 1500 = true
  /\ isTrafficRunningWithETA env g mr 1500 0 initial_world
     = (Returned false, mkWorld 2 0 [EvForcedStop None 1 (xeta g)])
  /\ fst (isTrafficRunningWithETA env g mr 1500 0 initial_world)
     <> Returned (isTrafficRunning g mr 1500).
Proof.
  cbv zeta. split; [|split; [|split; [|split]]]; try (vm_compute; reflexivity).
  vm_compute. discriminate.
Qed.

(** C1, amended.  With an ETA of 0 and a finite [xeta > 0] the bound is
    0.  While no time has elapsed the check answers as the target-only
    check does and forces no stop; as soon as some time has elapsed it
    answers false and signals one forced stop, whatever the metrics: in
    port mode, and in flow mode when the snapshot has a record. *)
Theorem C1_zero_eta_bound (env : Env) (g : Flags) (mr : MetricsResponse)
    (targetTx : Z) (w : World) :
  Float.ltb float32_zero (xeta g) = true ->
  xeta g <> S754_infinity false ->
  let r := isTrafficRunningWithETA env g mr targetTx 0 w in
  ((forall n, since_start env n <= 0) ->
   fst r = Returned (isTrafficRunning g mr targetTx) /\ trace (snd r) = trace w)
  /\ (0 < since_start env (clock_reads w) ->
      otgMetrics g = "port"%string
      \/ otgMetrics g = "flow"%string /\ FlowMetrics mr <> [] ->
      fst r = Returned false
      /\ exists name shown,
           trace (snd r) = trace w ++ [EvForcedStop name shown (xeta g)]).
Proof.
  intros Hpos Hfin. cbv zeta.
  destruct (float32_positive_finite _ Hpos Hfin) as (m & e & Hx).
  assert (forall elapsed, eta_exceeded (xeta g) 0 elapsed = (0 <? elapsed)) as Hbound
    by (intros; rewrite Hx; apply eta_exceeded_zero).
  split.
  - intros Hclock.
    assert (forall n, eta_exceeded (xeta g) 0 (since_start env n) = false) as Hnever.
    { intros n. rewrite Hbound. apply Z.ltb_ge. apply Hclock. }
    destruct (String.eqb_spec (otgMetrics g) "port") as [Hp|Hp].
    + rewrite withETA_port, Hnever by assumption.
      rewrite isTrafficRunning_port by assumption. split; reflexivity.
    + destruct (String.eqb_spec (otgMetrics g) "flow") as [Hf|Hf].
      * rewrite withETA_flow, flow_scan_never_exceeded by assumption.
        unfold isTrafficRunning. rewrite Hf. split; reflexivity.
      * rewrite withETA_other by assumption.
        unfold isTrafficRunning.
        apply String.eqb_neq in Hp, Hf. rewrite Hp, Hf. split; reflexivity.
  - intros Helapsed Hmode.
    assert (eta_exceeded (xeta g) 0 (since_start env (clock_reads w)) = true) as Hex.
    { rewrite Hbound. apply Z.ltb_lt. assumption. }
    destruct Hmode as [Hp|[Hf Hne]].
    + rewrite withETA_port, Hex by assumption. cbn [fst snd trace].
      split; [reflexivity|eauto].
    + rewrite withETA_flow by assumption.
      destruct (FlowMetrics mr) as [|fm rest]; [contradiction|].
      rewrite flow_scan_exceeded by assumption. cbn [fst snd trace].
      split; [reflexivity|eauto].
Qed.

Lemma C1_zero_eta_bound_witness :
  let g := default_flags "flow" (float32_of_int64 2) in
  let mr := mkMetricsResponse [] [mkFlowMetric "f1" STARTED] in
  let env := scripted_env (fun _ => 1) (fun _ => mr) in
  Float.ltb float32_zero (xeta g) = true /\
  xeta g <> S754_infinity false /\
  fst (isTrafficRunningWithETA env g mr 1500 0 initial_world) = Returned false.
Proof.
  cbv zeta.
  assert (Float.ltb float32_zero (xeta (default_flags "flow" (float32_of_int64 2))) = true)
    as Hpos by (vm_compute; reflexivity).
  assert (xeta (default_flags "flow" (float32_of_int64 2)) <> S754_infinity false)
    as Hfin by (vm_compute; discriminate).
  split; [exact Hpos|]. split; [exact Hfin|].
  apply (C1_zero_eta_bound
           (scripted_env (fun _ => 1)
              (fun _ => mkMetricsResponse [] [mkFlowMetric "f1" STARTED]))
           (default_flags "flow" (float32_of_int64 2))
           (mkMetricsResponse [] [mkFlowMetric "f1" STARTED]) 1500 initial_world
           Hpos Hfin).
  - cbn. lia.
  - right. split; [reflexivity | discriminate].
Defined.

(** C3, as stated, fails twice.  In flow mode with no flow record the
    check answers false without any warning, however long the traffic has
    run; and with [xeta = 2] and an ETA of 10s the check still answers
    "running" at 20s + 1ns, which [float32] does not tell from 20s. *)
Lemma C3_no_warning_without_records :
  let g := default_flags "flow" (float32_of_int64 2) in
  let env := scripted_env (fun _ => 30 * Duration.Second)
                          (fun _ => mkMetricsResponse [] []) in
  isTrafficRunningWithETA env g (mkMetricsResponse [] []) 1500
    (10 * Duration.Second) initial_world
  = (Returned false, initial_world)
  /\
  let g' := default_flags "port" (float32_of_int64 2) in
  let mr := mkMetricsResponse [mkPortMetric "p1" 0] [] in
  let env' := scripted_env (fun _ => 20 * Duration.Second + 1) (fun _ => mr) in
  20 * Duration.Second < since_start env' 0
  /\ isTrafficRunningWithETA env' g' mr 1500 (10 * Duration.Second) initial_world
     = (Returned true, mkWorld 1 0 []).
Proof.
  cbv zeta. split; [vm_compute; reflexivity|].
  split; vm_compute; reflexivity.
Qed.

(** C3, amended.  Once the bound is exceeded as the code compares it,
    [float32(trafficETA) * xeta < float32(elapsed)], the check answers
    false whatever the metrics and the mode; it signals exactly one
    forced stop in port mode and, naming the first record, in flow mode
    with at least one record, and none with no record.  Exceeded once,
    the bound stays exceeded as time goes on; with [xeta = 2] and an ETA
    of 10s it is exceeded exactly from 20s + 1024ns on.  The poll loop
    ends on that answer: a run signals at most one forced stop. *)
Theorem C3_forced_stop (env : Env) (g : Flags) (mr : MetricsResponse)
    (targetTx eta : Z) (w : World) :
  eta_exceeded (xeta g) eta (since_start env (clock_reads w)) = true ->
  let r := isTrafficRunningWithETA env g mr targetTx eta w in
  fst r = Returned false
  /\ (otgMetrics g = "port"%string ->
      trace (snd r)
      = trace w ++ [EvForcedStop None (since_start env (S (clock_reads w))) (xeta g)])
  /\ (forall fm rest,
        otgMetrics g = "flow"%string -> FlowMetrics mr = fm :: rest ->
        trace (snd r)
        = trace w ++ [EvForcedStop (Some (Name fm))
                                   (since_start env (S (clock_reads w))) (xeta g)])
  /\ (otgMetrics g = "flow"%string -> FlowMetrics mr = [] -> snd r = w)
  /\ (forall later,
        since_start env (clock_reads w) <= later ->
        eta_exceeded (xeta g) eta later = true)
  /\ (forall elapsed,
        eta_exceeded (float32_of_int64 2) (10 * Duration.Second) elapsed = true
        <-> 20 * Duration.Second + 1024 <= elapsed)
  /\ (forall fuel config w0,
        exists tr,
          trace (snd (runTraffic fuel env g config w0)) = trace w0 ++ tr
          /\ (count is_forced_stop tr <= 1)%nat).
Proof.
  intros Hex. cbv zeta. split; [|split; [|split; [|split; [|split; [|split]]]]].
  - destruct (String.eqb_spec (otgMetrics g) "port") as [Hp|Hp].
    + rewrite withETA_port, Hex by assumption. reflexivity.
    + destruct (String.eqb_spec (otgMetrics g) "flow") as [Hf|Hf].
      * rewrite withETA_flow by assumption.
        destruct (FlowMetrics mr) as [|fm rest]; [reflexivity|].
        rewrite flow_scan_exceeded by assumption. reflexivity.
      * rewrite withETA_other by assumption. reflexivity.
  - intros Hp. rewrite withETA_port, Hex by assumption. reflexivity.
  - intros fm rest Hf Hfms. rewrite withETA_flow, Hfms by assumption.
    rewrite flow_scan_exceeded by assumption. reflexivity.
  - intros Hf Hfms. rewrite withETA_flow, Hfms by assumption. reflexivity.
  - intros later Hle. apply (eta_exceeded_mono _ _ _ _ Hle Hex).
  - apply eta_exceeded_example.
  - intros fuel config w0. apply forces_runTraffic.
Qed.

Lemma C3_forced_stop_witness :
  let g := default_flags "port" (float32_of_int64 2) in
  let mr := mkMetricsResponse [mkPortMetric "p1" 0] [] in
  let env := scripted_env (fun _ => 21 * Duration.Second) (fun _ => mr) in
  eta_exceeded (xeta g) (10 * Duration.Second) (since_start env 0) = true /\
  fst (isTrafficRunningWithETA env g mr 1500 (10 * Duration.Second) initial_world)
  = Returned false.
Proof.
  cbv zeta.
  assert (eta_exceeded (xeta (default_flags "port" (float32_of_int64 2)))
            (10 * Duration.Second) (21 * Duration.Second) = true) as Hex
    by (vm_compute; reflexivity).
  split; [exact Hex|].
  apply (C3_forced_stop
           (scripted_env (fun _ => 21 * Duration.Second)
              (fun _ => mkMetricsResponse [mkPortMetric "p1" 0] []))
           (default_flags "port" (float32_of_int64 2))
           (mkMetricsResponse [mkPortMetric "p1" 0] []) 1500
           (10 * Duration.Second) initial_world Hex).
Defined.

(** C10, as stated, fails: the check compares [float32] values, which
    do not tell 20s + 1ns from 20s.  With [xeta = 2] and an ETA of 10s,
    at 20s + 1ns the elapsed time exceeds the bound, and yet a snapshot
    whose only record has not stopped is answered "running", without a
    warning. *)
Lemma C10_exceeded_yet_running :
  let g := default_flags "flow" (float32_of_int64 2) in
  let mr := mkMetricsResponse [] [mkFlowMetric "f1" STARTED] in
  let env := scripted_env (fun _ => 20 * Duration.Second + 1) (fun _ => mr) in
  2 * (10 * Duration.Second) < since_start env 0
  /\ isTrafficRunningWithETA env g mr 1500 (10 * Duration.Second) initial_world
     = (Returned true, mkWorld 1 0 []).
Proof. cbv zeta. split; vm_compute; reflexivity. Qed.

(** C10, amended.  In flow mode the forced-stop check looks at the
    elapsed time and the bound only, compared as the code compares them,
    [float32(trafficETA) * xeta < float32(elapsed)]; with [xeta = 2] and
    an ETA of 10s that comparison holds exactly from 20s + 1024ns on.
    With no flow record the scan reads no clock and the check answers
    false from its initial value; with at least one record and the
    comparison true it answers false at the first record, whatever that
    record's transmit state, naming it in the warning and leaving the
    other records unread; with one record and the comparison false the
    answer is whether that record has not stopped, without a warning. *)
Theorem C10_flow_scan_first_record (env : Env) (g : Flags) (mr : MetricsResponse)
    (targetTx eta : Z) (w : World) :
  otgMetrics g = "flow"%string ->
  (FlowMetrics mr = [] ->
   isTrafficRunningWithETA env g mr targetTx eta w = (Returned false, w))
  /\ (forall fm rest,
        FlowMetrics mr = fm :: rest ->
        eta_exceeded (xeta g) eta (since_start env (clock_reads w)) = true ->
        isTrafficRunningWithETA env g mr targetTx eta w
        = (Returned false,
           mkWorld (S (S (clock_reads w))) (fetches w)
                   (trace w ++ [EvForcedStop (Some (Name fm))
                                  (since_start env (S (clock_reads w))) (xeta g)])))
  /\ (forall fm,
        FlowMetrics mr = [fm] ->
        eta_exceeded (xeta g) eta (since_start env (clock_reads w)) = false ->
        isTrafficRunningWithETA env g mr targetTx eta w
        = (Returned (negb (transmit_eqb (Transmit fm) STOPPED)),
           mkWorld (S (clock_reads w)) (fetches w) (trace w)))
  /\ (forall elapsed,
        eta_exceeded (float32_of_int64 2) (10 * Duration.Second) elapsed = true
        <-> 20 * Duration.Second + 1024 <= elapsed).
Proof.
  intros Hf. split; [|split; [|split]].
  - intros Hfms. rewrite withETA_flow, Hfms by assumption. reflexivity.
  - intros fm rest Hfms Hex. rewrite withETA_flow, Hfms by assumption.
    apply flow_scan_exceeded. assumption.
  - intros fm Hfms Hnot. rewrite withETA_flow, Hfms by assumption.
    rewrite flow_scan_not_exceeded by assumption.
    cbn [flow_scan_with_eta]. unfold ret, flow_running_step. cbn [negb andb].
    destruct (transmit_eqb (Transmit fm) STOPPED); reflexivity.
  - apply eta_exceeded_example.
Qed.

Lemma C10_flow_scan_first_record_witness :
  let g := default_flags "flow" (float32_of_int64 2) in
  let mr := mkMetricsResponse [] [mkFlowMetric "f1" STOPPED; mkFlowMetric "f2" STARTED] in
  let env := scripted_env (fun _ => 21 * Duration.Second) (fun _ => mr) in
  isTrafficRunningWithETA env g mr 1500 (10 * Duration.Second) initial_world
  = (Returned false,
     mkWorld 2 0 [EvForcedStop (Some "f1"%string) (21 * Duration.Second) (xeta g)]).
Proof.
  cbv zeta.
  destruct (C10_flow_scan_first_record
              (scripted_env (fun _ => 21 * Duration.Second)
                 (fun _ => mkMetricsResponse []
                             [mkFlowMetric "f1" STOPPED; mkFlowMetric "f2" STARTED]))
              (default_flags "flow" (float32_of_int64 2))
              (mkMetricsResponse [] [mkFlowMetric "f1" STOPPED; mkFlowMetric "f2" STARTED])
              1500 (10 * Duration.Second) initial_world eq_refl)
    as (_ & Hfirst & _).
  apply (Hfirst (mkFlowMetric "f1" STOPPED) [mkFlowMetric "f2" STARTED]).
  - reflexivity.
  - vm_compute. reflexivity.
Defined.


(** ** The choice of the check *)

(** C5.  With [xeta <= 0] the check of the orchestrator is
    [isTrafficRunning]: it reads no clock and signals nothing, so its
    answer is the same at any two moments and in any two environments,
    and never a forced stop. *)
Theorem C5_target_only_ignores_time (g : Flags) (mr : MetricsResponse)
    (targetTx eta : Z) :
  SFleb (xeta g) float32_zero = true ->
  (forall env w,
     trafficRunning env g mr targetTx eta w
     = (Returned (isTrafficRunning g mr targetTx), w))
  /\ (forall env1 env2 w1 w2,
        fst (trafficRunning env1 g mr targetTx eta w1)
        = fst (trafficRunning env2 g mr targetTx eta w2)).
Proof.
  intros Hle.
  assert (Float.ltb float32_zero (xeta g) = false) as Hnot.
  { destruct (Float.ltb float32_zero (xeta g)) eqn:E; [|reflexivity].
    apply SFltb_not_leb in E. congruence. }
  assert (forall env w,
            trafficRunning env g mr targetTx eta w
            = (Returned (isTrafficRunning g mr targetTx), w)) as Hrun.
  { intros env w. unfold trafficRunning. rewrite Hnot. reflexivity. }
  split; [exact Hrun|].
  intros env1 env2 w1 w2. rewrite !Hrun. reflexivity.
Qed.

Lemma C5_target_only_ignores_time_witness :
  let g := default_flags "port" float32_zero in
  let mr := mkMetricsResponse [mkPortMetric "p1" 0] [] in
  SFleb (xeta g) float32_zero = true /\
  trafficRunning (scripted_env (fun n => Z.of_nat n * 3600 * Duration.Second) (fun _ => mr))
                 g mr 1500 (10 * Duration.Second) (mkWorld 7 3 [])
  = (Returned true, mkWorld 7 3 []).
Proof.
  cbv zeta. split; [reflexivity|].
  apply (C5_target_only_ignores_time (default_flags "port" float32_zero)
           (mkMetricsResponse [mkPortMetric "p1" 0] []) 1500
           (10 * Duration.Second) eq_refl).
Defined.

(** C9.  Both checks are deterministic.  Called twice in a row, on the
    same snapshot, target and mode, [isTrafficRunning] gives the same
    answer twice, and so does [isTrafficRunningWithETA] while the elapsed
    time does not change; its answer then is the same in any two
    environments and worlds that show that elapsed time. *)
Theorem C9_checks_deterministic :
  (forall g mr targetTx w,
     exists b, fst (twice (ret (isTrafficRunning g mr targetTx)) w) = Returned (b, b))
  /\ (forall env g mr targetTx eta elapsed w,
        clock_stands_at env elapsed ->
        exists b,
          fst (twice (isTrafficRunningWithETA env g mr targetTx eta) w) = Returned (b, b))
  /\ (forall env1 env2 g mr targetTx eta elapsed w1 w2,
        clock_stands_at env1 elapsed -> clock_stands_at env2 elapsed ->
        fst (isTrafficRunningWithETA env1 g mr targetTx eta w1)
        = fst (isTrafficRunningWithETA env2 g mr targetTx eta w2)).
Proof.
  split; [|split].
  - intros g mr targetTx w. exists (isTrafficRunning g mr targetTx). reflexivity.
  - intros env g mr targetTx eta elapsed w Hclock.
    destruct (withETA_returns env g mr targetTx eta w) as (b1 & w1 & H1).
    destruct (withETA_returns env g mr targetTx eta w1) as (b2 & w2 & H2).
    pose proof (withETA_standstill env env g mr targetTx eta elapsed w w1 Hclock Hclock)
      as Hsame.
    rewrite H1, H2 in Hsame. cbn [fst] in Hsame. injection Hsame as <-.
    exists b1. unfold twice, bind. rewrite H1, H2. reflexivity.
  - intros. eapply withETA_standstill; eassumption.
Qed.

Lemma C9_checks_deterministic_witness :
  let g := default_flags "flow" (float32_of_int64 2) in
  let mr := mkMetricsResponse [] [mkFlowMetric "f1" STARTED] in
  let env := scripted_env (fun _ => 5 * Duration.Second) (fun _ => mr) in
  clock_stands_at env (5 * Duration.Second) /\
  exists b,
    fst (twice (isTrafficRunningWithETA env g mr 1500 (10 * Duration.Second)) initial_world)
    = Returned (b, b).
Proof.
  cbv zeta.
  assert (clock_stands_at
            (scripted_env (fun _ => 5 * Duration.Second)
               (fun _ => mkMetricsResponse [] [mkFlowMetric "f1" STARTED]))
            (5 * Duration.Second)) as Hclock by (intros n; reflexivity).
  split; [exact Hclock|].
  destruct C9_checks_deterministic as (_ & Htwice & _).
  apply (Htwice _ _ _ _ _ _ _ Hclock).
Defined.

(** ** The command *)

(** C8.  With a metrics mode other than "port" and "flow" the command
    logs the fatal error and exits: nothing else happens, the
    configuration is not read and no remote call is made. *)
Theorem C8_unsupported_metrics_fatal (fuel : nat) (env : Env) (g : Flags) (w : World) :
  otgMetrics g <> "port"%string ->
  otgMetrics g <> "flow"%string ->
  runCmd fuel env g w
  = (Exited,
     mkWorld (clock_reads w) (fetches w)
             (trace w ++ [EvFatal ("Unsupported metrics type requested: " ++ otgMetrics g)])).
Proof.
  intros Hp Hf. unfold runCmd.
  apply String.eqb_neq in Hp, Hf. rewrite Hp, Hf. reflexivity.
Qed.

Lemma C8_unsupported_metrics_fatal_witness :
  runCmd 3 (scripted_env (fun _ => 0) (fun _ => mkMetricsResponse [] []))
         (default_flags "ports" float32_zero) initial_world
  = (Exited,
     mkWorld 0 0 [EvFatal "Unsupported metrics type requested: ports"]).
Proof.
  apply (C8_unsupported_metrics_fatal 3
           (scripted_env (fun _ => 0) (fun _ => mkMetricsResponse [] []))
           (default_flags "ports" float32_zero) initial_world);
    cbn; discriminate.
Defined.

(** C4, as stated, fails: the targets are computed after START has been
    sent.  A run that finds the target reached at the first fetch: *)
Lemma C4_start_precedes_targets :
  let config := mkConfig [mkFlow "f1" 1000 100; mkFlow "f2" 500 50] in
  let g := default_flags "port" float32_zero in
  let reached := mkMetricsResponse [mkPortMetric "p1" 1500] [] in
  let env := scripted_env (fun _ => 0) (fun _ => reached) in
  trace (snd (runTraffic 3 env g config initial_world))
  = [EvInfo "Applying OTG config..."; EvSetConfig config; EvInfo "ready.";
     EvInfo "Starting traffic..."; EvSetTransmitState START; EvInfo "started...";
     EvTargets 1500 (10 * Duration.Second); EvGetMetrics PORT; EvPrintln "{}";
     EvNow; EvInfo "Stopping traffic..."; EvSetTransmitState STOP;
     EvInfo "stopped."]
  /\ targets_before_start (trace (snd (runTraffic 3 env g config initial_world)))
     = false.
Proof. cbv zeta. split; vm_compute; reflexivity. Qed.

(** C4, amended.  A run computes the targets once, from the
    configuration it was given: after the START transmit state has been
    sent, before the first metrics fetch; what follows neither logs
    targets again nor sends START again, and every completion check of
    the poll loop, from the first to the last, is made against that
    target and that ETA; once the loop has returned no check is made any
    more.  (A run that fails before that exits without having computed
    them.) *)
Theorem C4_targets_computed_once (fuel : nat) (env : Env) (g : Flags)
    (config : Config) (w : World) :
  exists tr,
    trace (snd (runTraffic fuel env g config w)) = trace w ++ tr /\
    ((count is_targets tr = 0%nat /\
      fst (runTraffic fuel env g config w) = Exited /\
      exists err,
        SetConfig env config = Failure err \/ SetTransmitState env START = Failure err)
     \/
     exists pre post,
       tr = pre ++ EvTargets (fst (calculateTrafficTargets config))
                             (snd (calculateTrafficTargets config)) :: post /\
       In (EvSetTransmitState START) pre /\
       Forall (fun e => is_targets e = false /\ is_fetch e = false) pre /\
       Forall after_targets post /\
       forall metrics j,
         GetMetrics env (fetches w) (metrics_request g) = Success metrics ->
         otgMetricsResponseToJson env metrics = Success j ->
         exists o w1,
           polls env g (metrics_request g)
                 (fst (calculateTrafficTargets config))
                 (snd (calculateTrafficTargets config)) fuel metrics
                 (mkWorld (clock_reads w) (S (fetches w))
                    (trace w ++ pre
                     ++ [EvTargets (fst (calculateTrafficTargets config))
                                   (snd (calculateTrafficTargets config));
                         EvGetMetrics (metrics_request g); EvPrintln j; EvNow]))
                 o w1
           /\ match o with
              | Returned _ =>
                  exists tl, snd (runTraffic fuel env g config w) = logged w1 tl
              | _ => runTraffic fuel env g config w = (o, w1)
              end).
Proof.
  rewrite runTraffic_cases.
  destruct (SetConfig env config) as [ws1|err1] eqn:Hcfg.
  2:{ eexists. cbn [fst snd logged trace]. split; [reflexivity|]. left.
      split; [reflexivity|]. split; [reflexivity|]. exists err1. left. reflexivity. }
  destruct (SetTransmitState env START) as [ws2|err2] eqn:Hstart.
  2:{ eexists. cbn [fst snd logged trace]. split; [reflexivity|]. left.
      split; [|split; [reflexivity|exists err2; right; reflexivity]].
      rewrite !count_app, !count_map_warning by reflexivity. reflexivity. }
  cbv zeta.
  set (targetTx := fst (calculateTrafficTargets config)).
  set (eta := snd (calculateTrafficTargets config)).
  set (req := metrics_request g).
  set (pre := [EvInfo "Applying OTG config..."; EvSetConfig config] ++ map EvWarning ws1
              ++ [EvInfo "ready."; EvInfo "Starting traffic..."; EvSetTransmitState START]
              ++ map EvWarning ws2 ++ [EvInfo "started..."]).
  assert (startup_events g config ws1 ws2 = pre ++ [EvTargets targetTx eta; EvGetMetrics req])
    as Hstartup by (unfold startup_events, pre; rewrite <- !app_assoc; reflexivity).
  assert (In (EvSetTransmitState START) pre) as Hin
    by (unfold pre; apply in_or_app; right; apply in_or_app; right;
        apply in_or_app; left; cbn; auto).
  assert (Forall (fun e => is_targets e = false /\ is_fetch e = false) pre) as Hpre
    by (unfold pre; repeat (apply Forall_app; split);
        try (apply Forall_map_warning; intros; split; reflexivity);
        repeat constructor).
  assert (forall e, is_targets e = false -> is_start e = false -> after_targets e)
    as Hafter by (intros; split; assumption).
  rewrite Hstartup.
  destruct (GetMetrics env (fetches w) req) as [metrics|err3] eqn:Hget.
  2:{ exists (pre ++ EvTargets targetTx eta :: [EvGetMetrics req; EvFatal err3]).
      cbn [fst snd logged fetched trace]. split.
      - rewrite <- !app_assoc. reflexivity.
      - right. exists pre, [EvGetMetrics req; EvFatal err3].
        split; [reflexivity|]. split; [exact Hin|]. split; [exact Hpre|].
        split; [repeat constructor|]. intros m j Hm. discriminate. }
  destruct (otgMetricsResponseToJson env metrics) as [j|err4] eqn:Hjson.
  2:{ exists (pre ++ EvTargets targetTx eta :: [EvGetMetrics req; EvFatal err4]).
      cbn [fst snd logged fetched trace]. split.
      - rewrite <- !app_assoc. reflexivity.
      - right. exists pre, [EvGetMetrics req; EvFatal err4].
        split; [reflexivity|]. split; [exact Hin|]. split; [exact Hpre|].
        split; [repeat constructor|]. intros m j Hm Hj.
        injection Hm as <-. rewrite Hjson in Hj. discriminate. }
  assert (logged (fetched w (pre ++ [EvTargets targetTx eta; EvGetMetrics req]))
                 [EvPrintln j; EvNow]
          = mkWorld (clock_reads w) (S (fetches w))
              (trace w ++ pre
               ++ [EvTargets targetTx eta; EvGetMetrics req; EvPrintln j; EvNow]))
    as Hentry
    by (unfold logged, fetched; cbn [clock_reads fetches trace];
        rewrite <- !app_assoc; reflexivity).
  rewrite Hentry. set (w0 := mkWorld _ _ _) in *.
  pose proof (poll_polls fuel env g req targetTx eta metrics w0) as Hloop.
  assert (only after_targets (poll fuel env g req targetTx eta metrics)) as Honly
    by (apply only_poll; intros; apply Hafter; reflexivity).
  destruct (Honly w0) as (trp & Htrp & Hq).
  destruct (poll fuel env g req targetTx eta metrics w0) as [o w2].
  cbn [fst snd] in Hloop, Htrp, Hq.
  assert (trace w2 = trace w ++ pre
                     ++ EvTargets targetTx eta
                        :: [EvGetMetrics req; EvPrintln j; EvNow] ++ trp) as Hw2
    by (rewrite Htrp; unfold w0; cbn [trace]; rewrite <- !app_assoc; reflexivity).
  assert (forall tl,
            Forall after_targets tl ->
            Forall after_targets (([EvGetMetrics req; EvPrintln j; EvNow] ++ trp) ++ tl))
    as Hpost
    by (intros tl Htl; apply Forall_app; split; [|exact Htl];
        apply Forall_app; split; [|exact Hq];
        repeat constructor).
  assert (forall m j',
            Success metrics = Success m ->
            otgMetricsResponseToJson env m = Success j' -> m = metrics /\ j' = j)
    as Hsame
    by (intros m j' Hm Hj; injection Hm as <-; rewrite Hjson in Hj;
        injection Hj as <-; split; reflexivity).
  destruct o as [[]| |].
  - destruct (SetTransmitState env STOP) as [ws3|err5].
    + exists (pre ++ EvTargets targetTx eta
                  :: ([EvGetMetrics req; EvPrintln j; EvNow] ++ trp) ++ stop_events ws3).
      cbn [fst snd logged trace]. split.
      * rewrite Hw2, <- !app_assoc. reflexivity.
      * right. exists pre, (([EvGetMetrics req; EvPrintln j; EvNow] ++ trp) ++ stop_events ws3).
        split; [reflexivity|]. split; [exact Hin|]. split; [exact Hpre|]. split.
        -- apply Hpost. unfold stop_events.
           repeat (apply Forall_app; split);
             try (apply Forall_map_warning; intros; apply Hafter; reflexivity);
             repeat constructor.
        -- intros m j' Hm Hj. destruct (Hsame m j' Hm Hj) as [-> ->].
           exists (Returned tt), w2. split; [exact Hloop|]. eexists. reflexivity.
    + exists (pre ++ EvTargets targetTx eta
                  :: ([EvGetMetrics req; EvPrintln j; EvNow] ++ trp)
                     ++ [EvInfo "Stopping traffic..."; EvSetTransmitState STOP;
                         EvFatal err5]).
      cbn [fst snd logged trace]. split.
      * rewrite Hw2, <- !app_assoc. reflexivity.
      * right. exists pre, (([EvGetMetrics req; EvPrintln j; EvNow] ++ trp)
                            ++ [EvInfo "Stopping traffic..."; EvSetTransmitState STOP;
                                EvFatal err5]).
        split; [reflexivity|]. split; [exact Hin|]. split; [exact Hpre|]. split.
        -- apply Hpost. repeat constructor.
        -- intros m j' Hm Hj. destruct (Hsame m j' Hm Hj) as [-> ->].
           exists (Returned tt), w2. split; [exact Hloop|]. eexists. reflexivity.
  - exists (pre ++ EvTargets targetTx eta
                :: ([EvGetMetrics req; EvPrintln j; EvNow] ++ trp) ++ []).
    cbn [fst snd]. split.
    + rewrite Hw2, app_nil_r. reflexivity.
    + right. exists pre, (([EvGetMetrics req; EvPrintln j; EvNow] ++ trp) ++ []).
      split; [reflexivity|]. split; [exact Hin|]. split; [exact Hpre|]. split.
      * apply Hpost. constructor.
      * intros m j' Hm Hj. destruct (Hsame m j' Hm Hj) as [-> ->].
        exists Exited, w2. split; [exact Hloop|]. reflexivity.
  - exists (pre ++ EvTargets targetTx eta
                :: ([EvGetMetrics req; EvPrintln j; EvNow] ++ trp) ++ []).
    cbn [fst snd]. split.
    + rewrite Hw2, app_nil_r. reflexivity.
    + right. exists pre, (([EvGetMetrics req; EvPrintln j; EvNow] ++ trp) ++ []).
      split; [reflexivity|]. split; [exact Hin|]. split; [exact Hpre|]. split.
      * apply Hpost. constructor.
      * intros m j' Hm Hj. destruct (Hsame m j' Hm Hj) as [-> ->].
        exists StillPolling, w2. split; [exact Hloop|]. reflexivity.
Qed.


(** * Further properties of the code *)

(** ** Target calculator: composition *)

Lemma wrap_range (z : Z) : Int64.in_range (Int64.wrap z).
Proof.
  unfold Int64.in_range, Int64.wrap, Int64.min_signed, Int64.max_signed, Int64.modulus.
  pose proof (Z.mod_pos_bound (z - - 2 ^ 63) (2 ^ 64) ltac:(lia)). lia.
Qed.

Lemma wrap_add_r (a b : Z) : Int64.wrap (a + Int64.wrap b) = Int64.wrap (a + b).
Proof. rewrite (Z.add_comm a), wrap_add_l. f_equal. lia. Qed.

Lemma targets_step_eta (t : Targets) (f : Flow) :
  flowETA t <= trafficETA t ->
  trafficETA (targets_step t f) = longest_step (trafficETA t) f
  /\ flowETA (targets_step t f) <= trafficETA (targets_step t f).
Proof.
  intros H. unfold targets_step, longest_step, flowETA_of. cbn [trafficETA flowETA].
  destruct (0 <? Pps f).
  - match goal with |- context [trafficETA t <? ?x] =>
      destruct (Z.ltb_spec (trafficETA t) x) end; lia.
  - destruct (Z.ltb_spec (trafficETA t) (flowETA t)); lia.
Qed.

Lemma fold_targets_longest (fs : list Flow) (t : Targets) :
  flowETA t <= trafficETA t ->
  trafficETA (fold_left targets_step fs t) = fold_left longest_step fs (trafficETA t).
Proof.
  revert t. induction fs as [|f fs IH]; intros t H; [reflexivity|].
  cbn [fold_left]. destruct (targets_step_eta t f H) as [E L].
  rewrite IH by assumption. rewrite E. reflexivity.
Qed.

Lemma calculateTrafficTargets_folds (config : Config) :
  calculateTrafficTargets config
  = (Int64.wrap (sum_packets (Flows config)),
     fold_left longest_step (Flows config) 0).
Proof.
  unfold calculateTrafficTargets. f_equal.
  - rewrite fold_targets_total. cbn [pktCountTotal].
    change 0 with (Int64.wrap 0) at 1. rewrite fold_add_wrap. reflexivity.
  - rewrite fold_targets_longest by (cbn; lia). reflexivity.
Qed.

Lemma longest_ge (fs : list Flow) (b : Z) : b <= fold_left longest_step fs b.
Proof.
  revert b. induction fs as [|f fs IH]; intros b; cbn [fold_left]; [lia|].
  specialize (IH (longest_step b f)). unfold longest_step in *.
  destruct (0 <? Pps f); lia.
Qed.

Lemma longest_max (fs : list Flow) (b : Z) :
  0 <= b -> fold_left longest_step fs b = Z.max b (fold_left longest_step fs 0).
Proof.
  revert b. induction fs as [|f fs IH]; intros b Hb; cbn [fold_left]; [lia|].
  unfold longest_step at 2 4. destruct (0 <? Pps f).
  - rewrite (IH (Z.max b (flowETA_of f))) by lia.
    rewrite (IH (Z.max 0 (flowETA_of f))) by lia. lia.
  - apply IH. assumption.
Qed.

Lemma sum_packets_app (a b : list Flow) :
  sum_packets (a ++ b) = sum_packets a + sum_packets b.
Proof.
  unfold sum_packets. induction a as [|f a IH]; cbn [app map fold_right]; lia.
Qed.

(** X1.  The targets of two lists of flows put together are the
    ([int64]) sum of their targets and the longer of their ETAs, whatever
    the flows are. *)
Theorem calculateTrafficTargets_app (fs1 fs2 : list Flow) :
  calculateTrafficTargets (mkConfig (fs1 ++ fs2))
  = (Int64.add (fst (calculateTrafficTargets (mkConfig fs1)))
               (fst (calculateTrafficTargets (mkConfig fs2))),
     Z.max (snd (calculateTrafficTargets (mkConfig fs1)))
           (snd (calculateTrafficTargets (mkConfig fs2)))).
Proof.
  rewrite !calculateTrafficTargets_folds. cbn [Flows fst snd]. f_equal.
  - unfold Int64.add. rewrite wrap_add_l, wrap_add_r, sum_packets_app. reflexivity.
  - rewrite fold_left_app. apply longest_max. apply longest_ge.
Qed.

Lemma longest_step_comm (b : Z) (f g : Flow) :
  longest_step (longest_step b f) g = longest_step (longest_step b g) f.
Proof. unfold longest_step. destruct (0 <? Pps f), (0 <? Pps g); lia. Qed.

Lemma longest_perm (fs fs' : list Flow) (b : Z) :
  Permutation fs fs' -> fold_left longest_step fs b = fold_left longest_step fs' b.
Proof.
  intros H. revert b. induction H; intros b; cbn [fold_left].
  - reflexivity.
  - apply IHPermutation.
  - rewrite longest_step_comm. reflexivity.
  - rewrite IHPermutation1. apply IHPermutation2.
Qed.

Lemma sum_packets_perm (fs fs' : list Flow) :
  Permutation fs fs' -> sum_packets fs = sum_packets fs'.
Proof.
  unfold sum_packets. induction 1; cbn [map fold_right]; lia.
Qed.

(** X2.  The targets do not depend on the order of the flows. *)
Theorem calculateTrafficTargets_permutation (fs fs' : list Flow) :
  Permutation fs fs' ->
  calculateTrafficTargets (mkConfig fs) = calculateTrafficTargets (mkConfig fs').
Proof.
  intros H. rewrite !calculateTrafficTargets_folds. cbn [Flows].
  rewrite (sum_packets_perm _ _ H), (longest_perm _ _ 0 H). reflexivity.
Qed.

Lemma calculateTrafficTargets_permutation_witness :
  calculateTrafficTargets (mkConfig [mkFlow "f1" 1000 100; mkFlow "f2" 900 0; mkFlow "f3" 70 7])
  = calculateTrafficTargets (mkConfig [mkFlow "f2" 900 0; mkFlow "f3" 70 7; mkFlow "f1" 1000 100]).
Proof.
  apply calculateTrafficTargets_permutation.
  apply Permutation_cons_append with (l := [mkFlow "f2" 900 0; mkFlow "f3" 70 7]).
Defined.

Lemma longest_filter (fs : list Flow) (b : Z) :
  fold_left longest_step (filter (fun f => 0 <? Pps f) fs) b
  = fold_left longest_step fs b.
Proof.
  revert b. induction fs as [|f fs IH]; intros b; cbn [filter fold_left]; [reflexivity|].
  destruct (0 <? Pps f) eqn:E.
  - cbn [fold_left]. apply IH.
  - rewrite IH. unfold longest_step at 3. rewrite E. reflexivity.
Qed.

(** X3.  Flows without a positive rate count for the target only: the
    ETA is that of the configuration without them, wherever they stand
    among the others (the [flowETA] the loop keeps from the flow before
    is never the longest). *)
Theorem calculateTrafficTargets_rate_zero (config : Config) :
  snd (calculateTrafficTargets config)
  = snd (calculateTrafficTargets
           (mkConfig (filter (fun f => 0 <? Pps f) (Flows config))))
  /\ fst (calculateTrafficTargets config) = Int64.wrap (sum_packets (Flows config)).
Proof.
  rewrite !calculateTrafficTargets_folds. cbn [Flows fst snd].
  rewrite longest_filter. split; reflexivity.
Qed.

Lemma longest_range (fs : list Flow) (b : Z) :
  0 <= b <= Int64.max_signed ->
  0 <= fold_left longest_step fs b <= Int64.max_signed.
Proof.
  revert b. induction fs as [|f fs IH]; intros b Hb; cbn [fold_left]; [assumption|].
  apply IH. unfold longest_step. destruct (0 <? Pps f); [|assumption].
  pose proof (wrap_range
                (Float.to_int64 (float64_of_int64 (Int64.div (Packets f) (Pps f)))
                 * Duration.Second)) as [_ Hr].
  fold (Int64.mul (Float.to_int64 (float64_of_int64 (Int64.div (Packets f) (Pps f))))
                  Duration.Second) in Hr.
  fold (flowETA_of f) in Hr. lia.
Qed.

(** X4.  Whatever the configuration, the target is an [int64] and the
    ETA a non-negative [int64]: a negative or wrapped flow ETA is never
    returned. *)
Theorem calculateTrafficTargets_range (config : Config) :
  Int64.in_range (fst (calculateTrafficTargets config))
  /\ 0 <= snd (calculateTrafficTargets config) <= Int64.max_signed.
Proof.
  rewrite calculateTrafficTargets_folds. cbn [fst snd]. split.
  - apply wrap_range.
  - apply longest_range. unfold Int64.max_signed. lia.
Qed.

(** ** Target calculator: counts of either sign *)

Lemma quot_bounds (p r : Z) : 0 < r -> - Z.abs p <= p ÷ r <= Z.abs p.
Proof.
  intros Hr. destruct (Z.le_gt_cases 0 p) as [Hp|Hp].
  - rewrite Z.quot_div_nonneg by lia.
    pose proof (quotient_bounds p r Hp Hr). lia.
  - replace p with (- (- p)) at 2 3 by lia.
    rewrite Z.quot_opp_l by lia. rewrite Z.quot_div_nonneg by lia.
    pose proof (quotient_bounds (- p) r ltac:(lia) Hr). lia.
Qed.

(** For an [int32] count the detour through [float64] and the product
    with [time.Second] are exact: the flow ETA is the quotient, truncated
    towards zero, in seconds. *)
Lemma flowETA_of_int32 (f : Flow) :
  Int32.in_range (Packets f) -> 0 < Pps f ->
  flowETA_of f = (Packets f ÷ Pps f) * Duration.Second.
Proof.
  unfold Int32.in_range, Int32.min_signed, Int32.max_signed. intros Hp Hr.
  pose proof (quot_bounds (Packets f) (Pps f) Hr) as Hq.
  unfold flowETA_of, Int64.div.
  rewrite wrap_in_range
    by (unfold Int64.in_range, Int64.min_signed, Int64.max_signed; lia).
  rewrite float64_round_trip by lia.
  unfold Int64.mul. apply wrap_in_range.
  unfold Int64.in_range, Int64.min_signed, Int64.max_signed, Duration.Second. lia.
Qed.

Lemma longest_bounds (fs : list Flow) (b : Z) :
  (forall f, In f fs -> 0 < Pps f -> flowETA_of f <= fold_left longest_step fs b)
  /\ (fold_left longest_step fs b = b
      \/ exists f, In f fs /\ 0 < Pps f /\ fold_left longest_step fs b = flowETA_of f).
Proof.
  revert b. induction fs as [|f fs IH]; intros b; cbn [fold_left].
  - split; [intros f []|left; reflexivity].
  - destruct (IH (longest_step b f)) as [Hub Hatt].
    pose proof (longest_ge fs (longest_step b f)) as Hge.
    split.
    + intros f' [<-|Hin] Hr; [|auto].
      unfold longest_step in Hge at 1. destruct (Z.ltb_spec 0 (Pps f)); lia.
    + destruct Hatt as [Heq|(f' & Hin & Hr & Heq)].
      * rewrite Heq. unfold longest_step.
        destruct (Z.ltb_spec 0 (Pps f)) as [Hr|Hr]; [|left; reflexivity].
        destruct (Z.max_spec b (flowETA_of f)) as [[_ E]|[_ E]]; rewrite E.
        -- right. exists f. cbn. auto.
        -- left. reflexivity.
      * right. exists f'. cbn. auto.
Qed.

(** X5.  With [int32] packet counts of either sign, the ETA is the
    largest of 0 and the quotients count / rate, truncated towards zero,
    in seconds, over the flows with a rate > 0: a negative count never
    brings the ETA below 0. *)
Theorem calculateTrafficTargets_signed (config : Config) :
  Forall (fun f => Int32.in_range (Packets f)) (Flows config) ->
  let eta := snd (calculateTrafficTargets config) in
  0 <= eta
  /\ (forall f, In f (Flows config) -> 0 < Pps f ->
        (Packets f ÷ Pps f) * Duration.Second <= eta)
  /\ (eta = 0
      \/ exists f, In f (Flows config) /\ 0 < Pps f
                   /\ eta = (Packets f ÷ Pps f) * Duration.Second).
Proof.
  intros Hfs. cbv zeta. rewrite calculateTrafficTargets_folds. cbn [snd].
  rewrite Forall_forall in Hfs.
  destruct (longest_bounds (Flows config) 0) as [Hub Hatt].
  split; [apply longest_ge|]. split.
  - intros f Hin Hr. rewrite <- flowETA_of_int32 by auto. auto.
  - destruct Hatt as [Heq|(f & Hin & Hr & Heq)]; [left; assumption|].
    right. exists f. rewrite <- flowETA_of_int32 by auto. auto.
Qed.

Lemma calculateTrafficTargets_signed_witness :
  let config := mkConfig [mkFlow "f1" (-7) 2; mkFlow "f2" 7 2] in
  Forall (fun f => Int32.in_range (Packets f)) (Flows config)
  /\ 0 <= snd (calculateTrafficTargets config)
  /\ (-7 ÷ 2) * Duration.Second <= snd (calculateTrafficTargets config).
Proof.
  cbv zeta.
  assert (Forall (fun f => Int32.in_range (Packets f))
            (Flows (mkConfig [mkFlow "f1" (-7) 2; mkFlow "f2" 7 2]))) as Hfs
    by (repeat constructor; cbv; discriminate).
  destruct (calculateTrafficTargets_signed _ Hfs) as (H0 & Hub & _).
  split; [exact Hfs|]. split; [exact H0|].
  apply (Hub (mkFlow "f1" (-7) 2)); [cbn; auto | reflexivity].
Defined.

(** ** Completion policy: the two checks compared *)

Lemma flow_scan_true (env : Env) (g : Flags) (eta : Z)
    (fms : list FlowMetric) (b : bool) (w w' : World) :
  flow_scan_with_eta env g eta fms b w = (Returned true, w') ->
  fold_left flow_running_step fms b = true
  /\ w' = mkWorld (List.length fms + clock_reads w) (fetches w) (trace w).
Proof.
  revert b w. induction fms as [|fm fms IH]; intros b w H.
  - cbn in H. injection H as -> <-. split; [reflexivity|]. destruct w; reflexivity.
  - destruct (eta_exceeded (xeta g) eta (since_start env (clock_reads w))) eqn:He.
    + rewrite flow_scan_exceeded in H by assumption. discriminate.
    + rewrite flow_scan_not_exceeded in H by assumption.
      apply IH in H. destruct H as [Hf ->]. cbn [fold_left]. split; [assumption|].
      cbn [clock_reads fetches trace List.length]. f_equal. lia.
Qed.

(** X6.  The timeout only ever stops: when [isTrafficRunningWithETA]
    answers "running", so does [isTrafficRunning] on the same snapshot
    and target, and no warning has been signaled. *)
Theorem withETA_running_implies_running (env : Env) (g : Flags)
    (mr : MetricsResponse) (targetTx eta : Z) (w : World) :
  fst (isTrafficRunningWithETA env g mr targetTx eta w) = Returned true ->
  isTrafficRunning g mr targetTx = true
  /\ trace (snd (isTrafficRunningWithETA env g mr targetTx eta w)) = trace w.
Proof.
  destruct (String.eqb_spec (otgMetrics g) "port") as [Hp|Hp].
  - rewrite withETA_port, isTrafficRunning_port by assumption.
    destruct (eta_exceeded _ _ _); cbn [fst snd trace]; [discriminate|].
    intros H. injection H as H. auto.
  - destruct (String.eqb_spec (otgMetrics g) "flow") as [Hf|Hf].
    + rewrite withETA_flow by assumption.
      destruct (flow_scan_with_eta env g eta (FlowMetrics mr) false w) as [o w'] eqn:E.
      cbn [fst snd]. intros ->. apply flow_scan_true in E. destruct E as [E ->].
      unfold isTrafficRunning. rewrite Hf. cbn [String.eqb Ascii.eqb Bool.eqb].
      split; [exact E | reflexivity].
    + rewrite withETA_other by assumption. cbn. discriminate.
Qed.

Lemma withETA_running_implies_running_witness :
  let g := default_flags "flow" (float32_of_int64 2) in
  let mr := mkMetricsResponse [] [mkFlowMetric "f1" STOPPED; mkFlowMetric "f2" STARTED] in
  let env := scripted_env (fun _ => 5 * Duration.Second) (fun _ => mr) in
  fst (isTrafficRunningWithETA env g mr 0 (10 * Duration.Second) initial_world)
  = Returned true
  /\ isTrafficRunning g mr 0 = true.
Proof.
  cbv zeta.
  assert (fst (isTrafficRunningWithETA
                 (scripted_env (fun _ => 5 * Duration.Second)
                    (fun _ => mkMetricsResponse []
                                [mkFlowMetric "f1" STOPPED; mkFlowMetric "f2" STARTED]))
                 (default_flags "flow" (float32_of_int64 2))
                 (mkMetricsResponse []
                    [mkFlowMetric "f1" STOPPED; mkFlowMetric "f2" STARTED])
                 0 (10 * Duration.Second) initial_world) = Returned true) as H
    by (vm_compute; reflexivity).
  split; [exact H|].
  apply (withETA_running_implies_running _ _ _ _ _ _ H).
Defined.

Lemma flow_scan_within_bound (env : Env) (g : Flags) (eta : Z)
    (fms : list FlowMetric) (b : bool) (w : World) :
  (forall i, (i < List.length fms)%nat ->
             eta_exceeded (xeta g) eta (since_start env (clock_reads w + i)) = false) ->
  flow_scan_with_eta env g eta fms b w
  = (Returned (fold_left flow_running_step fms b),
     mkWorld (clock_reads w + List.length fms) (fetches w) (trace w)).
Proof.
  revert b w. induction fms as [|fm fms IH]; intros b w He.
  - cbn. unfold ret. rewrite Nat.add_0_r. destruct w; reflexivity.
  - rewrite flow_scan_not_exceeded.
    2:{ specialize (He 0%nat ltac:(cbn; lia)). rewrite Nat.add_0_r in He. exact He. }
    rewrite IH.
    + cbn [clock_reads fetches trace fold_left List.length]. f_equal. f_equal. lia.
    + intros i Hi. cbn [clock_reads].
      specialize (He (S i) ltac:(cbn; lia)).
      replace (S (clock_reads w) + i)%nat with (clock_reads w + S i)%nat by lia.
      exact He.
Qed.

(** X7.  As long as the bound is not exceeded at the clock readings of
    a check, [isTrafficRunningWithETA] answers as [isTrafficRunning] does
    and signals nothing; it has read the clock once in port mode and once
    per flow record in flow mode. *)
Theorem withETA_within_bound (env : Env) (g : Flags)
    (mr : MetricsResponse) (targetTx eta : Z) (w : World) :
  (forall n, (clock_reads w <= n)%nat ->
             eta_exceeded (xeta g) eta (since_start env n) = false) ->
  isTrafficRunningWithETA env g mr targetTx eta w
  = (Returned (isTrafficRunning g mr targetTx),
     mkWorld (clock_reads w
              + (if String.eqb (otgMetrics g) "port" then 1
                 else if String.eqb (otgMetrics g) "flow"
                      then List.length (FlowMetrics mr) else 0))
             (fetches w) (trace w)).
Proof.
  intros He.
  destruct (String.eqb_spec (otgMetrics g) "port") as [Hp|Hp].
  - rewrite withETA_port, isTrafficRunning_port by assumption.
    rewrite He by lia. f_equal. f_equal. lia.
  - destruct (String.eqb_spec (otgMetrics g) "flow") as [Hf|Hf].
    + rewrite withETA_flow by assumption.
      rewrite flow_scan_within_bound by (intros; apply He; lia).
      unfold isTrafficRunning. rewrite Hf. reflexivity.
    + rewrite withETA_other by assumption.
      unfold isTrafficRunning. apply String.eqb_neq in Hp, Hf. rewrite Hp, Hf.
      unfold ret. rewrite Nat.add_0_r. destruct w; reflexivity.
Qed.

Lemma withETA_within_bound_witness :
  let g := default_flags "flow" (float32_of_int64 2) in
  let mr := mkMetricsResponse [] [mkFlowMetric "f1" STOPPED; mkFlowMetric "f2" STARTED] in
  let env := scripted_env (fun _ => 5 * Duration.Second) (fun _ => mr) in
  isTrafficRunningWithETA env g mr 0 (10 * Duration.Second) initial_world
  = (Returned true, mkWorld 2 0 []).
Proof.
  cbv zeta.
  apply (withETA_within_bound
           (scripted_env (fun _ => 5 * Duration.Second)
              (fun _ => mkMetricsResponse []
                          [mkFlowMetric "f1" STOPPED; mkFlowMetric "f2" STARTED]))
           (default_flags "flow" (float32_of_int64 2))
           (mkMetricsResponse [] [mkFlowMetric "f1" STOPPED; mkFlowMetric "f2" STARTED])
           0 (10 * Duration.Second) initial_world).
  intros n _. vm_compute. reflexivity.
Defined.

(** X8.  In flow mode the scan stops at the first record at whose check
    the bound is exceeded: the warning names that record, the records
    after it are not read, the answer is false whatever the states of the
    records, and the clock has been read once per record scanned and once
    more for the warning. *)
Theorem flow_scan_stops_at_deadline (env : Env) (g : Flags) (mr : MetricsResponse)
    (targetTx eta : Z) (w : World)
    (scanned : list FlowMetric) (fm : FlowMetric) (rest : list FlowMetric) :
  otgMetrics g = "flow"%string ->
  FlowMetrics mr = scanned ++ fm :: rest ->
  (forall i, (i < List.length scanned)%nat ->
             eta_exceeded (xeta g) eta (since_start env (clock_reads w + i)) = false) ->
  eta_exceeded (xeta g) eta
               (since_start env (clock_reads w + List.length scanned)) = true ->
  isTrafficRunningWithETA env g mr targetTx eta w
  = (Returned false,
     mkWorld (clock_reads w + List.length scanned + 2) (fetches w)
             (trace w ++ [EvForcedStop (Some (Name fm))
                            (since_start env (clock_reads w + List.length scanned + 1))
                            (xeta g)])).
Proof.
  intros Hf Hfms Hbefore Hat. rewrite withETA_flow, Hfms by assumption.
  clear Hfms. generalize false at 1. revert w Hbefore Hat.
  induction scanned as [|s scanned IH]; intros w Hbefore Hat b.
  - cbn [app List.length] in *. rewrite Nat.add_0_r in *.
    rewrite flow_scan_exceeded by assumption.
    replace (clock_reads w + 2)%nat with (S (S (clock_reads w))) by lia.
    replace (clock_reads w + 1)%nat with (S (clock_reads w)) by lia. reflexivity.
  - cbn [app]. rewrite flow_scan_not_exceeded.
    2:{ specialize (Hbefore 0%nat ltac:(cbn; lia)). rewrite Nat.add_0_r in Hbefore.
        exact Hbefore. }
    rewrite IH; cbn [clock_reads fetches trace List.length].
    + replace (S (clock_reads w) + List.length scanned + 2)%nat
        with (clock_reads w + S (List.length scanned) + 2)%nat by lia.
      replace (S (clock_reads w) + List.length scanned + 1)%nat
        with (clock_reads w + S (List.length scanned) + 1)%nat by lia.
      reflexivity.
    + intros i Hi. specialize (Hbefore (S i) ltac:(cbn; lia)).
      replace (S (clock_reads w) + i)%nat with (clock_reads w + S i)%nat by lia.
      exact Hbefore.
    + cbn [List.length] in Hat.
      replace (S (clock_reads w) + List.length scanned)%nat
        with (clock_reads w + S (List.length scanned))%nat by lia.
      exact Hat.
Qed.

Lemma flow_scan_stops_at_deadline_witness :
  let g := default_flags "flow" (float32_of_int64 2) in
  let mr := mkMetricsResponse []
              [mkFlowMetric "f1" STARTED; mkFlowMetric "f2" STARTED;
               mkFlowMetric "f3" STARTED] in
  let env := scripted_env (fun n => Z.of_nat n * 15 * Duration.Second) (fun _ => mr) in
  isTrafficRunningWithETA env g mr 0 (10 * Duration.Second) initial_world
  = (Returned false,
     mkWorld 4 0 [EvForcedStop (Some "f3"%string) (45 * Duration.Second) (xeta g)]).
Proof.
  cbv zeta.
  apply (flow_scan_stops_at_deadline
           (scripted_env (fun n => Z.of_nat n * 15 * Duration.Second)
              (fun _ => mkMetricsResponse []
                          [mkFlowMetric "f1" STARTED; mkFlowMetric "f2" STARTED;
                           mkFlowMetric "f3" STARTED]))
           (default_flags "flow" (float32_of_int64 2))
           (mkMetricsResponse []
              [mkFlowMetric "f1" STARTED; mkFlowMetric "f2" STARTED;
               mkFlowMetric "f3" STARTED])
           0 (10 * Duration.Second) initial_world
           [mkFlowMetric "f1" STARTED; mkFlowMetric "f2" STARTED]
           (mkFlowMetric "f3" STARTED) []).
  - reflexivity.
  - reflexivity.
  - intros i Hi. destruct i as [|[|i]]; [vm_compute; reflexivity .. | cbn in Hi; lia].
  - vm_compute. reflexivity.
Defined.

(** ** Completion policy: the order of the records *)

Lemma sum_frames_tx_perm (a b : list PortMetric) :
  Permutation a b -> sum_frames_tx a = sum_frames_tx b.
Proof. unfold sum_frames_tx. induction 1; cbn [map fold_right]; lia. Qed.

Lemma existsb_perm {A} (p : A -> bool) (a b : list A) :
  Permutation a b -> existsb p a = existsb p b.
Proof.
  induction 1; cbn [existsb].
  - reflexivity.
  - congruence.
  - destruct (p x), (p y); reflexivity.
  - congruence.
Qed.

(** X9.  The answer of [isTrafficRunning] does not depend on the order
    in which the server lists the port records or the flow records. *)
Theorem isTrafficRunning_permutation (g : Flags) (mr mr' : MetricsResponse)
    (targetTx : Z) :
  Permutation (PortMetrics mr) (PortMetrics mr') ->
  Permutation (FlowMetrics mr) (FlowMetrics mr') ->
  isTrafficRunning g mr targetTx = isTrafficRunning g mr' targetTx.
Proof.
  intros Hp Hf. unfold isTrafficRunning.
  rewrite !total_tx_sum, (sum_frames_tx_perm _ _ Hp).
  rewrite !fold_flow_running, (existsb_perm _ _ _ Hf). reflexivity.
Qed.

Lemma isTrafficRunning_permutation_witness :
  let g := default_flags "port" float32_zero in
  isTrafficRunning g
    (mkMetricsResponse [mkPortMetric "p1" 700; mkPortMetric "p2" 900] []) 1500
  = isTrafficRunning g
    (mkMetricsResponse [mkPortMetric "p2" 900; mkPortMetric "p1" 700] []) 1500.
Proof.
  cbv zeta. apply isTrafficRunning_permutation; cbn [PortMetrics FlowMetrics].
  - apply perm_swap.
  - apply perm_nil.
Defined.

(** ** The bound: signs *)

Lemma iter_pos_shr_1_nonneg (m : Z) (n : positive) :
  0 <= m ->
  0 <= shr_m (iter_pos shr_1 n {| shr_m := m; shr_r := false; shr_s := false |}).
Proof.
  intros Hm. rewrite iter_pos_shr_1 by assumption. cbn [shr_spec shr_m].
  apply Z.div_pos; lia.
Qed.

Lemma shr_nonneg (m e n : Z) :
  0 <= m ->
  0 <= shr_m (fst (shr {| shr_m := m; shr_r := false; shr_s := false |} e n)).
Proof.
  intros Hm. destruct n as [|p|p]; cbn [shr fst shr_m]; try assumption.
  apply iter_pos_shr_1_nonneg. assumption.
Qed.

Lemma round_nearest_even_ge (m : Z) (l : location) : m <= round_nearest_even m l.
Proof.
  destruct l as [|[| |]]; cbn [round_nearest_even]; try lia.
  destruct (Z.even m); lia.
Qed.

(** A product of two magnitudes rounds to zero, to a finite float or to
    infinity, of the sign given: never to the other sign, never to NaN. *)
Lemma binary_round_aux_sign (prec emax : Z) (s : bool) (m : positive) (e : Z) :
  match binary_round_aux prec emax s (Zpos m) e loc_Exact with
  | S754_zero s' | S754_infinity s' | S754_finite s' _ _ => s' = s
  | S754_nan => False
  end.
Proof.
  unfold binary_round_aux, shr_fexp. cbn [shr_record_of_loc].
  pose proof (shr_nonneg (Zpos m) e
                (fexp prec emax (Zdigits2 (Zpos m) + e) - e) ltac:(lia)) as H1.
  destruct (shr {| shr_m := Zpos m; shr_r := false; shr_s := false |} e
                (fexp prec emax (Zdigits2 (Zpos m) + e) - e)) as [mrs' e'].
  cbn [fst] in H1.
  pose proof (round_nearest_even_ge (shr_m mrs') (loc_of_shr_record mrs')) as H2.
  set (m2 := round_nearest_even (shr_m mrs') (loc_of_shr_record mrs')) in *.
  pose proof (shr_nonneg m2 e' (fexp prec emax (Zdigits2 m2 + e') - e') ltac:(lia)) as H3.
  destruct (shr {| shr_m := m2; shr_r := false; shr_s := false |} e'
                (fexp prec emax (Zdigits2 m2 + e') - e')) as [mrs'' e''].
  cbn [fst] in H3.
  destruct (shr_m mrs'') as [|p|p]; [reflexivity| |lia].
  destruct (e'' <=? emax - prec); reflexivity.
Qed.

Lemma SFltb_signs (x y : spec_float) :
  not_negative x -> not_positive y -> SFltb x y = false.
Proof.
  unfold SFltb.
  destruct x as [sx|[|]| |[|] mx ex], y as [sy|[|]| |[|] my ey];
    cbn; intros Hx Hy; try contradiction; reflexivity.
Qed.

Lemma of_Z_not_negative (prec emax : Z) (z : Z) :
  1 < prec -> prec < emax -> 0 <= z -> not_negative (Float.of_Z prec emax z).
Proof.
  intros Hp He Hz. destruct z as [|p|p]; [exact I| |lia].
  rewrite of_Z_pos by assumption. unfold pack. destruct (_ <=? _); exact I.
Qed.

Lemma of_Z_not_positive (prec emax : Z) (z : Z) :
  1 < prec -> prec < emax -> z <= 0 -> not_positive (Float.of_Z prec emax z).
Proof.
  intros Hp He Hz. destruct z as [|p|p]; [exact I|lia|].
  rewrite of_Z_neg by assumption. unfold pack. destruct (_ <=? _); exact I.
Qed.

Lemma SFmul_not_negative (prec emax : Z) (x y : spec_float) :
  not_negative x -> not_negative y -> not_negative (SFmul prec emax x y).
Proof.
  destruct x as [[|]|[|]| |[|] mx ex], y as [[|]|[|]| |[|] my ey];
    cbn; intros Hx Hy; try contradiction; try exact I.
  pose proof (binary_round_aux_sign prec emax false (Pos.mul mx my) (ex + ey)) as H.
  destruct (binary_round_aux prec emax false (Zpos (mx * my)) (ex + ey) loc_Exact)
    as [s'|s'| |s' m' e']; try contradiction; subst; exact I.
Qed.

Lemma positive_not_negative (x : float32) :
  Float.ltb float32_zero x = true -> not_negative x.
Proof.
  unfold Float.ltb, SFltb, float32_zero.
  destruct x as [s|[|]| |[|] m e]; cbn; try discriminate; intros _; exact I.
Qed.

Lemma bound_not_exceeded_at_zero (x : float32) (eta elapsed : Z) :
  Float.ltb float32_zero x = true -> 0 <= eta -> elapsed <= 0 ->
  eta_exceeded x eta elapsed = false.
Proof.
  intros Hx Heta Hle.
  unfold eta_exceeded, Float.ltb, float32_mul, Float.mul, float32_of_int64.
  apply SFltb_signs.
  - apply SFmul_not_negative.
    + apply of_Z_not_negative; lia.
    + apply positive_not_negative. assumption.
  - apply of_Z_not_positive; lia.
Qed.

(** X10.  With a multiplier > 0 and an ETA that is not negative, the
    bound is never below zero: no stop is forced unless some time has
    elapsed. *)
Theorem eta_exceeded_needs_time (x : float32) (eta elapsed : Z) :
  Float.ltb float32_zero x = true ->
  0 <= eta ->
  eta_exceeded x eta elapsed = true ->
  0 < elapsed.
Proof.
  intros Hx Heta Hex.
  destruct (Z.lt_ge_cases 0 elapsed) as [|Hle]; [assumption|exfalso].
  rewrite bound_not_exceeded_at_zero in Hex by assumption. discriminate.
Qed.

Lemma eta_exceeded_needs_time_witness :
  Float.ltb float32_zero (float32_of_int64 2) = true
  /\ 0 <= 10 * Duration.Second
  /\ 0 < 21 * Duration.Second.
Proof.
  assert (Float.ltb float32_zero (float32_of_int64 2) = true) as Hx
    by (vm_compute; reflexivity).
  assert (0 <= 10 * Duration.Second) as Heta by (cbv; discriminate).
  split; [exact Hx|]. split; [exact Heta|].
  apply (eta_exceeded_needs_time (float32_of_int64 2) (10 * Duration.Second)
           (21 * Duration.Second) Hx Heta).
  vm_compute. reflexivity.
Defined.

(** ** The bound: a multiplier of at least 1 *)

Lemma digits2_of_range (p : positive) (lo hi : Z) :
  0 <= lo -> 2 ^ lo <= Zpos p < 2 ^ hi -> lo < Zpos (digits2_pos p) <= hi.
Proof.
  intros Hlo [H1 H2]. pose proof (Zdigits2_bounds p) as [B1 B2].
  set (d := Zpos (digits2_pos p)) in *.
  assert (0 < d) by (unfold d; lia).
  split.
  - destruct (Z.lt_ge_cases lo d) as [|Hge]; [assumption|exfalso].
    assert (2 ^ d <= 2 ^ lo) by (apply Z.pow_le_mono_r; lia). lia.
  - destruct (Z.le_gt_cases d hi) as [|Hgt]; [assumption|exfalso].
    assert (2 ^ hi <= 2 ^ (d - 1)) by (apply Z.pow_le_mono_r; lia). lia.
Qed.

(** Multiplying a [float32] of 24 digits that is not below 1 by one of
    24 digits gives a float that is not below the latter. *)
Lemma SFmul_ge_1 (m1 mx : positive) (e1 ex : Z) :
  Zpos (digits2_pos m1) = 24 -> Zpos (digits2_pos mx) = 24 ->
  -23 <= e1 ->
  -23 < ex \/ ex = -23 /\ 2 ^ 23 <= Zpos mx ->
  SFleb (S754_finite false m1 e1)
        (SFmul 24 128 (S754_finite false m1 e1) (S754_finite false mx ex)) = true.
Proof.
  intros Hd1 Hdx He1 Hx.
  pose proof (Zdigits2_bounds m1) as B1. rewrite Hd1 in B1.
  pose proof (Zdigits2_bounds mx) as Bx. rewrite Hdx in Bx.
  change (24 - 1) with 23 in *.
  cbn [SFmul xorb].
  assert (2 ^ 46 <= Zpos (m1 * mx) < 2 ^ 48) as BP.
  { rewrite Pos2Z.inj_mul. split.
    - change (2 ^ 46) with (2 ^ 23 * 2 ^ 23). apply Z.mul_le_mono_nonneg; lia.
    - change (2 ^ 48) with (2 ^ 24 * 2 ^ 24). apply Z.mul_lt_mono_nonneg; lia. }
  pose proof (digits2_of_range (m1 * mx) 46 48 ltac:(lia) BP) as Hd.
  rewrite (binary_round_aux_shifted 24 128) by lia.
  cbv zeta.
  pose proof (shifted_quotient_bounds 24 ltac:(lia) (m1 * mx) ltac:(lia)) as Hq.
  cbv zeta in Hq. change (24 - 1) with 23 in Hq.
  set (n := Zpos (digits2_pos (m1 * mx)) - 24) in *.
  match goal with |- context [rne ?q ?r ?s] =>
    pose proof (rne_bounds q r s) as Hr; set (R := rne q r s) in * end.
  assert (ex + n = 0 -> Zpos m1 <= Zpos (m1 * mx) / 2 ^ n) as Hsame.
  { intros H0. assert (n = 23 /\ ex = -23) as [Hn Hex] by lia.
    rewrite Hn. apply Z.div_le_lower_bound; [lia|].
    rewrite Pos2Z.inj_mul. rewrite Z.mul_comm. apply Z.mul_le_mono_nonneg_l; lia. }
  unfold renormalise, SFleb.
  destruct (Z.ltb_spec R (2 ^ 24)).
  - destruct (Z.leb_spec (e1 + ex + n) (128 - 24)); cbn [SFcompare]; [|reflexivity].
    destruct (Z.compare_spec e1 (e1 + ex + n)) as [Heq|Hlt|Hgt]; [|reflexivity|lia].
    change (Pos.compare_cont Eq m1 (Z.to_pos R)) with (Pos.compare m1 (Z.to_pos R)).
    destruct (Pos.compare_spec m1 (Z.to_pos R)); [reflexivity|reflexivity|].
    specialize (Hsame ltac:(lia)). lia.
  - destruct (Z.leb_spec (e1 + ex + n + 1) (128 - 24)); cbn [SFcompare]; [|reflexivity].
    destruct (Z.compare_spec e1 (e1 + ex + n + 1)); [lia|reflexivity|lia].
Qed.

Lemma of_Z_pos_shape (p : positive) :
  float32_of_int64 (Zpos p) = S754_infinity false
  \/ exists m e, float32_of_int64 (Zpos p) = S754_finite false m e
                 /\ Zpos (digits2_pos m) = 24 /\ -23 <= e.
Proof.
  unfold float32_of_int64. rewrite of_Z_pos by lia.
  pose proof (round_pos_shape 24 ltac:(lia) p) as [B S]. cbv zeta in S.
  change (24 - 1) with 23 in B.
  unfold pack. destruct (_ <=? _); [|left; reflexivity].
  right. exists (Z.to_pos (fst (round_pos 24 p))), (snd (round_pos 24 p)).
  split; [reflexivity|]. split.
  - apply Zdigits2_unique. rewrite Z2Pos.id by lia. change (24 - 1) with 23. exact B.
  - assert (0 < Zpos (digits2_pos p)) by lia. lia.
Qed.

Lemma at_least_one_shape (x : float32) :
  SFleb (float32_of_int64 1) x = true ->
  valid_binary 24 128 x = true ->
  x = S754_infinity false
  \/ exists mx ex, x = S754_finite false mx ex
                   /\ Zpos (digits2_pos mx) = 24
                   /\ (-23 < ex \/ ex = -23 /\ 2 ^ 23 <= Zpos mx).
Proof.
  change (float32_of_int64 1) with (S754_finite false 8388608 (-23)).
  unfold SFleb. destruct x as [s|[|]| |[|] mx ex]; cbn [SFcompare]; try discriminate.
  - intros _ _. left. reflexivity.
  - intros Hle Hvalid. right. exists mx, ex. split; [reflexivity|].
    assert (-23 < ex \/ ex = -23 /\ 2 ^ 23 <= Zpos mx) as Hx.
    { destruct (Z.compare_spec (-23) ex) as [Heq|Hlt|Hgt]; [|left; assumption|discriminate].
      right. split; [lia|].
      change (Pos.compare_cont Eq 8388608 mx) with (Pos.compare 8388608 mx) in Hle.
      destruct (Pos.compare_spec 8388608 mx); [lia|lia|discriminate]. }
    split; [|exact Hx].
    cbn [valid_binary] in Hvalid. unfold bounded, canonical_mantissa, fexp, emin in Hvalid.
    apply andb_true_iff in Hvalid. destruct Hvalid as [Hc _].
    apply Z.eqb_eq in Hc. lia.
Qed.

(** X11.  With a valid multiplier of at least 1 and an ETA that is not
    negative, the stop is forced only after the traffic has run for
    longer than its ETA. *)
Theorem eta_exceeded_after_eta (x : float32) (eta elapsed : Z) :
  valid_binary 24 128 x = true ->
  SFleb (float32_of_int64 1) x = true ->
  0 <= eta ->
  eta_exceeded x eta elapsed = true ->
  eta < elapsed.
Proof.
  intros Hvalid Hone Heta Hex.
  destruct (Z.lt_ge_cases eta elapsed) as [|Hle]; [assumption|exfalso].
  assert (SFleb (float32_of_int64 elapsed) (float32_of_int64 eta) = true) as Hmono
    by (apply of_Z_mono; lia).
  pose proof Hex as Hex0.
  unfold eta_exceeded, Float.ltb in Hex.
  pose proof (SFltb_leb_trans _ _ _ Hex Hmono) as Hlt.
  apply SFltb_not_leb in Hlt.
  destruct eta as [|p|p]; [| |lia].
  - (* the bound is 0 *)
    rewrite (bound_not_exceeded_at_zero x 0 elapsed) in Hex0; [discriminate| |lia|lia].
    destruct (at_least_one_shape x Hone Hvalid) as [->|(mx & ex & -> & _)]; reflexivity.
  - unfold float32_mul, Float.mul in Hlt.
    destruct (of_Z_pos_shape p) as [Hinf|(m1 & e1 & Hfin & Hd1 & He1)].
    + rewrite Hinf in Hlt.
      destruct (at_least_one_shape x Hone Hvalid) as [->|(mx & ex & -> & _)];
        discriminate.
    + rewrite Hfin in Hlt.
      destruct (at_least_one_shape x Hone Hvalid) as [->|(mx & ex & -> & Hdx & Hx)].
      * discriminate.
      * rewrite SFmul_ge_1 in Hlt by assumption. discriminate.
Qed.

Lemma eta_exceeded_after_eta_witness :
  valid_binary 24 128 (float32_of_int64 2) = true
  /\ SFleb (float32_of_int64 1) (float32_of_int64 2) = true
  /\ 10 * Duration.Second < 21 * Duration.Second.
Proof.
  split; [reflexivity|]. split; [reflexivity|].
  apply (eta_exceeded_after_eta (float32_of_int64 2) (10 * Duration.Second)
           (21 * Duration.Second)).
  - reflexivity.
  - reflexivity.
  - cbv; discriminate.
  - vm_compute. reflexivity.
Defined.

(** ** The bound: multipliers that are not finite *)

Lemma eta_exceeded_infinite (eta elapsed : Z) :
  0 <= eta -> eta_exceeded (S754_infinity false) eta elapsed = false.
Proof.
  intros Heta. unfold eta_exceeded, Float.ltb, float32_mul, Float.mul, float32_of_int64.
  destruct eta as [|p|p]; [reflexivity| |lia].
  rewrite (of_Z_pos 24 128) by lia. unfold pack, SFltb.
  destruct (_ <=? _); cbn [SFmul xorb];
    destruct (Float.of_Z 24 128 elapsed) as [s|[|]| |[|] m e]; reflexivity.
Qed.

(** X12.  A multiplier that is not a finite number never forces a stop:
    with NaN the orchestrator uses the target-only check, and with
    +infinity (and an ETA that is not negative) the check with a timeout
    answers as the target-only check does, without a warning. *)
Theorem trafficRunning_not_finite (env : Env) (g : Flags)
    (mr : MetricsResponse) (targetTx eta : Z) (w : World) :
  xeta g = S754_nan \/ xeta g = S754_infinity false ->
  0 <= eta ->
  fst (trafficRunning env g mr targetTx eta w) = Returned (isTrafficRunning g mr targetTx)
  /\ trace (snd (trafficRunning env g mr targetTx eta w)) = trace w.
Proof.
  intros [Hx|Hx] Heta; unfold trafficRunning; rewrite Hx.
  - split; reflexivity.
  - change (Float.ltb float32_zero (S754_infinity false)) with true. cbv iota.
    destruct (String.eqb_spec (otgMetrics g) "port") as [Hp|Hp].
    + rewrite withETA_port, isTrafficRunning_port by assumption.
      rewrite Hx, eta_exceeded_infinite by assumption. split; reflexivity.
    + destruct (String.eqb_spec (otgMetrics g) "flow") as [Hf|Hf].
      * rewrite withETA_flow by assumption.
        rewrite flow_scan_within_bound
          by (intros; rewrite Hx; apply eta_exceeded_infinite; assumption).
        unfold isTrafficRunning. rewrite Hf. split; reflexivity.
      * rewrite withETA_other by assumption.
        unfold isTrafficRunning. apply String.eqb_neq in Hp, Hf. rewrite Hp, Hf.
        split; reflexivity.
Qed.

Lemma trafficRunning_not_finite_witness :
  let g := default_flags "port" (S754_infinity false) in
  let mr := mkMetricsResponse [mkPortMetric "p1" 0] [] in
  let env := scripted_env (fun _ => 3600 * Duration.Second) (fun _ => mr) in
  fst (trafficRunning env g mr 1500 (10 * Duration.Second) initial_world)
  = Returned true.
Proof.
  cbv zeta.
  apply (trafficRunning_not_finite
           (scripted_env (fun _ => 3600 * Duration.Second)
              (fun _ => mkMetricsResponse [mkPortMetric "p1" 0] []))
           (default_flags "port" (S754_infinity false))
           (mkMetricsResponse [mkPortMetric "p1" 0] []) 1500
           (10 * Duration.Second) initial_world).
  - right. reflexivity.
  - cbv. discriminate.
Defined.

(** ** The poll loop, step by step *)

Lemma flow_scan_frame (env : Env) (g : Flags) (eta : Z)
    (fms : list FlowMetric) (b0 : bool) (w : World) :
  exists b w1,
    flow_scan_with_eta env g eta fms b0 w = (Returned b, w1)
    /\ fetches w1 = fetches w
    /\ (clock_reads w <= clock_reads w1)%nat.
Proof.
  revert b0 w. induction fms as [|fm fms IH]; intros b0 w.
  - exists b0, w. cbn. unfold ret. auto.
  - destruct (eta_exceeded (xeta g) eta (since_start env (clock_reads w))) eqn:He.
    + rewrite flow_scan_exceeded by assumption. eexists _, _.
      split; [reflexivity|]. cbn. split; [reflexivity|lia].
    + rewrite flow_scan_not_exceeded by assumption.
      destruct (IH (flow_running_step b0 fm)
                   (mkWorld (S (clock_reads w)) (fetches w) (trace w)))
        as (b & w1 & H & Hf & Hc).
      exists b, w1. cbn in Hf, Hc. split; [exact H|]. split; [exact Hf|lia].
Qed.

(** What one completion check does to the world. *)
Lemma check_step (env : Env) (g : Flags) (mr : MetricsResponse)
    (targetTx eta : Z) (w : World) :
  exists b w1,
    trafficRunning env g mr targetTx eta w = (Returned b, w1)
    /\ fetches w1 = fetches w
    /\ (clock_reads w <= clock_reads w1)%nat
    /\ (b = true ->
        isTrafficRunning g mr targetTx = true
        /\ trace w1 = trace w
        /\ (Float.ltb float32_zero (xeta g) = true ->
            (clock_reads w < clock_reads w1)%nat
            /\ eta_exceeded (xeta g) eta (since_start env (clock_reads w)) = false)).
Proof.
  unfold trafficRunning. destruct (Float.ltb float32_zero (xeta g)) eqn:Hx.
  2:{ exists (isTrafficRunning g mr targetTx), w. unfold ret.
      repeat split; auto; discriminate. }
  destruct (String.eqb_spec (otgMetrics g) "port") as [Hp|Hp].
  - rewrite withETA_port, isTrafficRunning_port by assumption.
    destruct (eta_exceeded _ _ _) eqn:He.
    + eexists _, _. split; [reflexivity|]. cbn. repeat split; try lia; discriminate.
    + eexists _, _. split; [reflexivity|]. cbn [fetches clock_reads trace].
      split; [reflexivity|]. split; [lia|]. intros Hb. repeat split; auto.
  - destruct (String.eqb_spec (otgMetrics g) "flow") as [Hf|Hf].
    + rewrite withETA_flow by assumption.
      destruct (flow_scan_frame env g eta (FlowMetrics mr) false w)
        as (b & w1 & H & Hfe & Hc).
      exists b, w1.
      split; [exact H|]. split; [exact Hfe|]. split; [exact Hc|].
      intros ->. destruct (flow_scan_true _ _ _ _ _ _ _ H) as [Hfold Hw].
      split; [|split].
      * unfold isTrafficRunning. rewrite Hf. exact Hfold.
      * rewrite Hw. reflexivity.
      * intros _. destruct (FlowMetrics mr) as [|fm fms] eqn:Efms.
        -- cbn in H. discriminate.
        -- destruct (eta_exceeded (xeta g) eta (since_start env (clock_reads w))) eqn:He.
           ++ rewrite flow_scan_exceeded in H by assumption. discriminate.
           ++ split; [|reflexivity]. rewrite Hw. cbn. lia.
    + rewrite withETA_other by assumption. exists false, w. unfold ret.
      repeat split; auto; discriminate.
Qed.

(** On a snapshot that [isTrafficRunning] finds finished the loop ends
    at once: no sleep, no fetch. *)
Lemma poll_finished (fuel : nat) (env : Env) (g : Flags) (req : MetricsChoice)
    (targetTx eta : Z) (metrics : MetricsResponse) (w : World) :
  isTrafficRunning g metrics targetTx = false ->
  exists w1,
    poll fuel env g req targetTx eta metrics w = (Returned tt, w1)
    /\ fetches w1 = fetches w
    /\ count is_sleep (trace w1) = count is_sleep (trace w).
Proof.
  intros Hdone. rewrite poll_unfold.
  pose proof (only_trafficRunning (fun e => is_sleep e = false)
                ltac:(reflexivity) env g metrics targetTx eta w) as (tr & Ht & Hq).
  destruct (check_step env g metrics targetTx eta w) as (b & w1 & H & Hf & _ & Hb).
  rewrite H in *. cbn [fst snd] in *.
  destruct b.
  - destruct (Hb eq_refl) as [Hrun _]. congruence.
  - exists w1. split; [reflexivity|]. split; [exact Hf|].
    rewrite Ht, count_app, (count_quiet _ _ Hq). lia.
Qed.

(** ** The poll loop ends *)

Lemma poll_ends_by_clock (fuel : nat) (env : Env) (g : Flags) (req : MetricsChoice)
    (targetTx eta : Z) (deadline : nat) (metrics : MetricsResponse) (w : World) :
  Float.ltb float32_zero (xeta g) = true ->
  (forall n, (deadline <= n)%nat ->
             eta_exceeded (xeta g) eta (since_start env n) = true) ->
  (deadline <= fuel + clock_reads w)%nat ->
  fst (poll fuel env g req targetTx eta metrics w) <> StillPolling.
Proof.
  intros Hx Hlate. revert metrics w.
  induction fuel as [|fuel IH]; intros metrics w Hfuel; rewrite poll_unfold;
    destruct (check_step env g metrics targetTx eta w) as (b & w1 & H & Hf & Hc & Hb);
    rewrite H; destruct b; try (cbn; discriminate);
    destruct (Hb eq_refl) as (_ & _ & Hclock);
    destruct (Hclock Hx) as [Hreads Hnot].
  - rewrite Hlate in Hnot by lia. discriminate.
  - destruct (GetMetrics env (fetches w1) req) as [metrics'|err]; [|cbn; discriminate].
    destruct (otgMetricsResponseToJson env metrics'); [|cbn; discriminate].
    apply IH. cbn. lia.
Qed.

Lemma poll_ends_by_metrics (fuel : nat) (env : Env) (g : Flags) (req : MetricsChoice)
    (targetTx eta : Z) (n : nat) (finished metrics : MetricsResponse) (w : World) :
  GetMetrics env n req = Success finished ->
  isTrafficRunning g finished targetTx = false ->
  (fetches w <= n < fetches w + fuel)%nat ->
  fst (poll fuel env g req targetTx eta metrics w) <> StillPolling.
Proof.
  intros Hget Hdone. revert metrics w.
  induction fuel as [|fuel IH]; intros metrics w Hn; [lia|].
  rewrite poll_unfold.
  destruct (check_step env g metrics targetTx eta w) as (b & w1 & H & Hf & _);
    rewrite H; destruct b; [|cbn; discriminate].
  destruct (GetMetrics env (fetches w1) req) as [metrics'|err] eqn:Hfetch;
    [|cbn; discriminate].
  destruct (otgMetricsResponseToJson env metrics') as [j|err]; [|cbn; discriminate].
  destruct (Nat.eq_dec (fetches w) n) as [Heq|Hne].
  - rewrite Hf, Heq, Hget in Hfetch. injection Hfetch as <-.
    destruct (poll_finished fuel env g req targetTx eta finished
                (push (polled g req w1) (EvPrintln j)) Hdone) as (w2 & -> & _).
    cbn. discriminate.
  - apply IH. cbn. lia.
Qed.

(** When a run is still polling, so is its poll loop, which started
    after one fetch and no clock reading. *)
Lemma runTraffic_still_polling (fuel : nat) (env : Env) (g : Flags)
    (config : Config) (w : World) :
  fst (runTraffic fuel env g config w) = StillPolling ->
  exists metrics w1,
    GetMetrics env (fetches w) (metrics_request g) = Success metrics
    /\ fetches w1 = S (fetches w)
    /\ clock_reads w1 = clock_reads w
    /\ fst (poll fuel env g (metrics_request g)
                 (fst (calculateTrafficTargets config))
                 (snd (calculateTrafficTargets config)) metrics w1) = StillPolling.
Proof.
  unfold runTraffic.
  destruct (calculateTrafficTargets config) as [targetTx eta]. cbn [fst snd].
  unfold bind at 1 2 3 4 5 6 7 8 9 10.
  unfold emit at 1 2 3 4 5 6, api_SetConfig, api_SetTransmitState at 1,
    api_GetMetrics at 1.
  cbn [clock_reads fetches trace].
  rewrite run_checkResponse_warning.
  destruct (SetConfig env config) as [ws1|err1]; cbn [clock_reads fetches trace];
    [|cbn; discriminate].
  rewrite run_checkResponse_warning.
  destruct (SetTransmitState env START) as [ws2|err2]; cbn [clock_reads fetches trace];
    [|cbn; discriminate].
  destruct (GetMetrics env (fetches w) (metrics_request g)) as [metrics|err];
    [|cbn; discriminate].
  unfold bind at 1. cbn [checkResponse]. unfold printMetricsResponseRawJson.
  destruct (otgMetricsResponseToJson env metrics) as [j|err]; [|cbn; discriminate].
  unfold emit at 1. cbn [clock_reads fetches trace].
  unfold bind at 1, emit at 1. cbn [clock_reads fetches trace].
  unfold bind at 1.
  match goal with |- context [poll fuel env g ?r ?t ?e metrics ?w0] =>
    destruct (poll fuel env g r t e metrics w0) as [[[]| |] w1] eqn:Hpoll
  end.
  - unfold bind, emit, api_SetTransmitState. cbn [clock_reads fetches trace].
    rewrite run_checkResponse_warning.
    destruct (SetTransmitState env STOP); cbn; discriminate.
  - cbn. discriminate.
  - intros _. eexists metrics, _. split; [reflexivity|].
    split; [|split; [|rewrite Hpoll; reflexivity]]; reflexivity.
Qed.

(** X13.  With a multiplier > 0 a run does not poll for ever: when the
    clock readings exceed the bound from some reading on, a run with
    enough fuel for that many polls returns or exits, whatever the
    metrics say. *)
Theorem runTraffic_ends_by_timeout (fuel : nat) (env : Env) (g : Flags)
    (config : Config) (deadline : nat) (w : World) :
  Float.ltb float32_zero (xeta g) = true ->
  (forall n, (deadline <= n)%nat ->
             eta_exceeded (xeta g) (snd (calculateTrafficTargets config))
                          (since_start env n) = true) ->
  (deadline <= fuel + clock_reads w)%nat ->
  fst (runTraffic fuel env g config w) <> StillPolling.
Proof.
  intros Hx Hlate Hfuel Hstill.
  destruct (runTraffic_still_polling _ _ _ _ _ Hstill)
    as (metrics & w1 & _ & _ & Hc & Hpoll).
  revert Hpoll. apply poll_ends_by_clock with (deadline := deadline); try assumption.
  rewrite Hc. assumption.
Qed.

Lemma runTraffic_ends_by_timeout_witness :
  let config := mkConfig [mkFlow "f1" 1000 100] in
  let g := default_flags "port" (float32_of_int64 2) in
  let env := scripted_env (fun n => Z.of_nat n * 15 * Duration.Second)
                          (fun _ => mkMetricsResponse [mkPortMetric "p1" 0] []) in
  fst (runTraffic 2 env g config initial_world) <> StillPolling.
Proof.
  cbv zeta.
  apply (runTraffic_ends_by_timeout 2
           (scripted_env (fun n => Z.of_nat n * 15 * Duration.Second)
              (fun _ => mkMetricsResponse [mkPortMetric "p1" 0] []))
           (default_flags "port" (float32_of_int64 2))
           (mkConfig [mkFlow "f1" 1000 100]) 2 initial_world).
  - vm_compute. reflexivity.
  - intros n Hn.
    apply (eta_exceeded_mono _ _ (30 * Duration.Second)).
    + cbn [scripted_env since_start]. unfold Duration.Second. lia.
    + vm_compute. reflexivity.
  - cbn. lia.
Defined.

(** X14.  A run ends once the server reports the traffic finished: when
    some fetch returns a snapshot on which [isTrafficRunning] is false,
    a run with enough fuel to reach that fetch returns or exits, under
    either policy. *)
Theorem runTraffic_ends_by_metrics (fuel : nat) (env : Env) (g : Flags)
    (config : Config) (n : nat) (finished : MetricsResponse) (w : World) :
  GetMetrics env n (metrics_request g) = Success finished ->
  isTrafficRunning g finished (fst (calculateTrafficTargets config)) = false ->
  (fetches w <= n <= fetches w + fuel)%nat ->
  fst (runTraffic fuel env g config w) <> StillPolling.
Proof.
  intros Hget Hdone Hn Hstill.
  destruct (runTraffic_still_polling _ _ _ _ _ Hstill)
    as (metrics & w1 & Hfirst & Hf & _ & Hpoll).
  revert Hpoll.
  destruct (Nat.eq_dec n (fetches w)) as [->|Hne].
  - rewrite Hget in Hfirst. injection Hfirst as <-.
    destruct (poll_finished fuel env g (metrics_request g)
                (fst (calculateTrafficTargets config))
                (snd (calculateTrafficTargets config)) finished w1 Hdone)
      as (w2 & -> & _).
    cbn. discriminate.
  - apply poll_ends_by_metrics with (n := n) (finished := finished); try assumption.
    lia.
Qed.

Lemma runTraffic_ends_by_metrics_witness :
  let config := mkConfig [mkFlow "f1" 1000 100] in
  let g := default_flags "port" float32_zero in
  let env := scripted_env (fun _ => 0)
               (fun n => mkMetricsResponse [mkPortMetric "p1" (Z.of_nat n * 400)] []) in
  fst (runTraffic 3 env g config initial_world) <> StillPolling.
Proof.
  cbv zeta.
  apply (runTraffic_ends_by_metrics 3
           (scripted_env (fun _ => 0)
              (fun n => mkMetricsResponse [mkPortMetric "p1" (Z.of_nat n * 400)] []))
           (default_flags "port" float32_zero)
           (mkConfig [mkFlow "f1" 1000 100]) 3
           (mkMetricsResponse [mkPortMetric "p1" 1200] []) initial_world).
  - reflexivity.
  - reflexivity.
  - cbn. lia.
Defined.

(** ** The run, case by case *)

(** What the poll loop adds to the trace: no fatal error but a last
    one when it exits; a fetch after each sleep, each sleep of the
    interval; no START, no STOP. *)
Lemma poll_trace (fuel : nat) (env : Env) (g : Flags) (req : MetricsChoice)
    (targetTx eta : Z) (metrics : MetricsResponse) (w : World) :
  exists tr,
    trace (snd (poll fuel env g req targetTx eta metrics w)) = trace w ++ tr
    /\ ends_fatally (fst (poll fuel env g req targetTx eta metrics w)) tr
    /\ count is_fetch tr = count is_sleep tr
    /\ Forall (sleeps_for (otgPullInterval g)) tr
    /\ count is_start tr = 0%nat /\ count is_stop tr = 0%nat.
Proof.
  revert metrics w. induction fuel as [|fuel IH]; intros metrics w;
    rewrite poll_unfold;
    pose proof (only_trafficRunning
                  (fun e => is_fatal e = false /\ is_fetch e = false
                            /\ is_sleep e = false /\ is_start e = false
                            /\ is_stop e = false)
                  ltac:(repeat split) env g metrics targetTx eta w) as (tr0 & Ht0 & Hq);
    destruct (check_step env g metrics targetTx eta w) as (b & w1 & H & _);
    rewrite H in *; cbn [fst snd] in Ht0;
    assert (count is_fatal tr0 = 0%nat /\ count is_fetch tr0 = 0%nat
            /\ count is_sleep tr0 = 0%nat /\ count is_start tr0 = 0%nat
            /\ count is_stop tr0 = 0%nat /\ Forall (sleeps_for (otgPullInterval g)) tr0)
      as (Q1 & Q2 & Q3 & Q4 & Q5 & Q6)
      by (repeat split; try (apply count_quiet; eapply Forall_impl; [|exact Hq];
                             cbn; intros e He; tauto);
          eapply Forall_impl; [|exact Hq]; intros [] He; cbn in *;
          try exact I; destruct He as (_ & _ & He & _); discriminate).
  - exists tr0. destruct b; cbn [fst snd]; repeat split; try assumption; congruence.
  - destruct b; [|exists tr0; cbn [fst snd]; repeat split; try assumption; congruence].
    destruct (GetMetrics env (fetches w1) req) as [metrics'|err].
    2:{ exists (tr0 ++ [EvSleep (otgPullInterval g); EvGetMetrics req; EvFatal err]).
        cbn [fst snd push polled trace]. rewrite Ht0, <- !app_assoc.
        split; [reflexivity|]. rewrite !count_app, Q2, Q3, Q4, Q5.
        split; [|repeat split; try reflexivity].
        - exists (tr0 ++ [EvSleep (otgPullInterval g); EvGetMetrics req]), err.
          rewrite <- !app_assoc, count_app, Q1. split; reflexivity.
        - apply Forall_app. split; [assumption|]. repeat constructor. }
    destruct (otgMetricsResponseToJson env metrics') as [j|err].
    2:{ exists (tr0 ++ [EvSleep (otgPullInterval g); EvGetMetrics req; EvFatal err]).
        cbn [fst snd push polled trace]. rewrite Ht0, <- !app_assoc.
        split; [reflexivity|]. rewrite !count_app, Q2, Q3, Q4, Q5.
        split; [|repeat split; try reflexivity].
        - exists (tr0 ++ [EvSleep (otgPullInterval g); EvGetMetrics req]), err.
          rewrite <- !app_assoc, count_app, Q1. split; reflexivity.
        - apply Forall_app. split; [assumption|]. repeat constructor. }
    destruct (IH metrics' (push (polled g req w1) (EvPrintln j)))
      as (tr & Ht & Hfatal & Hbal & Hsleep & Hstart & Hstop).
    exists (tr0 ++ [EvSleep (otgPullInterval g); EvGetMetrics req; EvPrintln j] ++ tr).
    rewrite Ht. cbn [push polled trace]. rewrite Ht0, <- !app_assoc.
    split; [reflexivity|].
    rewrite !count_app, Q2, Q3, Q4, Q5, Hbal, Hstart, Hstop.
    split; [|repeat split; try reflexivity].
    + destruct (fst (poll fuel env g req targetTx eta metrics'
                          (push (polled g req w1) (EvPrintln j))));
        unfold ends_fatally in Hfatal |- *.
      * rewrite !count_app, Q1, Hfatal. reflexivity.
      * destruct Hfatal as (pre & msg & -> & Hpre).
        exists (tr0 ++ [EvSleep (otgPullInterval g); EvGetMetrics req; EvPrintln j] ++ pre),
               msg.
        rewrite <- !app_assoc. split; [reflexivity|].
        rewrite !count_app, Q1, Hpre. reflexivity.
      * rewrite !count_app, Q1, Hfatal. reflexivity.
    + apply Forall_app. split; [assumption|].
      apply Forall_app. split; [repeat constructor|assumption].
Qed.

(** ** The command, case by case *)

Lemma initOTG_cases (env : Env) (g : Flags) (w : World) :
  initOTG env g w
  = let from_file := negb (String.eqb (otgFile g) "") in
    let read := if from_file then EvReadFile (otgFile g) else EvReadStdin in
    match (if from_file then ReadFile env (otgFile g) else ReadStdin env) with
    | Failure err => (Exited, logged w [read; EvFatal err])
    | Success otg =>
        match (if otgJson g then FromJson env otg else FromYaml env otg) with
        | Success config => (Returned config, logged w [read])
        | Failure err => (Exited, logged w [read; EvFatal err])
        end
    end.
Proof.
  unfold initOTG, logged. cbv zeta.
  destruct (negb (String.eqb (otgFile g) "")).
  - unfold bind, emit. cbn [clock_reads fetches trace].
    destruct (ReadFile env (otgFile g)) as [otg|err]; unfold ret, log_Fatal;
      cbn [clock_reads fetches trace].
    + destruct (if otgJson g then FromJson env otg else FromYaml env otg);
        cbn [clock_reads fetches trace]; rewrite <- ?app_assoc; reflexivity.
    + rewrite <- app_assoc. reflexivity.
  - unfold bind, emit. cbn [clock_reads fetches trace].
    destruct (ReadStdin env) as [otg|err]; unfold ret, log_Fatal;
      cbn [clock_reads fetches trace].
    + destruct (if otgJson g then FromJson env otg else FromYaml env otg);
        cbn [clock_reads fetches trace]; rewrite <- ?app_assoc; reflexivity.
    + rewrite <- app_assoc. reflexivity.
Qed.

Lemma runCmd_cases (fuel : nat) (env : Env) (g : Flags) (w : World) :
  runCmd fuel env g w
  = if String.eqb (otgMetrics g) "port" || String.eqb (otgMetrics g) "flow" then
      match ParseDuration env (otgPullIntervalStr g) with
      | Failure err => (Exited, logged w [EvFatal err])
      | Success d =>
          match initOTG env (set_otgPullInterval g d) w with
          | (Returned config, w1) =>
              runTraffic fuel env (set_otgPullInterval g d) config w1
          | (Exited, w1) => (Exited, w1)
          | (StillPolling, w1) => (StillPolling, w1)
          end
      end
    else
      (Exited,
       logged w [EvFatal ("Unsupported metrics type requested: " ++ otgMetrics g)]).
Proof.
  unfold runCmd, logged.
  destruct (String.eqb (otgMetrics g) "port"); cbn [orb];
    [|destruct (String.eqb (otgMetrics g) "flow")].
  - unfold bind at 1, ret. destruct (ParseDuration env (otgPullIntervalStr g)).
    + unfold bind. destruct w; reflexivity.
    + destruct w; reflexivity.
  - unfold bind at 1, ret. destruct (ParseDuration env (otgPullIntervalStr g)).
    + unfold bind. destruct w; reflexivity.
    + destruct w; reflexivity.
  - reflexivity.
Qed.

Lemma ends_fatally_app {A} (o : Outcome A) (tr1 tr2 : list Event) :
  count is_fatal tr1 = 0%nat -> ends_fatally o tr2 -> ends_fatally o (tr1 ++ tr2).
Proof.
  intros H1 H2. destruct o; cbn in *.
  - rewrite count_app, H1, H2. reflexivity.
  - destruct H2 as (pre & msg & -> & Hpre). exists (tr1 ++ pre), msg.
    rewrite <- app_assoc, count_app, H1, Hpre. split; reflexivity.
  - rewrite count_app, H1, H2. reflexivity.
Qed.

Lemma ends_fatally_exit {A} (pre : list Event) (msg : string) :
  count is_fatal pre = 0%nat -> @ends_fatally A Exited (pre ++ [EvFatal msg]).
Proof. intros H. exists pre, msg. split; [reflexivity|assumption]. Qed.

Ltac count_events :=
  unfold startup_events, stop_events;
  rewrite ?count_app, ?count_map_warning by reflexivity;
  try reflexivity.

Lemma runTraffic_fatal_last (fuel : nat) (env : Env) (g : Flags) (config : Config)
    (w : World) :
  exists tr,
    trace (snd (runTraffic fuel env g config w)) = trace w ++ tr
    /\ ends_fatally (fst (runTraffic fuel env g config w)) tr.
Proof.
  rewrite runTraffic_cases.
  destruct (SetConfig env config) as [ws1|err1].
  2:{ eexists. cbn [fst snd logged trace]. split; [reflexivity|].
      apply (ends_fatally_exit [_; _]). reflexivity. }
  destruct (SetTransmitState env START) as [ws2|err2].
  2:{ eexists. cbn [fst snd logged trace]. split; [reflexivity|].
      exists ([EvInfo "Applying OTG config..."; EvSetConfig config]
              ++ map EvWarning ws1
              ++ [EvInfo "ready."; EvInfo "Starting traffic..."; EvSetTransmitState START]),
             err2.
      split; [rewrite <- !app_assoc; reflexivity|]. count_events. }
  cbv zeta.
  destruct (GetMetrics env (fetches w) (metrics_request g)) as [metrics|err3].
  2:{ eexists. cbn [fst snd logged fetched trace]. rewrite <- app_assoc.
      split; [reflexivity|]. apply ends_fatally_exit. count_events. }
  destruct (otgMetricsResponseToJson env metrics) as [j|err4].
  2:{ eexists. cbn [fst snd logged fetched trace]. rewrite <- app_assoc.
      split; [reflexivity|]. apply ends_fatally_exit. count_events. }
  match goal with |- context [poll fuel env g ?r ?t ?e metrics ?w0] =>
    destruct (poll_trace fuel env g r t e metrics w0) as (tr & Ht & Hfatal & _);
    destruct (poll fuel env g r t e metrics w0) as [[[]| |] w2]
  end; cbn [fst snd logged fetched trace] in *.
  - destruct (SetTransmitState env STOP) as [ws3|err5];
      eexists; cbn [fst snd logged trace]; rewrite Ht, <- !app_assoc;
      (split; [reflexivity|]).
    + unfold ends_fatally in Hfatal |- *. rewrite !count_app, Hfatal. count_events.
    + exists (startup_events g config ws1 ws2 ++ [EvPrintln j; EvNow] ++ tr
              ++ [EvInfo "Stopping traffic..."; EvSetTransmitState STOP]), err5.
      split; [rewrite <- !app_assoc; reflexivity|].
      unfold ends_fatally in Hfatal. rewrite !count_app, Hfatal. count_events.
  - eexists. rewrite Ht, <- !app_assoc. split; [reflexivity|].
    apply ends_fatally_app; [count_events|].
    apply (ends_fatally_app _ [_; _]); [reflexivity|]. exact Hfatal.
  - eexists. rewrite Ht, <- !app_assoc. split; [reflexivity|].
    apply ends_fatally_app; [count_events|].
    apply (ends_fatally_app _ [_; _]); [reflexivity|]. exact Hfatal.
Qed.

(** A run that exits has logged one fatal error, last; a run that
    returns or is still polling has logged none. *)
Lemma runCmd_ends_fatally (fuel : nat) (env : Env) (g : Flags) (w : World) :
  exists tr,
    trace (snd (runCmd fuel env g w)) = trace w ++ tr
    /\ ends_fatally (fst (runCmd fuel env g w)) tr.
Proof.
  rewrite runCmd_cases.
  destruct (String.eqb (otgMetrics g) "port" || String.eqb (otgMetrics g) "flow").
  2:{ eexists. cbn [fst snd logged trace]. split; [reflexivity|].
      apply (ends_fatally_exit []). reflexivity. }
  destruct (ParseDuration env (otgPullIntervalStr g)) as [d|err].
  2:{ eexists. cbn [fst snd logged trace]. split; [reflexivity|].
      apply (ends_fatally_exit []). reflexivity. }
  rewrite initOTG_cases. cbv zeta.
  set (g' := set_otgPullInterval g d).
  set (read := if negb (String.eqb (otgFile g') "") then EvReadFile (otgFile g')
               else EvReadStdin).
  assert (is_fatal read = false) as Hread
    by (unfold read; destruct (negb _); reflexivity).
  destruct (if negb (String.eqb (otgFile g') "") then ReadFile env (otgFile g')
            else ReadStdin env) as [otg|err].
  2:{ eexists. cbn [fst snd logged trace]. split; [reflexivity|].
      apply (ends_fatally_exit [read]). cbn. rewrite Hread. reflexivity. }
  destruct (if otgJson g' then FromJson env otg else FromYaml env otg) as [config|err].
  2:{ eexists. cbn [fst snd logged trace]. split; [reflexivity|].
      apply (ends_fatally_exit [read]). cbn. rewrite Hread. reflexivity. }
  destruct (runTraffic_fatal_last fuel env g' config (logged w [read]))
    as (tr & Ht & Hfatal).
  exists ([read] ++ tr). rewrite Ht. cbn [logged trace]. rewrite <- app_assoc.
  split; [reflexivity|].
  apply ends_fatally_app; [|exact Hfatal]. cbn. rewrite Hread. reflexivity.
Qed.

(** START and STOP in a run. *)
Lemma runTraffic_start_stop (fuel : nat) (env : Env) (g : Flags) (config : Config)
    (w : World) :
  exists tr,
    trace (snd (runTraffic fuel env g config w)) = trace w ++ tr
    /\ (count is_stop tr <= count is_start tr <= 1)%nat
    /\ (fst (runTraffic fuel env g config w) = Returned tt ->
        exists pre ws,
          tr = pre ++ stop_events ws
          /\ SetTransmitState env STOP = Success ws
          /\ count is_start pre = 1%nat /\ count is_stop pre = 0%nat)
    /\ (fst (runTraffic fuel env g config w) = StillPolling ->
        count is_start tr = 1%nat /\ count is_stop tr = 0%nat).
Proof.
  rewrite runTraffic_cases.
  destruct (SetConfig env config) as [ws1|err1].
  2:{ eexists. cbn [fst snd logged trace]. split; [reflexivity|].
      split; [cbn; lia|]. split; discriminate. }
  destruct (SetTransmitState env START) as [ws2|err2].
  2:{ eexists. cbn [fst snd logged trace]. split; [reflexivity|].
      split; [|split; discriminate].
      rewrite !count_app, !count_map_warning by reflexivity. cbn; lia. }
  cbv zeta.
  assert (count is_start (startup_events g config ws1 ws2) = 1%nat) as Hs1
    by count_events.
  assert (count is_stop (startup_events g config ws1 ws2) = 0%nat) as Hs0
    by count_events.
  destruct (GetMetrics env (fetches w) (metrics_request g)) as [metrics|err3].
  2:{ eexists. cbn [fst snd logged fetched trace]. rewrite <- app_assoc.
      split; [reflexivity|]. split; [|split; discriminate].
      rewrite !count_app, Hs1, Hs0. cbn; lia. }
  destruct (otgMetricsResponseToJson env metrics) as [j|err4].
  2:{ eexists. cbn [fst snd logged fetched trace]. rewrite <- app_assoc.
      split; [reflexivity|]. split; [|split; discriminate].
      rewrite !count_app, Hs1, Hs0. cbn; lia. }
  match goal with |- context [poll fuel env g ?r ?t ?e metrics ?w0] =>
    destruct (poll_trace fuel env g r t e metrics w0)
      as (tr & Ht & _ & _ & _ & Hstart & Hstop);
    destruct (poll fuel env g r t e metrics w0) as [[[]| |] w2]
  end; cbn [fst snd logged fetched trace] in *.
  - destruct (SetTransmitState env STOP) as [ws3|err5] eqn:Hstp;
      eexists; cbn [fst snd logged trace]; rewrite Ht, <- !app_assoc;
      (split; [reflexivity|]).
    + split; [|split; [|discriminate]].
      * rewrite !count_app, Hs1, Hs0, Hstart, Hstop.
        unfold stop_events. rewrite !count_app, !count_map_warning by reflexivity.
        cbn; lia.
      * intros _. exists (startup_events g config ws1 ws2 ++ [EvPrintln j; EvNow] ++ tr), ws3.
        rewrite <- !app_assoc. split; [reflexivity|]. split; [reflexivity|].
        rewrite !count_app, Hs1, Hs0, Hstart, Hstop. split; reflexivity.
    + split; [|split; discriminate].
      rewrite !count_app, Hs1, Hs0, Hstart, Hstop. cbn; lia.
  - eexists. rewrite Ht, <- !app_assoc. split; [reflexivity|].
    split; [|split; discriminate].
    rewrite !count_app, Hs1, Hs0, Hstart, Hstop. cbn; lia.
  - eexists. rewrite Ht, <- !app_assoc. split; [reflexivity|].
    split; [|split; [discriminate|]].
    + rewrite !count_app, Hs1, Hs0, Hstart, Hstop. cbn; lia.
    + intros _. rewrite !count_app, Hs1, Hs0, Hstart, Hstop. split; reflexivity.
Qed.

(** A run begins by applying the configuration it was given. *)
Lemma runTraffic_begins (fuel : nat) (env : Env) (g : Flags) (config : Config)
    (w : World) :
  exists rest,
    trace (snd (runTraffic fuel env g config w))
    = trace w ++ EvInfo "Applying OTG config..." :: EvSetConfig config :: rest.
Proof.
  rewrite runTraffic_cases.
  destruct (SetConfig env config) as [ws1|err1];
    [|eexists; cbn [snd logged trace]; reflexivity].
  destruct (SetTransmitState env START) as [ws2|err2];
    [|eexists; cbn [snd logged trace app]; reflexivity].
  cbv zeta.
  destruct (GetMetrics env (fetches w) (metrics_request g)) as [metrics|err3];
    [|eexists; cbn [snd logged fetched trace startup_events app];
      rewrite <- app_assoc; reflexivity].
  destruct (otgMetricsResponseToJson env metrics) as [j|err4];
    [|eexists; cbn [snd logged fetched trace startup_events app];
      rewrite <- app_assoc; reflexivity].
  match goal with |- context [poll fuel env g ?r ?t ?e metrics ?w0] =>
    destruct (poll_trace fuel env g r t e metrics w0) as (tr & Ht & _);
    destruct (poll fuel env g r t e metrics w0) as [[[]| |] w2]
  end; cbn [fst snd logged fetched trace] in *.
  - destruct (SetTransmitState env STOP) as [ws3|err5];
      eexists; cbn [snd logged trace]; rewrite Ht, <- !app_assoc;
      cbn [startup_events app]; reflexivity.
  - eexists. rewrite Ht, <- !app_assoc. cbn [startup_events app]. reflexivity.
  - eexists. rewrite Ht, <- !app_assoc. cbn [startup_events app]. reflexivity.
Qed.

(** The start of the command: a fatal error after at most the read of
    the input, or a run on the configuration read. *)
Lemma runCmd_startup (fuel : nat) (env : Env) (g : Flags) (w : World) :
  (exists pre msg,
     runCmd fuel env g w = (Exited, logged w (pre ++ [EvFatal msg]))
     /\ (pre = [] \/ pre = [read_event g]))
  \/ exists d otg config,
       (otgMetrics g = "port"%string \/ otgMetrics g = "flow"%string)
       /\ ParseDuration env (otgPullIntervalStr g) = Success d
       /\ read_input env g = Success otg
       /\ parse_config env g otg = Success config
       /\ runCmd fuel env g w
          = runTraffic fuel env (set_otgPullInterval g d) config
                       (logged w [read_event g]).
Proof.
  rewrite runCmd_cases.
  destruct (String.eqb_spec (otgMetrics g) "port") as [Hp|Hp];
    [|destruct (String.eqb_spec (otgMetrics g) "flow") as [Hf|Hf]]; cbn [orb].
  3:{ left. exists [], ("Unsupported metrics type requested: " ++ otgMetrics g)%string.
      auto. }
  all: destruct (ParseDuration env (otgPullIntervalStr g)) as [d|err] eqn:Hd;
    [|left; exists [], err; auto].
  all: rewrite initOTG_cases; cbv zeta;
    change (otgFile (set_otgPullInterval g d)) with (otgFile g);
    change (otgJson (set_otgPullInterval g d)) with (otgJson g);
    fold (read_event g); fold (read_input env g);
    destruct (read_input env g) as [otg|err] eqn:Hread;
    [|left; exists [read_event g], err; auto];
    fold (parse_config env g otg);
    destruct (parse_config env g otg) as [config|err] eqn:Hparse;
    [|left; exists [read_event g], err; auto];
    right; exists d, otg, config; auto 10.
Qed.

Lemma read_event_kind (g : Flags) :
  is_fetch (read_event g) = false /\ is_sleep (read_event g) = false
  /\ is_start (read_event g) = false /\ is_stop (read_event g) = false
  /\ is_remote_call (read_event g) = false.
Proof. unfold read_event. destruct (negb _); repeat split. Qed.

Lemma count_cons_quiet (p : Event -> bool) (e : Event) (tr : list Event) :
  p e = false -> count p (e :: tr) = count p tr.
Proof. intros H. unfold count. cbn [filter]. rewrite H. reflexivity. Qed.

Lemma count_startup_failure (p : Event -> bool) (g : Flags) (pre : list Event)
    (msg : string) :
  p (read_event g) = false -> p (EvFatal msg) = false ->
  pre = [] \/ pre = [read_event g] ->
  count p (pre ++ [EvFatal msg]) = 0%nat.
Proof.
  intros Hr Hf [-> | ->]; unfold count; cbn [app filter]; rewrite ?Hr, Hf; reflexivity.
Qed.

(** X17.  START is sent at most once and STOP never without it.  A run
    that returns has sent START once and ends with STOP, sent once, the
    warnings of its answer and the last progress line; a run that is
    still polling has sent START and no STOP. *)
Theorem runCmd_start_stop (fuel : nat) (env : Env) (g : Flags) (w : World) :
  exists tr,
    trace (snd (runCmd fuel env g w)) = trace w ++ tr
    /\ (count is_stop tr <= count is_start tr <= 1)%nat
    /\ (fst (runCmd fuel env g w) = Returned tt ->
        exists pre ws,
          tr = pre ++ stop_events ws
          /\ SetTransmitState env STOP = Success ws
          /\ count is_start pre = 1%nat /\ count is_stop pre = 0%nat)
    /\ (fst (runCmd fuel env g w) = StillPolling ->
        count is_start tr = 1%nat /\ count is_stop tr = 0%nat).
Proof.
  destruct (read_event_kind g) as (_ & _ & Ra & Ro & _).
  destruct (runCmd_startup fuel env g w)
    as [(pre & msg & -> & Hpre)|(d & otg & config & _ & _ & _ & _ & ->)].
  - eexists. cbn [fst snd logged trace]. split; [reflexivity|].
    rewrite !(count_startup_failure _ g) by auto.
    split; [lia|]. split; discriminate.
  - destruct (runTraffic_start_stop fuel env (set_otgPullInterval g d) config
                (logged w [read_event g])) as (tr & Ht & Hle & Hret & Hpoll).
    exists (read_event g :: tr). rewrite Ht. cbn [logged trace].
    rewrite <- app_assoc. split; [reflexivity|].
    rewrite !count_cons_quiet by assumption.
    split; [exact Hle|]. split; [|exact Hpoll].
    intros Hr. destruct (Hret Hr) as (pre & ws & -> & Hstop & H1 & H0).
    exists (read_event g :: pre), ws.
    rewrite !count_cons_quiet by assumption. auto.
Qed.

(** X18.  No remote call is made before the start of the command has
    succeeded: either the command exits on a fatal error, after at most
    the read of the input and without any remote call, or the mode is
    supported, the interval parses, the input (the named file, else the
    standard input) is read and parses (as JSON when asked, else as
    YAML), and the first remote call applies the configuration so
    obtained. *)
Theorem runCmd_first_remote_call (fuel : nat) (env : Env) (g : Flags) (w : World) :
  exists tr,
    trace (snd (runCmd fuel env g w)) = trace w ++ tr
    /\ ((fst (runCmd fuel env g w) = Exited
         /\ count is_remote_call tr = 0%nat /\ (List.length tr <= 2)%nat)
        \/ exists d otg config rest,
             (otgMetrics g = "port"%string \/ otgMetrics g = "flow"%string)
             /\ ParseDuration env (otgPullIntervalStr g) = Success d
             /\ read_input env g = Success otg
             /\ parse_config env g otg = Success config
             /\ tr = read_event g :: EvInfo "Applying OTG config..."
                       :: EvSetConfig config :: rest).
Proof.
  destruct (read_event_kind g) as (_ & _ & _ & _ & Rr).
  destruct (runCmd_startup fuel env g w)
    as [(pre & msg & -> & Hpre)|(d & otg & config & Hm & Hd & Hread & Hparse & ->)].
  - eexists. cbn [fst snd logged trace]. split; [reflexivity|]. left.
    split; [reflexivity|]. split; [apply (count_startup_failure _ g); auto|].
    destruct Hpre as [-> | ->]; cbn; lia.
  - destruct (runTraffic_begins fuel env (set_otgPullInterval g d) config
                (logged w [read_event g])) as (rest & Ht).
    eexists. rewrite Ht. cbn [logged trace]. rewrite <- app_assoc.
    split; [reflexivity|]. right. exists d, otg, config, rest. auto 10.
Qed.

(** ** The trace of the poll loop *)

(** The loop adds the events of the polls that succeeded, then what
    ended it: the warning of a forced stop, or the poll that failed. *)
Lemma poll_shape (fuel : nat) (env : Env) (g : Flags) (req : MetricsChoice)
    (targetTx eta : Z) (metrics : MetricsResponse) (w : World) :
  exists js ending,
    trace (snd (poll fuel env g req targetTx eta metrics w))
    = trace w ++ rounds (otgPullInterval g) req js ++ ending
    /\ json_of_fetches env req (fetches w) js
    /\ match fst (poll fuel env g req targetTx eta metrics w) with
       | Returned _ => Forall (fun e => is_forced_stop e = true) ending
       | Exited =>
           exists err,
             ending = [EvSleep (otgPullInterval g); EvGetMetrics req; EvFatal err]
             /\ (call_error env (fetches w + List.length js) (EvGetMetrics req) = Some err
                 \/ print_error env (fetches w + List.length js) (EvGetMetrics req)
                    = Some err)
       | StillPolling => ending = []
       end.
Proof.
  revert metrics w. induction fuel as [|fuel IH]; intros metrics w;
    rewrite poll_unfold;
    pose proof (only_trafficRunning (fun e => is_forced_stop e = true)
                  ltac:(reflexivity) env g metrics targetTx eta w) as (tr0 & Ht0 & Hq);
    destruct (check_step env g metrics targetTx eta w) as (b & w1 & H & Hf & _ & Hb);
    rewrite H in *; cbn [fst snd] in Ht0.
  - destruct b; cbn [fst snd].
    + exists [], []. destruct (Hb eq_refl) as (_ & -> & _).
      cbn [rounds flat_map app json_of_fetches]. rewrite app_nil_r. auto.
    + exists [], tr0. cbn [rounds flat_map app json_of_fetches]. auto.
  - destruct b;
      [|exists [], tr0; cbn [fst snd rounds flat_map app json_of_fetches]; auto].
    destruct (Hb eq_refl) as (_ & Htr & _).
    destruct (GetMetrics env (fetches w1) req) as [metrics'|err] eqn:Hget.
    2:{ exists [], [EvSleep (otgPullInterval g); EvGetMetrics req; EvFatal err].
        cbn [fst snd push polled trace rounds flat_map app json_of_fetches List.length].
        rewrite Htr, <- !app_assoc. split; [reflexivity|]. split; [exact I|].
        exists err. split; [reflexivity|]. left.
        cbn [call_error]. rewrite Nat.add_0_r, <- Hf, Hget. reflexivity. }
    destruct (otgMetricsResponseToJson env metrics') as [j|err] eqn:Hjson.
    2:{ exists [], [EvSleep (otgPullInterval g); EvGetMetrics req; EvFatal err].
        cbn [fst snd push polled trace rounds flat_map app json_of_fetches List.length].
        rewrite Htr, <- !app_assoc. split; [reflexivity|]. split; [exact I|].
        exists err. split; [reflexivity|]. right.
        cbn [print_error]. rewrite Nat.add_0_r, <- Hf, Hget, Hjson. reflexivity. }
    destruct (IH metrics' (push (polled g req w1) (EvPrintln j)))
      as (js & ending & Ht & Hjs & Hend).
    cbn [push polled fetches trace] in Ht, Hjs, Hend.
    exists (j :: js), ending. split; [|split].
    + rewrite Ht, Htr. cbn [rounds flat_map]. rewrite <- !app_assoc. reflexivity.
    + cbn [json_of_fetches]. rewrite <- Hf. split; [|exact Hjs].
      exists metrics'. auto.
    + destruct (fst (poll fuel env g req targetTx eta metrics'
                          (push (polled g req w1) (EvPrintln j)))); try exact Hend.
      cbn [List.length]. rewrite Nat.add_succ_r, <- Hf. exact Hend.
Qed.

Lemma filter_quiet (p : Event -> bool) (tr : list Event) :
  Forall (fun e => p e = false) tr -> filter p tr = [].
Proof.
  induction 1 as [|e tr He _ IH]; [reflexivity|]. cbn [filter]. rewrite He. exact IH.
Qed.

Lemma forced_stops_quiet (p : Event -> bool) (tr : list Event) :
  (forall n e x, p (EvForcedStop n e x) = false) ->
  Forall (fun e => is_forced_stop e = true) tr ->
  Forall (fun e => p e = false) tr.
Proof.
  intros Hp H. eapply Forall_impl; [|exact H].
  intros [] He; try discriminate. apply Hp.
Qed.

Lemma count_rounds_fetch (d : Z) (req : MetricsChoice) (js : list string) :
  count is_fetch (rounds d req js) = List.length js.
Proof.
  unfold count, rounds. induction js as [|j js IH]; [reflexivity|].
  cbn [flat_map app filter is_fetch List.length]. rewrite IH. reflexivity.
Qed.

(** ** What holds at every event of a trace *)

Lemma at_each_nil (Q : nat -> Event -> list Event -> Prop) (n : nat) :
  at_each Q n [].
Proof. intros pre e post H. destruct pre; discriminate. Qed.

Lemma at_each_cons (Q : nat -> Event -> list Event -> Prop) (n : nat)
    (e : Event) (rest : list Event) :
  Q n e rest ->
  at_each Q (if is_fetch e then S n else n) rest ->
  at_each Q n (e :: rest).
Proof.
  intros He Hrest pre e' post Heq. destruct pre as [|x pre]; cbn [app] in Heq.
  - injection Heq as <- <-. cbn. rewrite Nat.add_0_r. exact He.
  - injection Heq as <- ->.
    replace (n + count is_fetch (e :: pre))%nat
      with ((if is_fetch e then S n else n) + count is_fetch pre)%nat
      by (unfold count; cbn [filter]; destruct (is_fetch e); cbn [List.length]; lia).
    apply Hrest. reflexivity.
Qed.

Lemma at_each_quiet (Q : nat -> Event -> list Event -> Prop) (n : nat)
    (a b : list Event) :
  Forall (fun e => is_fetch e = false /\ forall m post, Q m e post) a ->
  at_each Q n b -> at_each Q n (a ++ b).
Proof.
  intros Ha Hb. induction Ha as [|e a [He HQ] _ IH]; cbn [app]; [exact Hb|].
  apply at_each_cons; [apply HQ|]. rewrite He. exact IH.
Qed.

Section Protocol.
Variable env : Env.
Variable Q : nat -> Event -> list Event -> Prop.
Hypothesis Q_quiet : forall n e post, is_remote_call e = false -> Q n e post.
Hypothesis Q_config :
  forall n config post,
    match SetConfig env config with
    | Success _ => True
    | Failure err => post = [EvFatal err]
    end -> Q n (EvSetConfig config) post.
Hypothesis Q_state :
  forall n s post,
    match SetTransmitState env s with
    | Success _ => True
    | Failure err => post = [EvFatal err]
    end -> Q n (EvSetTransmitState s) post.
Hypothesis Q_fetch :
  forall n req post, fetch_answered env n req post -> Q n (EvGetMetrics req) post.

Lemma at_each_warnings (n : nat) (ws : list string) (tl : list Event) :
  at_each Q n tl -> at_each Q n (map EvWarning ws ++ tl).
Proof.
  apply at_each_quiet. apply Forall_map_warning. intros x.
  split; [reflexivity|]. intros. apply Q_quiet. reflexivity.
Qed.

Lemma at_each_forced_stops (n : nat) (stops tl : list Event) :
  Forall (fun e => is_forced_stop e = true) stops ->
  at_each Q n tl -> at_each Q n (stops ++ tl).
Proof.
  intros H. apply at_each_quiet. eapply Forall_impl; [|exact H].
  intros [] He; try discriminate. split; [reflexivity|].
  intros. apply Q_quiet. reflexivity.
Qed.

Lemma at_each_rounds (d : Z) (req : MetricsChoice) (js : list string) (n : nat)
    (tl : list Event) :
  json_of_fetches env req n js ->
  at_each Q (n + List.length js) tl ->
  at_each Q n (rounds d req js ++ tl).
Proof.
  revert n. induction js as [|j js IH]; intros n Hjs Htl.
  - cbn [rounds flat_map app List.length] in *. rewrite Nat.add_0_r in Htl. exact Htl.
  - destruct Hjs as [(mr & Hget & Hjson) Hjs].
    unfold rounds. cbn [flat_map]. rewrite <- app_assoc. cbn [app].
    apply at_each_cons; [apply Q_quiet; reflexivity|]. cbn [is_fetch].
    apply at_each_cons.
    { apply Q_fetch. unfold fetch_answered. rewrite Hget, Hjson. eauto. }
    cbn [is_fetch].
    apply at_each_cons; [apply Q_quiet; reflexivity|]. cbn [is_fetch].
    apply IH; [exact Hjs|].
    cbn [List.length] in Htl. rewrite Nat.add_succ_r in Htl. exact Htl.
Qed.

Ltac quiet_event := apply at_each_cons; [apply Q_quiet; reflexivity|]; cbn [is_fetch].

Lemma runTraffic_protocol (fuel : nat) (g : Flags) (config : Config) (w : World) :
  exists tr,
    trace (snd (runTraffic fuel env g config w)) = trace w ++ tr
    /\ at_each Q (fetches w) tr.
Proof.
  rewrite runTraffic_cases.
  destruct (SetConfig env config) as [ws1|err1] eqn:Hcfg.
  2:{ eexists. cbn [fst snd logged trace]. split; [reflexivity|].
      quiet_event.
      apply at_each_cons; [apply Q_config; rewrite Hcfg; reflexivity|]. cbn [is_fetch].
      quiet_event. apply at_each_nil. }
  destruct (SetTransmitState env START) as [ws2|err2] eqn:Hstart.
  2:{ eexists. cbn [fst snd logged trace]. split; [reflexivity|].
      cbn [app]. quiet_event.
      apply at_each_cons; [apply Q_config; rewrite Hcfg; exact I|]. cbn [is_fetch].
      apply at_each_warnings. cbn [app]. quiet_event. quiet_event.
      apply at_each_cons; [apply Q_state; rewrite Hstart; reflexivity|]. cbn [is_fetch].
      quiet_event. apply at_each_nil. }
  cbv zeta.
  assert (forall tl,
            fetch_answered env (fetches w) (metrics_request g) tl ->
            at_each Q (S (fetches w)) tl ->
            at_each Q (fetches w) (startup_events g config ws1 ws2 ++ tl)) as Hhead.
  { intros tl Hans Htl. unfold startup_events. rewrite <- !app_assoc. cbn [app].
    quiet_event.
    apply at_each_cons; [apply Q_config; rewrite Hcfg; exact I|]. cbn [is_fetch].
    apply at_each_warnings. cbn [app]. quiet_event. quiet_event.
    apply at_each_cons; [apply Q_state; rewrite Hstart; exact I|]. cbn [is_fetch].
    apply at_each_warnings. cbn [app]. quiet_event. quiet_event.
    apply at_each_cons; [apply Q_fetch; exact Hans|]. cbn [is_fetch]. exact Htl. }
  destruct (GetMetrics env (fetches w) (metrics_request g)) as [metrics|err3] eqn:Hget.
  2:{ eexists. cbn [fst snd logged fetched trace]. rewrite <- app_assoc.
      split; [reflexivity|]. apply Hhead.
      - unfold fetch_answered. rewrite Hget. reflexivity.
      - quiet_event. apply at_each_nil. }
  destruct (otgMetricsResponseToJson env metrics) as [j|err4] eqn:Hjson.
  2:{ eexists. cbn [fst snd logged fetched trace]. rewrite <- app_assoc.
      split; [reflexivity|]. apply Hhead.
      - unfold fetch_answered. rewrite Hget, Hjson. reflexivity.
      - quiet_event. apply at_each_nil. }
  assert (forall tl,
            at_each Q (S (fetches w)) tl ->
            at_each Q (fetches w)
                    (startup_events g config ws1 ws2 ++ [EvPrintln j; EvNow] ++ tl))
    as Hentry.
  { intros tl Htl. apply Hhead.
    - unfold fetch_answered. rewrite Hget, Hjson. cbn [app]. eauto.
    - cbn [app]. quiet_event. quiet_event. exact Htl. }
  match goal with |- context [poll fuel env g ?r ?t ?e metrics ?w0] =>
    destruct (poll_shape fuel env g r t e metrics w0) as (js & ending & Ht & Hjs & Hend);
    destruct (poll fuel env g r t e metrics w0) as [[[]| |] w2]
  end; cbn [fst snd logged fetched fetches trace] in *.
  - destruct (SetTransmitState env STOP) as [ws3|err5] eqn:Hstop;
      eexists; cbn [fst snd logged trace]; rewrite Ht, <- !app_assoc;
      (split; [reflexivity|]); apply Hentry; (apply at_each_rounds; [exact Hjs|]);
      (apply at_each_forced_stops; [exact Hend|]).
    + unfold stop_events. cbn [app]. quiet_event.
      apply at_each_cons; [apply Q_state; rewrite Hstop; exact I|]. cbn [is_fetch].
      apply at_each_warnings. quiet_event. apply at_each_nil.
    + quiet_event.
      apply at_each_cons; [apply Q_state; rewrite Hstop; reflexivity|]. cbn [is_fetch].
      quiet_event. apply at_each_nil.
  - destruct Hend as (err & -> & Hwhy).
    eexists. rewrite Ht, <- !app_assoc. split; [reflexivity|].
    apply Hentry. apply at_each_rounds; [exact Hjs|]. quiet_event.
    apply at_each_cons; [|cbn [is_fetch]; quiet_event; apply at_each_nil].
    apply Q_fetch. unfold fetch_answered.
    cbn [call_error print_error] in Hwhy.
    destruct (GetMetrics env (S (fetches w) + List.length js)
                         (metrics_request g)) as [mr|err'].
    + destruct (otgMetricsResponseToJson env mr) as [j'|err''];
        destruct Hwhy as [Hwhy|Hwhy]; try discriminate.
      injection Hwhy as ->. reflexivity.
    + destruct Hwhy as [Hwhy|Hwhy]; try discriminate.
      injection Hwhy as ->. reflexivity.
  - subst ending. eexists. rewrite Ht, <- !app_assoc. split; [reflexivity|].
    apply Hentry. apply at_each_rounds; [exact Hjs|]. apply at_each_nil.
Qed.

Lemma runCmd_protocol (fuel : nat) (g : Flags) (w : World) :
  exists tr,
    trace (snd (runCmd fuel env g w)) = trace w ++ tr
    /\ at_each Q (fetches w) tr.
Proof.
  assert (is_remote_call (read_event g) = false /\ is_fetch (read_event g) = false)
    as [Rr Rf] by (unfold read_event; destruct (negb _); split; reflexivity).
  destruct (runCmd_startup fuel env g w)
    as [(pre & msg & -> & Hpre)|(d & otg & config & _ & _ & _ & _ & ->)].
  - eexists. cbn [snd logged trace]. split; [reflexivity|].
    destruct Hpre as [-> | ->]; cbn [app].
    + quiet_event. apply at_each_nil.
    + apply at_each_cons; [apply Q_quiet; exact Rr|]. rewrite Rf.
      quiet_event. apply at_each_nil.
  - destruct (runTraffic_protocol fuel (set_otgPullInterval g d) config
                (logged w [read_event g])) as (tr & Ht & Hall).
    exists (read_event g :: tr). rewrite Ht. cbn [logged trace fetches] in *.
    rewrite <- app_assoc. split; [reflexivity|].
    apply at_each_cons; [apply Q_quiet; exact Rr|]. rewrite Rf. exact Hall.
Qed.

End Protocol.

(** ** Failures are fatal, warnings are not *)

(** Why a run exits: the call before the fatal error failed, or the
    snapshot it fetched cannot be printed. *)
Lemma runTraffic_exit_cause (fuel : nat) (env : Env) (g : Flags) (config : Config)
    (w : World) :
  exists tr,
    trace (snd (runTraffic fuel env g config w)) = trace w ++ tr
    /\ (fst (runTraffic fuel env g config w) = Exited ->
        exists pre e msg,
          tr = pre ++ [e; EvFatal msg]
          /\ (call_error env (fetches w + count is_fetch pre) e = Some msg
              \/ print_error env (fetches w + count is_fetch pre) e = Some msg)).
Proof.
  rewrite runTraffic_cases.
  destruct (SetConfig env config) as [ws1|err1] eqn:Hcfg.
  2:{ eexists. cbn [fst snd logged trace]. split; [reflexivity|]. intros _.
      exists [EvInfo "Applying OTG config..."], (EvSetConfig config), err1.
      split; [reflexivity|]. left. cbn [call_error]. rewrite Hcfg. reflexivity. }
  destruct (SetTransmitState env START) as [ws2|err2] eqn:Hstart.
  2:{ eexists. cbn [fst snd logged trace]. split; [reflexivity|]. intros _.
      exists ([EvInfo "Applying OTG config..."; EvSetConfig config]
              ++ map EvWarning ws1 ++ [EvInfo "ready."; EvInfo "Starting traffic..."]),
             (EvSetTransmitState START), err2.
      split; [rewrite <- !app_assoc; reflexivity|].
      left. cbn [call_error]. rewrite Hstart. reflexivity. }
  cbv zeta.
  set (req := metrics_request g).
  set (pre0 := [EvInfo "Applying OTG config..."; EvSetConfig config] ++ map EvWarning ws1
               ++ [EvInfo "ready."; EvInfo "Starting traffic..."; EvSetTransmitState START]
               ++ map EvWarning ws2
               ++ [EvInfo "started...";
                   EvTargets (fst (calculateTrafficTargets config))
                             (snd (calculateTrafficTargets config))]).
  assert (startup_events g config ws1 ws2 = pre0 ++ [EvGetMetrics req]) as Hstartup
    by (unfold startup_events, pre0; rewrite <- !app_assoc; reflexivity).
  assert (count is_fetch pre0 = 0%nat) as Hpre0
    by (unfold pre0; rewrite !count_app, !count_map_warning by reflexivity; reflexivity).
  assert (count is_fetch (startup_events g config ws1 ws2) = 1%nat) as Hf
    by (rewrite Hstartup, count_app, Hpre0; reflexivity).
  destruct (GetMetrics env (fetches w) req) as [metrics|err3] eqn:Hget.
  2:{ eexists. cbn [fst snd logged fetched trace]. rewrite <- app_assoc.
      split; [reflexivity|]. intros _. exists pre0, (EvGetMetrics req), err3.
      split; [rewrite Hstartup, <- app_assoc; reflexivity|].
      left. cbn [call_error]. rewrite Hpre0, Nat.add_0_r, Hget. reflexivity. }
  destruct (otgMetricsResponseToJson env metrics) as [j|err4] eqn:Hjson.
  2:{ eexists. cbn [fst snd logged fetched trace]. rewrite <- app_assoc.
      split; [reflexivity|]. intros _. exists pre0, (EvGetMetrics req), err4.
      split; [rewrite Hstartup, <- app_assoc; reflexivity|].
      right. cbn [print_error]. rewrite Hpre0, Nat.add_0_r, Hget, Hjson. reflexivity. }
  match goal with |- context [poll fuel env g ?r ?t ?e metrics ?w0] =>
    destruct (poll_shape fuel env g r t e metrics w0) as (js & ending & Ht & Hjs & Hend);
    destruct (poll fuel env g r t e metrics w0) as [[[]| |] w2]
  end; cbn [fst snd logged fetched fetches trace] in *.
  - destruct (SetTransmitState env STOP) as [ws3|err5] eqn:Hstop;
      eexists; cbn [fst snd logged trace]; rewrite Ht, <- !app_assoc;
      (split; [reflexivity|]); [discriminate|]. intros _.
    exists (startup_events g config ws1 ws2 ++ [EvPrintln j; EvNow]
            ++ rounds (otgPullInterval g) req js ++ ending
            ++ [EvInfo "Stopping traffic..."]),
           (EvSetTransmitState STOP), err5.
    split; [rewrite <- !app_assoc; reflexivity|].
    left. cbn [call_error]. rewrite Hstop. reflexivity.
  - destruct Hend as (err & -> & Hwhy).
    eexists. rewrite Ht, <- !app_assoc. split; [reflexivity|]. intros _.
    set (pre := startup_events g config ws1 ws2 ++ [EvPrintln j; EvNow]
                ++ rounds (otgPullInterval g) req js ++ [EvSleep (otgPullInterval g)]).
    assert (count is_fetch pre = S (List.length js)) as Hpre
      by (unfold pre; rewrite !count_app, Hf, count_rounds_fetch; cbn; lia).
    exists pre, (EvGetMetrics req), err.
    split; [unfold pre; rewrite <- !app_assoc; reflexivity|].
    rewrite Hpre, Nat.add_succ_r. exact Hwhy.
  - eexists. rewrite Ht, <- !app_assoc. split; [reflexivity|]. discriminate.
Qed.

(** X15.  A remote call that fails is fatal at once, and a warning never
    is.  Whenever SetConfig, SetTransmitState or GetMetrics returns an
    error, the very next event is the fatal log of that error, nothing
    follows it and the command exits: no retry, no STOP sent as a
    clean-up.  And the command exits for no other reason than an error
    of its start (before any remote call), of the remote call just
    made, or of the serialisation of the snapshot just fetched. *)
Theorem runCmd_failures_are_fatal (fuel : nat) (env : Env) (g : Flags) (w : World) :
  exists tr,
    trace (snd (runCmd fuel env g w)) = trace w ++ tr
    /\ (forall pre e post err,
          tr = pre ++ e :: post ->
          call_error env (fetches w + count is_fetch pre) e = Some err ->
          post = [EvFatal err] /\ fst (runCmd fuel env g w) = Exited)
    /\ (fst (runCmd fuel env g w) = Exited ->
        exists pre msg,
          tr = pre ++ [EvFatal msg]
          /\ (count is_remote_call pre = 0%nat
              \/ exists pre' e,
                   pre = pre' ++ [e]
                   /\ (call_error env (fetches w + count is_fetch pre') e = Some msg
                       \/ print_error env (fetches w + count is_fetch pre') e
                          = Some msg))).
Proof.
  destruct (runCmd_protocol env
              (fun n e post => forall err, call_error env n e = Some err ->
                                           post = [EvFatal err])) with
    (fuel := fuel) (g := g) (w := w) as (tr & Ht & Hall).
  { intros n [] post Hq err He; try discriminate Hq; discriminate He. }
  { intros n config post Hq err He. cbn [call_error] in He.
    destruct (SetConfig env config); [discriminate|]. injection He as <-. exact Hq. }
  { intros n s post Hq err He. cbn [call_error] in He.
    destruct (SetTransmitState env s); [discriminate|]. injection He as <-. exact Hq. }
  { intros n req post Hq err He. unfold fetch_answered in Hq. cbn [call_error] in He.
    destruct (GetMetrics env n req); [discriminate|]. injection He as <-. exact Hq. }
  exists tr. split; [exact Ht|]. split.
  - intros pre e post err Heq He.
    assert (post = [EvFatal err]) as -> by (exact (Hall pre e post Heq err He)).
    split; [reflexivity|].
    destruct (runCmd_ends_fatally fuel env g w) as (tr' & Ht' & Hfatal).
    rewrite Ht in Ht'. apply app_inv_head in Ht'. subst tr'.
    destruct (fst (runCmd fuel env g w)); [|reflexivity|]; exfalso;
      unfold ends_fatally in Hfatal; rewrite Heq, count_app in Hfatal;
      unfold count at 2 in Hfatal; cbn [filter is_fatal] in Hfatal;
      destruct (is_fatal e); cbn [List.length] in Hfatal; lia.
  - intros Hexit.
    assert (is_fetch (read_event g) = false) as Rf
      by (unfold read_event; destruct (negb _); reflexivity).
    assert (is_remote_call (read_event g) = false) as Rr
      by (unfold read_event; destruct (negb _); reflexivity).
    destruct (runCmd_startup fuel env g w)
      as [(pre & msg & Hrun & Hpre)|(d & otg & config & _ & _ & _ & _ & Hrun)];
      rewrite Hrun in Ht, Hexit.
    + cbn [snd logged trace] in Ht. apply app_inv_head in Ht. subst tr.
      exists pre, msg. split; [reflexivity|]. left.
      destruct Hpre as [-> | ->]; [reflexivity|].
      unfold count. cbn [filter]. rewrite Rr. reflexivity.
    + destruct (runTraffic_exit_cause fuel env (set_otgPullInterval g d) config
                  (logged w [read_event g])) as (tr' & Ht' & Hwhy).
      rewrite Ht in Ht'. cbn [logged trace] in Ht'. rewrite <- app_assoc in Ht'.
      apply app_inv_head in Ht'. subst tr.
      destruct (Hwhy Hexit) as (pre & e & msg & -> & Hcause).
      cbn [logged fetches] in Hcause.
      exists ([read_event g] ++ pre ++ [e]), msg.
      split; [rewrite <- !app_assoc; reflexivity|].
      right. exists (read_event g :: pre), e. split; [reflexivity|].
      rewrite count_cons_quiet by exact Rf. exact Hcause.
Qed.

(** ** The pace of the polls *)

Lemma filter_warnings (p : Event -> bool) (ws : list string) :
  (forall x, p (EvWarning x) = false) -> filter p (map EvWarning ws) = [].
Proof. intros H. apply filter_quiet, Forall_map_warning. exact H. Qed.

Lemma filter_rounds (d : Z) (req : MetricsChoice) (js : list string) :
  filter is_sleep_or_fetch (rounds d req js) = sleep_fetch d req (List.length js).
Proof.
  unfold rounds. induction js as [|j js IH]; [reflexivity|].
  cbn [flat_map app filter is_sleep_or_fetch is_sleep is_fetch orb List.length sleep_fetch].
  rewrite IH. reflexivity.
Qed.

Lemma sleep_fetch_snoc (d : Z) (req : MetricsChoice) (k : nat) :
  sleep_fetch d req k ++ [EvSleep d; EvGetMetrics req] = sleep_fetch d req (S k).
Proof.
  induction k as [|k IH]; [reflexivity|].
  cbn [sleep_fetch app] in *. rewrite IH. reflexivity.
Qed.

Lemma filter_startup_events (g : Flags) (config : Config) (ws1 ws2 : list string) :
  filter is_sleep_or_fetch (startup_events g config ws1 ws2)
  = [EvGetMetrics (metrics_request g)].
Proof.
  unfold startup_events. rewrite !filter_app, !filter_warnings by reflexivity.
  reflexivity.
Qed.

(** A run fetches first; then each sleep is followed by one fetch. *)
Lemma runTraffic_paced (fuel : nat) (env : Env) (g : Flags) (config : Config)
    (w : World) :
  exists tr,
    trace (snd (runTraffic fuel env g config w)) = trace w ++ tr
    /\ (filter is_sleep_or_fetch tr = []
        \/ exists k,
             filter is_sleep_or_fetch tr
             = EvGetMetrics (metrics_request g)
               :: sleep_fetch (otgPullInterval g) (metrics_request g) k).
Proof.
  rewrite runTraffic_cases.
  destruct (SetConfig env config) as [ws1|err1].
  2:{ eexists. cbn [fst snd logged trace]. split; [reflexivity|]. left. reflexivity. }
  destruct (SetTransmitState env START) as [ws2|err2].
  2:{ eexists. cbn [fst snd logged trace]. split; [reflexivity|]. left.
      rewrite !filter_app, !filter_warnings by reflexivity. reflexivity. }
  cbv zeta.
  destruct (GetMetrics env (fetches w) (metrics_request g)) as [metrics|err3].
  2:{ eexists. cbn [fst snd logged fetched trace]. rewrite <- app_assoc.
      split; [reflexivity|]. right. exists O.
      rewrite filter_app, filter_startup_events. reflexivity. }
  destruct (otgMetricsResponseToJson env metrics) as [j|err4].
  2:{ eexists. cbn [fst snd logged fetched trace]. rewrite <- app_assoc.
      split; [reflexivity|]. right. exists O.
      rewrite filter_app, filter_startup_events. reflexivity. }
  match goal with |- context [poll fuel env g ?r ?t ?e metrics ?w0] =>
    destruct (poll_shape fuel env g r t e metrics w0) as (js & ending & Ht & _ & Hend);
    destruct (poll fuel env g r t e metrics w0) as [[[]| |] w2]
  end; cbn [fst snd logged fetched fetches trace] in *.
  - assert (filter is_sleep_or_fetch ending = []) as Hquiet
      by (apply filter_quiet, forced_stops_quiet; [reflexivity|exact Hend]).
    destruct (SetTransmitState env STOP) as [ws3|err5];
      eexists; cbn [fst snd logged trace]; rewrite Ht, <- !app_assoc;
      (split; [reflexivity|]); right; exists (List.length js);
      unfold stop_events;
      rewrite !filter_app, filter_startup_events, filter_rounds, Hquiet,
        ?filter_warnings by reflexivity;
      cbn [filter is_sleep_or_fetch is_sleep is_fetch orb app];
      rewrite ?app_nil_r; reflexivity.
  - destruct Hend as (err & -> & _).
    eexists. rewrite Ht, <- !app_assoc. split; [reflexivity|].
    right. exists (S (List.length js)).
    rewrite !filter_app, filter_startup_events, filter_rounds.
    cbn [filter is_sleep_or_fetch is_sleep is_fetch orb app].
    rewrite sleep_fetch_snoc. reflexivity.
  - subst ending. eexists. rewrite Ht, <- !app_assoc. split; [reflexivity|].
    right. exists (List.length js).
    rewrite !filter_app, filter_startup_events, filter_rounds.
    cbn [filter is_sleep_or_fetch is_sleep is_fetch orb app].
    rewrite ?app_nil_r. reflexivity.
Qed.

(** X16.  The command never sleeps before its first fetch and fetches
    exactly once after each sleep, each sleep lasting the interval it
    parsed: its sleeps and fetches, in the order they happen, are one
    fetch followed by pairs of a sleep of that interval and a fetch, all
    fetches for the metrics of the mode; or there is none of either. *)
Theorem runCmd_sleeps_and_fetches (fuel : nat) (env : Env) (g : Flags) (w : World) :
  exists tr,
    trace (snd (runCmd fuel env g w)) = trace w ++ tr
    /\ (filter is_sleep_or_fetch tr = []
        \/ exists d k,
             ParseDuration env (otgPullIntervalStr g) = Success d
             /\ filter is_sleep_or_fetch tr
                = EvGetMetrics (metrics_request g)
                  :: sleep_fetch d (metrics_request g) k).
Proof.
  assert (is_sleep_or_fetch (read_event g) = false) as Rq
    by (unfold read_event; destruct (negb _); reflexivity).
  destruct (runCmd_startup fuel env g w)
    as [(pre & msg & -> & Hpre)|(d & otg & config & _ & Hd & _ & _ & ->)].
  - eexists. cbn [snd logged trace]. split; [reflexivity|]. left.
    destruct Hpre as [-> | ->]; cbn [app filter]; rewrite ?Rq; reflexivity.
  - destruct (runTraffic_paced fuel env (set_otgPullInterval g d) config
                (logged w [read_event g])) as (tr & Ht & Hpace).
    exists (read_event g :: tr). rewrite Ht. cbn [logged trace].
    rewrite <- app_assoc. split; [reflexivity|].
    cbn [filter]. rewrite Rq.
    destruct Hpace as [Hnone|(k & Hk)]; [left; exact Hnone|].
    right. exists d, k. split; [exact Hd|]. exact Hk.
Qed.

(** ** What is fetched is printed *)

Lemma printed_after_fetch_app (b : bool) (a c : list Event) :
  printed_after_fetch b (a ++ c)
  = printed_after_fetch b a && printed_after_fetch (ends_with_fetch b a) c.
Proof.
  revert b. induction a as [|e a IH]; intros b; [reflexivity|].
  cbn [app printed_after_fetch ends_with_fetch fold_left].
  rewrite IH. unfold ends_with_fetch. rewrite andb_assoc. reflexivity.
Qed.

Lemma self_contained_nil : self_contained [].
Proof. split; reflexivity. Qed.

Lemma self_contained_app (a b : list Event) :
  self_contained a -> self_contained b -> self_contained (a ++ b).
Proof.
  intros [Ha1 Ha2] [Hb1 Hb2]. split.
  - rewrite printed_after_fetch_app, Ha1, Ha2, Hb1. reflexivity.
  - unfold ends_with_fetch in *. rewrite fold_left_app, Ha2. exact Hb2.
Qed.

Lemma self_contained_cons (e : Event) (rest : list Event) :
  is_println e = false -> is_fetch e = false ->
  self_contained rest -> self_contained (e :: rest).
Proof.
  intros Hp Hf [H1 H2]. split.
  - cbn [printed_after_fetch]. rewrite Hp, Hf. exact H1.
  - unfold ends_with_fetch in *. cbn [fold_left]. rewrite Hf. exact H2.
Qed.

Lemma self_contained_fetch (req : MetricsChoice) (e : Event) (rest : list Event) :
  is_fetch e = false ->
  self_contained rest -> self_contained (EvGetMetrics req :: e :: rest).
Proof.
  intros Hf [H1 H2]. split.
  - cbn [printed_after_fetch is_println is_fetch]. rewrite Hf, H1.
    destruct (is_println e); reflexivity.
  - unfold ends_with_fetch in *. cbn [fold_left]. rewrite Hf. exact H2.
Qed.

Lemma self_contained_quiet (tr : list Event) :
  Forall (fun e => is_println e = false /\ is_fetch e = false) tr ->
  self_contained tr.
Proof.
  induction 1 as [|e tr [Hp Hf] _ IH]; [apply self_contained_nil|].
  apply self_contained_cons; assumption.
Qed.

Lemma self_contained_warnings (ws : list string) : self_contained (map EvWarning ws).
Proof.
  apply self_contained_quiet, Forall_map_warning. intros; split; reflexivity.
Qed.

Lemma self_contained_forced_stops (stops : list Event) :
  Forall (fun e => is_forced_stop e = true) stops -> self_contained stops.
Proof.
  intros H. apply self_contained_quiet. eapply Forall_impl; [|exact H].
  intros [] He; try discriminate. split; reflexivity.
Qed.

Lemma self_contained_rounds (d : Z) (req : MetricsChoice) (js : list string) :
  self_contained (rounds d req js).
Proof.
  unfold rounds. induction js as [|j js IH]; [apply self_contained_nil|].
  cbn [flat_map]. apply self_contained_app; [split; reflexivity|exact IH].
Qed.

Ltac self_contained_trace :=
  repeat first
    [ apply self_contained_nil
    | apply self_contained_warnings
    | apply self_contained_rounds
    | apply self_contained_forced_stops; assumption
    | apply self_contained_fetch; [reflexivity|]
    | apply self_contained_cons; [reflexivity|reflexivity|]
    | apply self_contained_app ].

(** In a run nothing is printed but right after a fetch. *)
Lemma runTraffic_self_contained (fuel : nat) (env : Env) (g : Flags)
    (config : Config) (w : World) :
  exists tr,
    trace (snd (runTraffic fuel env g config w)) = trace w ++ tr
    /\ self_contained tr.
Proof.
  rewrite runTraffic_cases.
  destruct (SetConfig env config) as [ws1|err1].
  2:{ eexists. cbn [fst snd logged trace]. split; [reflexivity|].
      self_contained_trace. }
  destruct (SetTransmitState env START) as [ws2|err2].
  2:{ eexists. cbn [fst snd logged trace]. split; [reflexivity|].
      cbn [app]. self_contained_trace. }
  cbv zeta. unfold startup_events.
  destruct (GetMetrics env (fetches w) (metrics_request g)) as [metrics|err3].
  2:{ eexists. cbn [fst snd logged fetched trace]. rewrite <- !app_assoc.
      split; [reflexivity|]. cbn [app]. self_contained_trace. }
  destruct (otgMetricsResponseToJson env metrics) as [j|err4].
  2:{ eexists. cbn [fst snd logged fetched trace]. rewrite <- !app_assoc.
      split; [reflexivity|]. cbn [app]. self_contained_trace. }
  match goal with |- context [poll fuel env g ?r ?t ?e metrics ?w0] =>
    destruct (poll_shape fuel env g r t e metrics w0) as (js & ending & Ht & _ & Hend);
    destruct (poll fuel env g r t e metrics w0) as [[[]| |] w2]
  end; cbn [fst snd logged fetched fetches trace] in *.
  - destruct (SetTransmitState env STOP) as [ws3|err5];
      eexists; cbn [fst snd logged trace]; rewrite Ht, <- !app_assoc;
      (split; [reflexivity|]); unfold stop_events; cbn [app]; self_contained_trace.
  - destruct Hend as (err & -> & _).
    eexists. rewrite Ht, <- !app_assoc. split; [reflexivity|].
    cbn [app]. self_contained_trace.
  - subst ending. eexists. rewrite Ht, <- !app_assoc. split; [reflexivity|].
    cbn [app]. self_contained_trace.
Qed.

Lemma println_follows_fetch (b : bool) (tr pre post : list Event) (j : string) :
  printed_after_fetch b tr = true ->
  tr = pre ++ EvPrintln j :: post ->
  (pre = [] /\ b = true) \/ exists pre' req, pre = pre' ++ [EvGetMetrics req].
Proof.
  revert b tr. induction pre as [|x pre IH]; intros b tr Hok ->.
  - cbn in Hok. apply andb_prop in Hok. left. split; [reflexivity|apply Hok].
  - cbn [app printed_after_fetch] in Hok. apply andb_prop in Hok.
    destruct Hok as [_ Hok]. right.
    destruct (IH _ _ Hok eq_refl) as [[-> Hx]|(pre' & req & ->)].
    + destruct x; try discriminate Hx. exists [], choice. reflexivity.
    + exists (x :: pre'), req. reflexivity.
Qed.

(** X19.  The command prints the JSON of every snapshot it fetches,
    right after the fetch, and prints nothing else.  Each fetch is
    directly followed by the JSON text of the snapshot that this very
    fetch returned, or, when the fetch or the serialisation failed, by
    the fatal log of that error, which ends the run; and each printed
    line directly follows a fetch, of whose snapshot it is the JSON
    text. *)
Theorem runCmd_prints_what_it_fetches (fuel : nat) (env : Env) (g : Flags)
    (w : World) :
  exists tr,
    trace (snd (runCmd fuel env g w)) = trace w ++ tr
    /\ (forall pre req post,
          tr = pre ++ EvGetMetrics req :: post ->
          fetch_answered env (fetches w + count is_fetch pre) req post)
    /\ (forall pre j post,
          tr = pre ++ EvPrintln j :: post ->
          exists pre' req mr,
            pre = pre' ++ [EvGetMetrics req]
            /\ GetMetrics env (fetches w + count is_fetch pre') req = Success mr
            /\ otgMetricsResponseToJson env mr = Success j).
Proof.
  destruct (runCmd_protocol env
              (fun n e post =>
                 match e with
                 | EvGetMetrics req => fetch_answered env n req post
                 | _ => True
                 end)) with
    (fuel := fuel) (g := g) (w := w) as (tr & Ht & Hall).
  { intros n [] post Hq; try exact I. discriminate Hq. }
  { intros; exact I. }
  { intros; exact I. }
  { intros n req post Hq. exact Hq. }
  assert (forall pre req post,
            tr = pre ++ EvGetMetrics req :: post ->
            fetch_answered env (fetches w + count is_fetch pre) req post) as Hfetch
    by (intros pre req post Heq; exact (Hall pre (EvGetMetrics req) post Heq)).
  exists tr. split; [exact Ht|]. split; [exact Hfetch|].
  assert (self_contained tr) as [Hok _].
  { assert (is_println (read_event g) = false /\ is_fetch (read_event g) = false)
      as [Rp Rf] by (unfold read_event; destruct (negb _); split; reflexivity).
    destruct (runCmd_startup fuel env g w)
      as [(pre & msg & Hrun & Hpre)|(d & otg & config & _ & _ & _ & _ & Hrun)];
      rewrite Hrun in Ht.
    - cbn [snd logged trace] in Ht. apply app_inv_head in Ht. subst tr.
      destruct Hpre as [-> | ->]; cbn [app].
      + self_contained_trace.
      + apply self_contained_cons; [exact Rp|exact Rf|]. self_contained_trace.
    - destruct (runTraffic_self_contained fuel env (set_otgPullInterval g d) config
                  (logged w [read_event g])) as (tr' & Ht' & Hsc).
      rewrite Ht in Ht'. cbn [logged trace] in Ht'. rewrite <- app_assoc in Ht'.
      apply app_inv_head in Ht'. subst tr. cbn [app].
      apply self_contained_cons; assumption. }
  intros pre j post Heq.
  destruct (println_follows_fetch false tr pre post j Hok Heq)
    as [[_ Hb]|(pre' & req & ->)]; [discriminate|].
  rewrite <- app_assoc in Heq. cbn [app] in Heq.
  specialize (Hfetch pre' req (EvPrintln j :: post) Heq).
  unfold fetch_answered in Hfetch.
  destruct (GetMetrics env (fetches w + count is_fetch pre') req) as [mr|err] eqn:Hget;
    [|discriminate].
  destruct (otgMetricsResponseToJson env mr) as [j'|err] eqn:Hjson; [|discriminate].
  destruct Hfetch as (post' & Hp). injection Hp as -> _.
  exists pre', req, mr. auto.
Qed.
